(** * REI gateway (main.py): a shallow embedding and its specification

    The service is one Python module: it builds the registry [rei_agents]
    from the process environment when it is imported, and serves three
    routes, [POST /chat/{unit_id}], [GET /units] and [GET /health].

    Conventions of the embedding.
    - A Python [str] is a [string]; a character is a code point below 256,
      so [lower] and [repr] are the Latin-1 fragment of Python's.  Module
      [Unicode] has the names of the units over all code points, with
      [lower] after the Unicode tables, and the two are related.
    - A Python [dict] is an association list in insertion order; assigning
      to a key that is present keeps its position and replaces its value.
    - A handler is a computation over the module's state (the registry and
      the outbound requests sent so far) that returns a value or raises.
    - Calls to [logger] write to the log sink only and are left out. *)

From Stdlib Require Import String Ascii List ZArith NArith Bool Lia Floats.
From Stdlib Require Import DecimalString.
Import ListNotations.

Local Open Scope string_scope.
Local Open Scope list_scope.

(** ** Python strings *)

Module PyStr.

Definition code (c : ascii) : N := N_of_ascii c.

(** [c.isupper()] for one character: A-Z, and the Latin-1 capitals
    U+00C0..U+00DE except the multiplication sign U+00D7. *)
Definition char_isupper (c : ascii) : bool :=
  let n := code c in
  ((65 <=? n) && (n <=? 90) ||
   (192 <=? n) && (n <=? 222) && negb (n =? 215))%N.

(** [c.lower()] for one character. *)
Definition char_lower (c : ascii) : ascii :=
  if char_isupper c then ascii_of_N (code c + 32) else c.

(** [s.lower()] *)
Fixpoint lower (s : string) : string :=
  match s with
  | EmptyString => EmptyString
  | String c s' => String (char_lower c) (lower s')
  end.

(** Some character of [s] is an uppercase letter. *)
Fixpoint has_upper (s : string) : bool :=
  match s with
  | EmptyString => false
  | String c s' => char_isupper c || has_upper s'
  end.

(** [s.startswith(p)]: what is left of [s] after the prefix [p]. *)
Fixpoint strip_prefix (p s : string) : option string :=
  match p, s with
  | EmptyString, _ => Some s
  | String a p', String b s' =>
      if Ascii.eqb a b then strip_prefix p' s' else None
  | String _ _, EmptyString => None
  end.

Definition startswith (s p : string) : bool :=
  match strip_prefix p s with Some _ => true | None => false end.

(** [needle in s] for two strings. *)
Fixpoint contains (s needle : string) : bool :=
  startswith s needle ||
  match s with
  | EmptyString => false
  | String _ s' => contains s' needle
  end.

(** [s.replace(old, new)] for a non-empty [old]: the occurrences of [old]
    are replaced from the left, and the scan resumes after each one.
    [fuel] bounds the number of steps; every step consumes a character,
    so [length s] steps are enough ([replace_steps_enough]). *)
Fixpoint replace_steps (fuel : nat) (s old new : string) : string :=
  match fuel with
  | O => s
  | S fuel' =>
      match s with
      | EmptyString => EmptyString
      | String c s' =>
          match strip_prefix old s with
          | Some rest => new ++ replace_steps fuel' rest old new
          | None => String c (replace_steps fuel' s' old new)
          end
      end
  end.

Definition replace (s old new : string) : string :=
  replace_steps (String.length s) s old new.

(** *** [repr] of a string and of a list of strings *)

Definition hex_digit (n : N) : ascii :=
  if (n <? 10)%N then ascii_of_N (48 + n) else ascii_of_N (87 + n).

(** [c.isprintable()] for one character: in Latin-1 the controls
    (C0, DEL, C1), the no-break space and the soft hyphen are not. *)
Definition char_isprintable (c : ascii) : bool :=
  let n := code c in
  ((32 <=? n) && (n <? 127) ||
   (161 <=? n) && negb (n =? 173))%N.

Definition backslash : ascii := ascii_of_N 92.
Definition squote : ascii := ascii_of_N 39.
Definition dquote : ascii := ascii_of_N 34.

(** One character inside a literal delimited by [quote]. *)
Definition repr_char (quote c : ascii) : string :=
  if Ascii.eqb c quote || Ascii.eqb c backslash then
    String backslash (String c EmptyString)
  else if (code c =? 9)%N then String backslash "t"
  else if (code c =? 10)%N then String backslash "n"
  else if (code c =? 13)%N then String backslash "r"
  else if char_isprintable c then String c EmptyString
  else String backslash
         (String "x" (String (hex_digit (code c / 16))
                        (String (hex_digit (code c mod 16)) EmptyString))).

Fixpoint has_char (q : ascii) (s : string) : bool :=
  match s with
  | EmptyString => false
  | String c s' => Ascii.eqb c q || has_char q s'
  end.

Fixpoint repr_body (quote : ascii) (s : string) : string :=
  match s with
  | EmptyString => EmptyString
  | String c s' => repr_char quote c ++ repr_body quote s'
  end.

(** [repr(s)]: single quotes, unless [s] has a single quote and no double
    quote. *)
Definition repr (s : string) : string :=
  let quote :=
    if has_char squote s && negb (has_char dquote s) then dquote else squote in
  String quote (repr_body quote s ++ String quote EmptyString).

Fixpoint join (sep : string) (l : list string) : string :=
  match l with
  | [] => EmptyString
  | [x] => x
  | x :: l' => x ++ sep ++ join sep l'
  end.

(** [str(l)] for a list [l] of strings. *)
Definition repr_list (l : list string) : string :=
  "[" ++ join ", " (map repr l) ++ "]".

(** *** Reading a [repr] back *)

Definition hex_value (c : ascii) : option N :=
  let n := code c in
  if ((48 <=? n) && (n <=? 57))%N then Some (n - 48)%N
  else if ((97 <=? n) && (n <=? 102))%N then Some (n - 87)%N
  else None.

(** Reading back the inside of a literal delimited by [quote]: the text up
    to the closing quote, and what follows it. *)
Fixpoint unrepr_body (quote : ascii) (s : string) : option (string * string) :=
  match s with
  | EmptyString => None
  | String c s1 =>
      if Ascii.eqb c quote then Some (EmptyString, s1)
      else if Ascii.eqb c backslash then
        match s1 with
        | EmptyString => None
        | String e s2 =>
            if Ascii.eqb e "x" then
              match s2 with
              | String h1 (String h2 s3) =>
                  match hex_value h1, hex_value h2, unrepr_body quote s3 with
                  | Some a, Some b, Some (r, rest) =>
                      Some (String (ascii_of_N (16 * a + b)) r, rest)
                  | _, _, _ => None
                  end
              | _ => None
              end
            else
              let c' :=
                if Ascii.eqb e "t" then ascii_of_N 9
                else if Ascii.eqb e "n" then ascii_of_N 10
                else if Ascii.eqb e "r" then ascii_of_N 13
                else e in
              match unrepr_body quote s2 with
              | Some (r, rest) => Some (String c' r, rest)
              | None => None
              end
        end
      else
        match unrepr_body quote s1 with
        | Some (r, rest) => Some (String c r, rest)
        | None => None
        end
  end.

(** Reading back a literal written by [repr]. *)
Definition unrepr (s : string) : option (string * string) :=
  match s with
  | EmptyString => None
  | String q s' =>
      if Ascii.eqb q squote || Ascii.eqb q dquote then unrepr_body q s'
      else None
  end.

End PyStr.

(** ** Python dictionaries with string keys *)

Module PyDict.
Section Dict.
Context {V : Type}.

Definition t := list (string * V).

(** [d.get(k)] *)
Fixpoint get (d : t) (k : string) : option V :=
  match d with
  | [] => None
  | (k', v) :: d' => if String.eqb k k' then Some v else get d' k
  end.

(** [k in d] *)
Definition mem (k : string) (d : t) : bool :=
  match get d k with Some _ => true | None => false end.

(** [d[k] = v] *)
Fixpoint set (d : t) (k : string) (v : V) : t :=
  match d with
  | [] => [(k, v)]
  | (k', v') :: d' =>
      if String.eqb k k' then (k', v) :: d' else (k', v') :: set d' k v
  end.

(** [list(d.keys())] *)
Definition keys (d : t) : list string := map fst d.

(** [len(d)] *)
Definition len (d : t) : Z := Z.of_nat (List.length d).
End Dict.
Arguments t : clear implicits.
End PyDict.

(** ** Loading the registry (main.py, lines 47-52) *)

Abbreviation SECRET_PREFIX := "REI_AGENT_SECRET_"%string (only parsing).

(** One iteration of the loop over [os.environ.items()]. *)
Definition load_step (rei_agents : PyDict.t string) (item : string * string)
  : PyDict.t string :=
  let '(key, value) := item in
  if PyStr.startswith key SECRET_PREFIX && negb (String.eqb value "") then
    let unit_name := PyStr.lower (PyStr.replace key SECRET_PREFIX "") in
    PyDict.set rei_agents unit_name value
  else rei_agents.

Definition load_agents (environ : list (string * string)) : PyDict.t string :=
  fold_left load_step environ [].

(** ** Python values *)

(** What [json.loads] builds, and what a handler returns to FastAPI. *)
#[warnings="-register-all"]
Inductive pyval : Type :=
| PNone
| PBool (b : bool)
| PInt (n : Z)
| PFloat (x : float)
| PStr (s : string)
| PList (l : list pyval)
| PDict (d : list (string * pyval)).

Inductive pytype : Type :=
| NoneType | bool_t | int_t | float_t | str_t | list_t | dict_t.

Definition type_of (v : pyval) : pytype :=
  match v with
  | PNone => NoneType
  | PBool _ => bool_t
  | PInt _ => int_t
  | PFloat _ => float_t
  | PStr _ => str_t
  | PList _ => list_t
  | PDict _ => dict_t
  end.

(** ** Exceptions *)

(** The operation a [TypeError] comes from. *)
Inductive type_error : Type :=
| not_a_container      (* [k in v] *)
| bad_index            (* [v[k]] for a string [k], [v] a list or a string *)
| not_subscriptable    (* [v[k]], [v] not a container *)
| no_len.              (* [len(v)] *)

(** The exceptions other than [HTTPException] that reach the handlers of
    [chat_with_specific_unit]. *)
Inductive pyexn : Type :=
| ReadTimeout (description : string)             (* httpx.ReadTimeout *)
| LibraryError (cls description : string)        (* any other exception raised inside client.post *)
| DecodeError (description : string)             (* raised by response.json() on a body that is not JSON *)
| TypeError (op : type_error) (operand : pytype)
| AttributeError (operand : pytype) (attribute : string)
| IndexError (operand : pytype)
| KeyError (key : pyval).

(** The [detail] of an [HTTPException]: a text, or [str(e)] for a caught
    exception [e], whose wording is the Python runtime's. *)
Inductive detail_t : Type :=
| Text (s : string)
| StrOf (e : pyexn).

Record HTTPException : Type := mkHTTPException {
  status_code : Z;
  detail : detail_t
}.

Inductive raised : Type :=
| RaiseHTTP (h : HTTPException)
| RaiseExn (e : pyexn).

(** ** The outbound side: httpx *)

Record Request : Type := mkRequest {
  req_method : string;
  req_url : string;
  req_json : pyval;
  req_headers : list (string * string);
  req_timeout : Z                      (* seconds *)
}.

Record Response : Type := mkResponse {
  resp_status_code : Z;
  resp_text : string;
  resp_json : string + pyval           (* the body decoded, or why it cannot be *)
}.

(** [response.json()] *)
Definition response_json (response : Response) : pyexn + pyval :=
  match resp_json response with
  | inl description => inl (DecodeError description)
  | inr data => inr data
  end.

(** What the network answers to a request: a response, or an exception
    raised inside [client.post]. *)
Definition upstream_t : Type := Request -> pyexn + Response.

(** ** The module's state and its computations *)

Record State : Type := mkState {
  rei_agents : PyDict.t string;
  sent : list Request                  (* outbound requests, oldest first *)
}.

Definition M (A : Type) : Type := State -> (raised + A) * State.

Definition ret {A} (a : A) : M A := fun st => (inr a, st).

Definition bind {A B} (m : M A) (k : A -> M B) : M B :=
  fun st =>
    match m st with
    | (inl e, st') => (inl e, st')
    | (inr a, st') => k a st'
    end.

Definition raise {A} (e : raised) : M A := fun st => (inl e, st).

Definition raise_http {A} (code : Z) (d : detail_t) : M A :=
  raise (RaiseHTTP (mkHTTPException code d)).

Definition raise_exn {A} (e : pyexn) : M A := raise (RaiseExn e).

(** [try: m  except ...: handler] *)
Definition try_except {A} (m : M A) (handler : raised -> M A) : M A :=
  fun st =>
    match m st with
    | (inl e, st') => handler e st'
    | (inr a, st') => (inr a, st')
    end.

Definition get_agents : M (PyDict.t string) := fun st => (inr (rei_agents st), st).

(** Lift the result of an operation that raises or returns. *)
Definition lift {A} (r : pyexn + A) : M A :=
  match r with
  | inl e => raise_exn e
  | inr a => ret a
  end.

Notation "x <- m ;; k" := (bind m (fun x => k))
  (at level 61, m at next level, right associativity).

(** [await client.post(url, json=..., headers=...)] on a client made with
    [timeout]: the request goes out, then the answer comes back. *)
Definition client_post (upstream : upstream_t) (timeout : Z) (url : string)
    (json : pyval) (headers : list (string * string)) : M Response :=
  fun st =>
    let req := mkRequest "POST" url json headers timeout in
    let st' := mkState (rei_agents st) (sent st ++ [req]) in
    match upstream req with
    | inl e => (inl (RaiseExn e), st')
    | inr r => (inr r, st')
    end.

(** ** Operations on values used by the chat handler *)

Fixpoint list_has_str (k : string) (l : list pyval) : bool :=
  match l with
  | [] => false
  | PStr s :: l' => String.eqb s k || list_has_str k l'
  | _ :: l' => list_has_str k l'
  end.

(** [k in v] for a string [k] *)
Definition py_contains (k : string) (v : pyval) : pyexn + bool :=
  match v with
  | PDict d => inr (PyDict.mem k d)
  | PList l => inr (list_has_str k l)
  | PStr s => inr (PyStr.contains s k)
  | _ => inl (TypeError not_a_container (type_of v))
  end.

(** [v[k]] for a string [k] *)
Definition py_getitem_str (v : pyval) (k : string) : pyexn + pyval :=
  match v with
  | PDict d =>
      match PyDict.get d k with
      | Some x => inr x
      | None => inl (KeyError (PStr k))
      end
  | PList _ | PStr _ => inl (TypeError bad_index (type_of v))
  | _ => inl (TypeError not_subscriptable (type_of v))
  end.

(** [len(v)] *)
Definition py_len (v : pyval) : pyexn + Z :=
  match v with
  | PList l => inr (Z.of_nat (List.length l))
  | PDict d => inr (Z.of_nat (List.length d))
  | PStr s => inr (Z.of_nat (String.length s))
  | _ => inl (TypeError no_len (type_of v))
  end.

(** [v[0]]; the keys of a dictionary are strings, so [0] is never one of
    them. *)
Definition py_getitem_0 (v : pyval) : pyexn + pyval :=
  match v with
  | PList (x :: _) => inr x
  | PStr (String c _) => inr (PStr (String c EmptyString))
  | PList [] | PStr EmptyString => inl (IndexError (type_of v))
  | PDict _ => inl (KeyError (PInt 0))
  | _ => inl (TypeError not_subscriptable (type_of v))
  end.

(** [v.get(k, default)] *)
Definition py_get (v : pyval) (k : string) (default : pyval) : pyexn + pyval :=
  match v with
  | PDict d =>
      match PyDict.get d k with
      | Some x => inr x
      | None => inr default
      end
  | _ => inl (AttributeError (type_of v) "get")
  end.

(** [rei_agents[unit_id]] *)
Definition py_getitem_secret (agents : PyDict.t string) (unit_id : string)
  : pyexn + string :=
  match PyDict.get agents unit_id with
  | Some secret => inr secret
  | None => inl (KeyError (PStr unit_id))
  end.

(** ** The request model [Query] *)

Record Query : Type := mkQuery {
  text : string;
  token_watchlist : option (list (list (string * pyval)))
}.

(** ** [POST /chat/{unit_id}] (main.py, lines 63-149) *)

Definition REI_URL : string :=
  "https://api.reisearch.box/rei/agents/chat-completion".

Definition CLIENT_TIMEOUT : Z := 3000.

Definition unit_not_found_detail (unit_id : string) (units : list string)
  : string :=
  "REI unit '" ++ unit_id ++ "' not found. Available units: "
  ++ PyStr.repr_list units.

Definition timeout_detail : string :=
  "The REI API took too long to respond (over 50 minutes). Try a simpler query or check back later.".

(** Lines 124-126: the content of the first choice, or the empty string. *)
Definition extract_content (response_data : pyval) : M pyval :=
  has_choices <- lift (py_contains "choices" response_data) ;;
  if has_choices then
    choices <- lift (py_getitem_str response_data "choices") ;;
    n <- lift (py_len choices) ;;
    if (n >? 0)%Z then
      first <- lift (py_getitem_0 choices) ;;
      message <- lift (py_get first "message" (PDict [])) ;;
      lift (py_get message "content" (PStr ""))
    else ret (PStr "")
  else ret (PStr "").

(** Lines 111-139: the status dispatch, then parsing and the reply.  The
    summary logged at line 136 takes [len(content)], which raises for a
    content without a length. *)
Definition handle_response (unit_id content_text : string) (response : Response)
  : M pyval :=
  if (resp_status_code response =? 401)%Z then
    raise_http 401 (Text "Unauthorized")
  else if (resp_status_code response =? 404)%Z then
    raise_http 404 (Text "Agent not found")
  else if negb (resp_status_code response =? 200)%Z then
    raise_http (resp_status_code response)
      (Text ("API error: " ++ resp_text response))
  else
    response_data <- lift (response_json response) ;;
    content <- extract_content response_data ;;
    let final_response :=
      PDict [("content", content);
             ("unit", PStr unit_id);
             ("raw_input_length", PInt (Z.of_nat (String.length content_text)));
             ("raw_response", response_data)] in
    content_length <- lift (py_len content) ;;
    ret final_response.

(** Lines 69-139: the body of the [try]. *)
Definition chat_body (upstream : upstream_t) (unit_id : string) (query : Query)
  : M pyval :=
  agents <- get_agents ;;
  if negb (PyDict.mem unit_id agents) then
    raise_http 404
      (Text (unit_not_found_detail unit_id (PyDict.keys agents)))
  else
    let content_text := text query in
    let payload :=
      PDict [("messages",
              PList [PDict [("role", PStr "user");
                            ("content", PStr content_text)]])] in
    secret <- lift (py_getitem_secret agents unit_id) ;;
    response <-
      client_post upstream CLIENT_TIMEOUT REI_URL payload
        [("Authorization", ("Bearer " ++ secret)%string);
         ("Content-Type", "application/json")] ;;
    handle_response unit_id content_text response.

(** Lines 141-149: the [except] clauses, tried in order. *)
Definition chat_handler (e : raised) : M pyval :=
  match e with
  | RaiseHTTP h => raise (RaiseHTTP h)
  | RaiseExn (ReadTimeout _) => raise_http 504 (Text timeout_detail)
  | RaiseExn e' => raise_http 500 (StrOf e')
  end.

Definition chat_with_specific_unit (upstream : upstream_t) (unit_id : string)
    (query : Query) : M pyval :=
  try_except (chat_body upstream unit_id query) chat_handler.

(** ** [GET /units] (lines 151-160) and [GET /health] (lines 162-167) *)

Definition list_available_units : M pyval :=
  agents <- get_agents ;;
  let response :=
    PDict [("units", PList (map PStr (PyDict.keys agents)));
           ("count", PInt (PyDict.len agents))] in
  ret response.

Definition health_check : M pyval :=
  agents <- get_agents ;;
  let response :=
    PDict [("status", PStr "healthy");
           ("units_configured", PInt (PyDict.len agents))] in
  ret response.

(** The state of the process once the module is imported. *)
Definition startup (environ : list (string * string)) : State :=
  mkState (load_agents environ) [].

(** ** Vocabulary of the statements *)

(** The outcome of a handler without the state, and the [HTTPException] it
    raised, if any. *)
Definition result_of {A} (r : (raised + A) * State) : raised + A := fst r.

Definition http_error_of {A} (r : (raised + A) * State) : option HTTPException :=
  match fst r with
  | inl (RaiseHTTP h) => Some h
  | _ => None
  end.

(** An environment variable that configures a unit, and the name of the
    unit it configures. *)
Definition configures (item : string * string) : bool :=
  PyStr.startswith (fst item) SECRET_PREFIX && negb (String.eqb (snd item) "").

Definition unit_name_of (key : string) : string :=
  PyStr.lower (PyStr.replace key SECRET_PREFIX "").

(** The state once a request has gone out. *)
Definition after_post (st : State) (req : Request) : State :=
  mkState (rei_agents st) (sent st ++ [req]).

(** The request that [chat_with_specific_unit] sends for a credential and a
    text. *)
Definition chat_request (secret content_text : string) : Request :=
  mkRequest "POST" REI_URL
    (PDict [("messages",
             PList [PDict [("role", PStr "user");
                           ("content", PStr content_text)]])])
    [("Authorization", ("Bearer " ++ secret)%string);
     ("Content-Type", "application/json")]
    CLIENT_TIMEOUT.

(** The reply of a successful chat. *)
Definition chat_response (content : pyval) (unit_id content_text : string)
    (response_data : pyval) : pyval :=
  PDict [("content", content);
         ("unit", PStr unit_id);
         ("raw_input_length", PInt (Z.of_nat (String.length content_text)));
         ("raw_response", response_data)].

Definition http_error (code : Z) (d : detail_t) : raised + pyval :=
  inl (RaiseHTTP (mkHTTPException code d)).

(** The shape [choices[0].message.content] of the specification: an object
    whose [choices] is a list that starts with an object whose [message] is
    an object with a [content]. *)
Definition content_shape (data : pyval) : option pyval :=
  match data with
  | PDict d =>
      match PyDict.get d "choices" with
      | Some (PList (PDict first :: _)) =>
          match PyDict.get first "message" with
          | Some (PDict message) => PyDict.get message "content"
          | _ => None
          end
      | _ => None
      end
  | _ => None
  end.

(** The bodies without that shape for which the handler falls back on the
    empty string: no [choices], an empty [choices], a first choice without
    [message], a [message] without [content]. *)
Definition defaults_to_empty (data : pyval) : bool :=
  match data with
  | PDict d =>
      match PyDict.get d "choices" with
      | None => true
      | Some (PList []) | Some (PStr EmptyString) | Some (PDict []) => true
      | Some (PList (PDict first :: _)) =>
          match PyDict.get first "message" with
          | None => true
          | Some (PDict message) =>
              match PyDict.get message "content" with
              | None => true
              | Some _ => false
              end
          | Some _ => false
          end
      | Some _ => false
      end
  | PList l => negb (list_has_str "choices" l)
  | PStr s => negb (PyStr.contains s "choices")
  | _ => false
  end.

(** The error taxonomy of the specification, over what the handler can
    see besides the credentials: the unit asked for and the configured
    unit names. *)
Inductive error_payload (unit_id : string) (units : list string)
  : HTTPException -> Prop :=
| UnitNotFound :
    error_payload unit_id units
      (mkHTTPException 404 (Text (unit_not_found_detail unit_id units)))
| Unauthorized :
    error_payload unit_id units (mkHTTPException 401 (Text "Unauthorized"))
| AgentNotFound :
    error_payload unit_id units (mkHTTPException 404 (Text "Agent not found"))
| UpstreamError (response : Response) :
    error_payload unit_id units
      (mkHTTPException (resp_status_code response)
         (Text ("API error: " ++ resp_text response)))
| GatewayTimeout :
    error_payload unit_id units (mkHTTPException 504 (Text timeout_detail))
| InternalError (e : pyexn) :
    error_payload unit_id units (mkHTTPException 500 (StrOf e)).

(** The exceptions that the reading of a decoded body can raise: they
    carry the name of a type, of the attribute [get] or the index 0, and no
    text of the body. *)
Definition from_the_body (e : pyexn) : Prop :=
  match e with
  | TypeError _ _ => True
  | AttributeError _ attribute => attribute = "get"
  | KeyError key => key = PInt 0
  | _ => False
  end.

(** What the upstream answers to the request of a chat, if one is sent. *)
Definition answer_to (upstream : upstream_t) (agents : PyDict.t string)
    (unit_id : string) (query : Query) : option (pyexn + Response) :=
  match PyDict.get agents unit_id with
  | Some secret => Some (upstream (chat_request secret (text query)))
  | None => None
  end.

(** Where each error of the chat handler takes its detail from: the unit
    asked for and the unit names, a fixed text, the text of the upstream's
    response, or an exception raised by [client.post], by the decoding of
    the body, or by the reading of the decoded body. *)
Inductive error_source (unit_id : string) (units : list string)
    (answer : option (pyexn + Response)) : HTTPException -> Prop :=
| FromUnitNotFound :
    answer = None ->
    error_source unit_id units answer
      (mkHTTPException 404 (Text (unit_not_found_detail unit_id units)))
| FromUnauthorized (response : Response) :
    answer = Some (inr response) -> resp_status_code response = 401%Z ->
    error_source unit_id units answer
      (mkHTTPException 401 (Text "Unauthorized"))
| FromAgentNotFound (response : Response) :
    answer = Some (inr response) -> resp_status_code response = 404%Z ->
    error_source unit_id units answer
      (mkHTTPException 404 (Text "Agent not found"))
| FromUpstreamError (response : Response) :
    answer = Some (inr response) ->
    resp_status_code response <> 401%Z ->
    resp_status_code response <> 404%Z ->
    resp_status_code response <> 200%Z ->
    error_source unit_id units answer
      (mkHTTPException (resp_status_code response)
         (Text ("API error: " ++ resp_text response)))
| FromReadTimeout (description : string) :
    answer = Some (inl (ReadTimeout description)) ->
    error_source unit_id units answer
      (mkHTTPException 504 (Text timeout_detail))
| FromPostError (e : pyexn) :
    answer = Some (inl e) -> (forall description, e <> ReadTimeout description) ->
    error_source unit_id units answer (mkHTTPException 500 (StrOf e))
| FromDecodeError (response : Response) (description : string) :
    answer = Some (inr response) -> resp_json response = inl description ->
    error_source unit_id units answer
      (mkHTTPException 500 (StrOf (DecodeError description)))
| FromBodyError (response : Response) (e : pyexn) :
    answer = Some (inr response) -> from_the_body e ->
    error_source unit_id units answer (mkHTTPException 500 (StrOf e)).

(** ** Sample inputs *)

Definition sample_environ : list (string * string) :=
  [("PATH", "/usr/bin");
   ("REI_AGENT_SECRET_ALPHA", "sk-alpha-0123456789");
   ("REI_AGENT_SECRET_Beta", "sk-beta-9876543210");
   ("REI_AGENT_SECRET_GAMMA", "")].

Definition sample_state : State := startup sample_environ.

Definition quoted (s : string) : string :=
  String PyStr.dquote (s ++ String PyStr.dquote EmptyString).

(** An upstream that answers every request with [response]. *)
Definition answers (response : Response) : upstream_t := fun _ => inr response.

(** An upstream on which every request fails with [e]. *)
Definition fails (e : pyexn) : upstream_t := fun _ => inl e.

(** [{"choices": [{"message": {"content": "hello"}}]}] *)
Definition hello_response : Response :=
  mkResponse 200
    ("{" ++ quoted "choices" ++ ": [{" ++ quoted "message" ++ ": {"
     ++ quoted "content" ++ ": " ++ quoted "hello" ++ "}}]}")
    (inr (PDict [("choices",
                  PList [PDict [("message",
                                 PDict [("content", PStr "hello")])]])])).

(** [{"choices": [{"message": null}]}] *)
Definition null_message_response : Response :=
  mkResponse 200
    ("{" ++ quoted "choices" ++ ": [{" ++ quoted "message" ++ ": null}]}")
    (inr (PDict [("choices", PList [PDict [("message", PNone)]])])).

(** [{"id": "r1"}] *)
Definition no_choices_response : Response :=
  mkResponse 200
    ("{" ++ quoted "id" ++ ": " ++ quoted "r1" ++ "}")
    (inr (PDict [("id", PStr "r1")])).

(** [{"choices": [{"message": {"content": null}}]}] *)
Definition null_content_response : Response :=
  mkResponse 200
    ("{" ++ quoted "choices" ++ ": [{" ++ quoted "message" ++ ": {"
     ++ quoted "content" ++ ": null}}]}")
    (inr (PDict [("choices",
                  PList [PDict [("message",
                                 PDict [("content", PNone)])]])])).

(** An upstream that refuses every request with a 403 whose body repeats
    the Authorization header it received. *)
Definition echo_authorization : upstream_t :=
  fun req =>
    inr (mkResponse 403
           (match PyDict.get (req_headers req) "Authorization" with
            | Some value => value
            | None => EmptyString
            end)
           (inl "Expecting value: line 1 column 1 (char 0)")).

(** A 500 and a 504 of the upstream, with bodies that are not JSON. *)
Definition boom_response : Response :=
  mkResponse 500 "boom" (inl "Expecting value: line 1 column 1 (char 0)").


(** ** The header as the log shows it (main.py, lines 84-87) *)

(** [s[:n]] *)
Fixpoint slice_to (n : nat) (s : string) : string :=
  match n, s with
  | S n', String c s' => String c (slice_to n' s')
  | _, _ => EmptyString
  end.

(** [s[n:]] *)
Fixpoint slice_from (n : nat) (s : string) : string :=
  match n, s with
  | S n', String _ s' => slice_from n' s'
  | _, _ => s
  end.

(** [s[-n:]] for a positive [n]: the slice starts at [len(s) - n], or at 0
    when the string is shorter. *)
Definition slice_last (n : nat) (s : string) : string :=
  slice_from (String.length s - n) s.

(** The value of [Authorization] in the [headers] of line 84, which are
    built for the log only. *)
Definition masked_authorization (secret : string) : string :=
  "Bearer " ++ slice_to 10 secret ++ "..." ++ slice_last 4 secret.

Definition masked_headers (agents : PyDict.t string) (unit_id : string)
  : pyexn + list (string * string) :=
  match py_getitem_secret agents unit_id with
  | inl e => inl e
  | inr secret =>
      inr [("Authorization", masked_authorization secret);
           ("Content-Type", "application/json")]
  end.

(** ** The message logged at startup (main.py, lines 54-57) *)

Inductive log_level : Type := INFO | ERROR.

(** [str(n)] for the length of a container. *)
Definition str_of_len (n : Z) : string :=
  NilZero.string_of_uint (N.to_uint (Z.to_N n)).

Definition startup_log (agents : PyDict.t string) : log_level * string :=
  match agents with
  | [] => (ERROR, "No REI agent secrets found!")
  | _ :: _ =>
      (INFO,
       ("Loaded " ++ str_of_len (PyDict.len agents) ++ " REI agents: "
        ++ PyStr.repr_list (PyDict.keys agents))%string)
  end.

(** ** The three routes of [app], and a run of requests *)

Inductive inbound : Type :=
| POST_chat (unit_id : string) (query : Query)
| GET_units
| GET_health.

Definition route (upstream : upstream_t) (r : inbound) : M pyval :=
  match r with
  | POST_chat unit_id query => chat_with_specific_unit upstream unit_id query
  | GET_units => list_available_units
  | GET_health => health_check
  end.

(** Requests handled one after the other; what the upstream answers may
    depend on the requests it has received so far. *)
Fixpoint serve_all (world : list Request -> upstream_t) (rs : list inbound)
    (st : State) : list (raised + pyval) * State :=
  match rs with
  | [] => ([], st)
  | r :: rs' =>
      let (res, st') := route (world (sent st)) r st in
      let (out, st'') := serve_all world rs' st' in
      (res :: out, st'')
  end.

(** The chat requests of a run that name a unit of the registry. *)
Definition chats_to_known (agents : PyDict.t string) (rs : list inbound)
  : list inbound :=
  filter (fun r => match r with
                   | POST_chat unit_id _ => PyDict.mem unit_id agents
                   | _ => false
                   end) rs.

(** ** Vocabulary of the further statements *)

(** The elements of a list in the order in which they first occur. *)
Fixpoint first_occurrences (l : list string) : list string :=
  match l with
  | [] => []
  | x :: l' =>
      x :: filter (fun y => negb (String.eqb y x)) (first_occurrences l')
  end.

(** The unit names that an environment configures, one per variable. *)
Definition configured_names (environ : list (string * string)) : list string :=
  map (fun item => unit_name_of (fst item)) (filter configures environ).

(** A secret that differs from [secret] at index 10 only. *)
Definition other_char (c : ascii) : ascii :=
  if Ascii.eqb c "a" then "b"%char else "a"%char.

Definition change_at_10 (secret : string) : string :=
  (slice_to 10 secret ++
   match slice_from 10 secret with
   | EmptyString => EmptyString
   | String c rest => String (other_char c) rest
   end)%string.

Definition sample_run : list inbound :=
  [GET_units; POST_chat "alpha" (mkQuery "hi" None);
   POST_chat "delta" (mkQuery "hi" None); GET_health;
   POST_chat "beta" (mkQuery "" None)].

(** ** Unit names as Python has them: strings of code points *)

(** The names of the environment variables and the unit asked for are
    Python strings, whose characters range over all of Unicode, and
    [str.lower] follows the Unicode tables.  This module has [lower], the
    loop that loads the registry and the test of line 73 over strings of
    code points; [of_latin1] maps the 8-bit strings used above to them. *)
Module Unicode.

Definition ustr : Type := list N.

(** The characters [c] with [chr(c).lower() != chr(c)], each with the code
    points of [chr(c).lower()] (Unicode 14.0, as in Python 3.11). *)
Definition lower_table : list (N * list N) :=
  [
   (65, [97]); (66, [98]); (67, [99]); (68, [100]); (69, [101]);
   (70, [102]); (71, [103]); (72, [104]); (73, [105]); (74, [106]);
   (75, [107]); (76, [108]); (77, [109]); (78, [110]); (79, [111]);
   (80, [112]); (81, [113]); (82, [114]); (83, [115]); (84, [116]);
   (85, [117]); (86, [118]); (87, [119]); (88, [120]); (89, [121]);
   (90, [122]); (192, [224]); (193, [225]); (194, [226]); (195, [227]);
   (196, [228]); (197, [229]); (198, [230]); (199, [231]); (200, [232]);
   (201, [233]); (202, [234]); (203, [235]); (204, [236]); (205, [237]);
   (206, [238]); (207, [239]); (208, [240]); (209, [241]); (210, [242]);
   (211, [243]); (212, [244]); (213, [245]); (214, [246]); (216, [248]);
   (217, [249]); (218, [250]); (219, [251]); (220, [252]); (221, [253]);
   (222, [254]); (256, [257]); (258, [259]); (260, [261]); (262, [263]);
   (264, [265]); (266, [267]); (268, [269]); (270, [271]); (272, [273]);
   (274, [275]); (276, [277]); (278, [279]); (280, [281]); (282, [283]);
   (284, [285]); (286, [287]); (288, [289]); (290, [291]); (292, [293]);
   (294, [295]); (296, [297]); (298, [299]); (300, [301]); (302, [303]);
   (304, [105; 775]); (306, [307]); (308, [309]); (310, [311]); (313, [314]);
   (315, [316]); (317, [318]); (319, [320]); (321, [322]); (323, [324]);
   (325, [326]); (327, [328]); (330, [331]); (332, [333]); (334, [335]);
   (336, [337]); (338, [339]); (340, [341]); (342, [343]); (344, [345]);
   (346, [347]); (348, [349]); (350, [351]); (352, [353]); (354, [355]);
   (356, [357]); (358, [359]); (360, [361]); (362, [363]); (364, [365]);
   (366, [367]); (368, [369]); (370, [371]); (372, [373]); (374, [375]);
   (376, [255]); (377, [378]); (379, [380]); (381, [382]); (385, [595]);
   (386, [387]); (388, [389]); (390, [596]); (391, [392]); (393, [598]);
   (394, [599]); (395, [396]); (398, [477]); (399, [601]); (400, [603]);
   (401, [402]); (403, [608]); (404, [611]); (406, [617]); (407, [616]);
   (408, [409]); (412, [623]); (413, [626]); (415, [629]); (416, [417]);
   (418, [419]); (420, [421]); (422, [640]); (423, [424]); (425, [643]);
   (428, [429]); (430, [648]); (431, [432]); (433, [650]); (434, [651]);
   (435, [436]); (437, [438]); (439, [658]); (440, [441]); (444, [445]);
   (452, [454]); (453, [454]); (455, [457]); (456, [457]); (458, [460]);
   (459, [460]); (461, [462]); (463, [464]); (465, [466]); (467, [468]);
   (469, [470]); (471, [472]); (473, [474]); (475, [476]); (478, [479]);
   (480, [481]); (482, [483]); (484, [485]); (486, [487]); (488, [489]);
   (490, [491]); (492, [493]); (494, [495]); (497, [499]); (498, [499]);
   (500, [501]); (502, [405]); (503, [447]); (504, [505]); (506, [507]);
   (508, [509]); (510, [511]); (512, [513]); (514, [515]); (516, [517]);
   (518, [519]); (520, [521]); (522, [523]); (524, [525]); (526, [527]);
   (528, [529]); (530, [531]); (532, [533]); (534, [535]); (536, [537]);
   (538, [539]); (540, [541]); (542, [543]); (544, [414]); (546, [547]);
   (548, [549]); (550, [551]); (552, [553]); (554, [555]); (556, [557]);
   (558, [559]); (560, [561]); (562, [563]); (570, [11365]); (571, [572]);
   (573, [410]); (574, [11366]); (577, [578]); (579, [384]); (580, [649]);
   (581, [652]); (582, [583]); (584, [585]); (586, [587]); (588, [589]);
   (590, [591]); (880, [881]); (882, [883]); (886, [887]); (895, [1011]);
   (902, [940]); (904, [941]); (905, [942]); (906, [943]); (908, [972]);
   (910, [973]); (911, [974]); (913, [945]); (914, [946]); (915, [947]);
   (916, [948]); (917, [949]); (918, [950]); (919, [951]); (920, [952]);
   (921, [953]); (922, [954]); (923, [955]); (924, [956]); (925, [957]);
   (926, [958]); (927, [959]); (928, [960]); (929, [961]); (931, [963]);
   (932, [964]); (933, [965]); (934, [966]); (935, [967]); (936, [968]);
   (937, [969]); (938, [970]); (939, [971]); (975, [983]); (984, [985]);
   (986, [987]); (988, [989]); (990, [991]); (992, [993]); (994, [995]);
   (996, [997]); (998, [999]); (1000, [1001]); (1002, [1003]); (1004, [1005]);
   (1006, [1007]); (1012, [952]); (1015, [1016]); (1017, [1010]); (1018, [1019]);
   (1021, [891]); (1022, [892]); (1023, [893]); (1024, [1104]); (1025, [1105]);
   (1026, [1106]); (1027, [1107]); (1028, [1108]); (1029, [1109]); (1030, [1110]);
   (1031, [1111]); (1032, [1112]); (1033, [1113]); (1034, [1114]); (1035, [1115]);
   (1036, [1116]); (1037, [1117]); (1038, [1118]); (1039, [1119]); (1040, [1072]);
   (1041, [1073]); (1042, [1074]); (1043, [1075]); (1044, [1076]); (1045, [1077]);
   (1046, [1078]); (1047, [1079]); (1048, [1080]); (1049, [1081]); (1050, [1082]);
   (1051, [1083]); (1052, [1084]); (1053, [1085]); (1054, [1086]); (1055, [1087]);
   (1056, [1088]); (1057, [1089]); (1058, [1090]); (1059, [1091]); (1060, [1092]);
   (1061, [1093]); (1062, [1094]); (1063, [1095]); (1064, [1096]); (1065, [1097]);
   (1066, [1098]); (1067, [1099]); (1068, [1100]); (1069, [1101]); (1070, [1102]);
   (1071, [1103]); (1120, [1121]); (1122, [1123]); (1124, [1125]); (1126, [1127]);
   (1128, [1129]); (1130, [1131]); (1132, [1133]); (1134, [1135]); (1136, [1137]);
   (1138, [1139]); (1140, [1141]); (1142, [1143]); (1144, [1145]); (1146, [1147]);
   (1148, [1149]); (1150, [1151]); (1152, [1153]); (1162, [1163]); (1164, [1165]);
   (1166, [1167]); (1168, [1169]); (1170, [1171]); (1172, [1173]); (1174, [1175]);
   (1176, [1177]); (1178, [1179]); (1180, [1181]); (1182, [1183]); (1184, [1185]);
   (1186, [1187]); (1188, [1189]); (1190, [1191]); (1192, [1193]); (1194, [1195]);
   (1196, [1197]); (1198, [1199]); (1200, [1201]); (1202, [1203]); (1204, [1205]);
   (1206, [1207]); (1208, [1209]); (1210, [1211]); (1212, [1213]); (1214, [1215]);
   (1216, [1231]); (1217, [1218]); (1219, [1220]); (1221, [1222]); (1223, [1224]);
   (1225, [1226]); (1227, [1228]); (1229, [1230]); (1232, [1233]); (1234, [1235]);
   (1236, [1237]); (1238, [1239]); (1240, [1241]); (1242, [1243]); (1244, [1245]);
   (1246, [1247]); (1248, [1249]); (1250, [1251]); (1252, [1253]); (1254, [1255]);
   (1256, [1257]); (1258, [1259]); (1260, [1261]); (1262, [1263]); (1264, [1265]);
   (1266, [1267]); (1268, [1269]); (1270, [1271]); (1272, [1273]); (1274, [1275]);
   (1276, [1277]); (1278, [1279]); (1280, [1281]); (1282, [1283]); (1284, [1285]);
   (1286, [1287]); (1288, [1289]); (1290, [1291]); (1292, [1293]); (1294, [1295]);
   (1296, [1297]); (1298, [1299]); (1300, [1301]); (1302, [1303]); (1304, [1305]);
   (1306, [1307]); (1308, [1309]); (1310, [1311]); (1312, [1313]); (1314, [1315]);
   (1316, [1317]); (1318, [1319]); (1320, [1321]); (1322, [1323]); (1324, [1325]);
   (1326, [1327]); (1329, [1377]); (1330, [1378]); (1331, [1379]); (1332, [1380]);
   (1333, [1381]); (1334, [1382]); (1335, [1383]); (1336, [1384]); (1337, [1385]);
   (1338, [1386]); (1339, [1387]); (1340, [1388]); (1341, [1389]); (1342, [1390]);
   (1343, [1391]); (1344, [1392]); (1345, [1393]); (1346, [1394]); (1347, [1395]);
   (1348, [1396]); (1349, [1397]); (1350, [1398]); (1351, [1399]); (1352, [1400]);
   (1353, [1401]); (1354, [1402]); (1355, [1403]); (1356, [1404]); (1357, [1405]);
   (1358, [1406]); (1359, [1407]); (1360, [1408]); (1361, [1409]); (1362, [1410]);
   (1363, [1411]); (1364, [1412]); (1365, [1413]); (1366, [1414]); (4256, [11520]);
   (4257, [11521]); (4258, [11522]); (4259, [11523]); (4260, [11524]); (4261, [11525]);
   (4262, [11526]); (4263, [11527]); (4264, [11528]); (4265, [11529]); (4266, [11530]);
   (4267, [11531]); (4268, [11532]); (4269, [11533]); (4270, [11534]); (4271, [11535]);
   (4272, [11536]); (4273, [11537]); (4274, [11538]); (4275, [11539]); (4276, [11540]);
   (4277, [11541]); (4278, [11542]); (4279, [11543]); (4280, [11544]); (4281, [11545]);
   (4282, [11546]); (4283, [11547]); (4284, [11548]); (4285, [11549]); (4286, [11550]);
   (4287, [11551]); (4288, [11552]); (4289, [11553]); (4290, [11554]); (4291, [11555]);
   (4292, [11556]); (4293, [11557]); (4295, [11559]); (4301, [11565]); (5024, [43888]);
   (5025, [43889]); (5026, [43890]); (5027, [43891]); (5028, [43892]); (5029, [43893]);
   (5030, [43894]); (5031, [43895]); (5032, [43896]); (5033, [43897]); (5034, [43898]);
   (5035, [43899]); (5036, [43900]); (5037, [43901]); (5038, [43902]); (5039, [43903]);
   (5040, [43904]); (5041, [43905]); (5042, [43906]); (5043, [43907]); (5044, [43908]);
   (5045, [43909]); (5046, [43910]); (5047, [43911]); (5048, [43912]); (5049, [43913]);
   (5050, [43914]); (5051, [43915]); (5052, [43916]); (5053, [43917]); (5054, [43918]);
   (5055, [43919]); (5056, [43920]); (5057, [43921]); (5058, [43922]); (5059, [43923]);
   (5060, [43924]); (5061, [43925]); (5062, [43926]); (5063, [43927]); (5064, [43928]);
   (5065, [43929]); (5066, [43930]); (5067, [43931]); (5068, [43932]); (5069, [43933]);
   (5070, [43934]); (5071, [43935]); (5072, [43936]); (5073, [43937]); (5074, [43938]);
   (5075, [43939]); (5076, [43940]); (5077, [43941]); (5078, [43942]); (5079, [43943]);
   (5080, [43944]); (5081, [43945]); (5082, [43946]); (5083, [43947]); (5084, [43948]);
   (5085, [43949]); (5086, [43950]); (5087, [43951]); (5088, [43952]); (5089, [43953]);
   (5090, [43954]); (5091, [43955]); (5092, [43956]); (5093, [43957]); (5094, [43958]);
   (5095, [43959]); (5096, [43960]); (5097, [43961]); (5098, [43962]); (5099, [43963]);
   (5100, [43964]); (5101, [43965]); (5102, [43966]); (5103, [43967]); (5104, [5112]);
   (5105, [5113]); (5106, [5114]); (5107, [5115]); (5108, [5116]); (5109, [5117]);
   (7312, [4304]); (7313, [4305]); (7314, [4306]); (7315, [4307]); (7316, [4308]);
   (7317, [4309]); (7318, [4310]); (7319, [4311]); (7320, [4312]); (7321, [4313]);
   (7322, [4314]); (7323, [4315]); (7324, [4316]); (7325, [4317]); (7326, [4318]);
   (7327, [4319]); (7328, [4320]); (7329, [4321]); (7330, [4322]); (7331, [4323]);
   (7332, [4324]); (7333, [4325]); (7334, [4326]); (7335, [4327]); (7336, [4328]);
   (7337, [4329]); (7338, [4330]); (7339, [4331]); (7340, [4332]); (7341, [4333]);
   (7342, [4334]); (7343, [4335]); (7344, [4336]); (7345, [4337]); (7346, [4338]);
   (7347, [4339]); (7348, [4340]); (7349, [4341]); (7350, [4342]); (7351, [4343]);
   (7352, [4344]); (7353, [4345]); (7354, [4346]); (7357, [4349]); (7358, [4350]);
   (7359, [4351]); (7680, [7681]); (7682, [7683]); (7684, [7685]); (7686, [7687]);
   (7688, [7689]); (7690, [7691]); (7692, [7693]); (7694, [7695]); (7696, [7697]);
   (7698, [7699]); (7700, [7701]); (7702, [7703]); (7704, [7705]); (7706, [7707]);
   (7708, [7709]); (7710, [7711]); (7712, [7713]); (7714, [7715]); (7716, [7717]);
   (7718, [7719]); (7720, [7721]); (7722, [7723]); (7724, [7725]); (7726, [7727]);
   (7728, [7729]); (7730, [7731]); (7732, [7733]); (7734, [7735]); (7736, [7737]);
   (7738, [7739]); (7740, [7741]); (7742, [7743]); (7744, [7745]); (7746, [7747]);
   (7748, [7749]); (7750, [7751]); (7752, [7753]); (7754, [7755]); (7756, [7757]);
   (7758, [7759]); (7760, [7761]); (7762, [7763]); (7764, [7765]); (7766, [7767]);
   (7768, [7769]); (7770, [7771]); (7772, [7773]); (7774, [7775]); (7776, [7777]);
   (7778, [7779]); (7780, [7781]); (7782, [7783]); (7784, [7785]); (7786, [7787]);
   (7788, [7789]); (7790, [7791]); (7792, [7793]); (7794, [7795]); (7796, [7797]);
   (7798, [7799]); (7800, [7801]); (7802, [7803]); (7804, [7805]); (7806, [7807]);
   (7808, [7809]); (7810, [7811]); (7812, [7813]); (7814, [7815]); (7816, [7817]);
   (7818, [7819]); (7820, [7821]); (7822, [7823]); (7824, [7825]); (7826, [7827]);
   (7828, [7829]); (7838, [223]); (7840, [7841]); (7842, [7843]); (7844, [7845]);
   (7846, [7847]); (7848, [7849]); (7850, [7851]); (7852, [7853]); (7854, [7855]);
   (7856, [7857]); (7858, [7859]); (7860, [7861]); (7862, [7863]); (7864, [7865]);
   (7866, [7867]); (7868, [7869]); (7870, [7871]); (7872, [7873]); (7874, [7875]);
   (7876, [7877]); (7878, [7879]); (7880, [7881]); (7882, [7883]); (7884, [7885]);
   (7886, [7887]); (7888, [7889]); (7890, [7891]); (7892, [7893]); (7894, [7895]);
   (7896, [7897]); (7898, [7899]); (7900, [7901]); (7902, [7903]); (7904, [7905]);
   (7906, [7907]); (7908, [7909]); (7910, [7911]); (7912, [7913]); (7914, [7915]);
   (7916, [7917]); (7918, [7919]); (7920, [7921]); (7922, [7923]); (7924, [7925]);
   (7926, [7927]); (7928, [7929]); (7930, [7931]); (7932, [7933]); (7934, [7935]);
   (7944, [7936]); (7945, [7937]); (7946, [7938]); (7947, [7939]); (7948, [7940]);
   (7949, [7941]); (7950, [7942]); (7951, [7943]); (7960, [7952]); (7961, [7953]);
   (7962, [7954]); (7963, [7955]); (7964, [7956]); (7965, [7957]); (7976, [7968]);
   (7977, [7969]); (7978, [7970]); (7979, [7971]); (7980, [7972]); (7981, [7973]);
   (7982, [7974]); (7983, [7975]); (7992, [7984]); (7993, [7985]); (7994, [7986]);
   (7995, [7987]); (7996, [7988]); (7997, [7989]); (7998, [7990]); (7999, [7991]);
   (8008, [8000]); (8009, [8001]); (8010, [8002]); (8011, [8003]); (8012, [8004]);
   (8013, [8005]); (8025, [8017]); (8027, [8019]); (8029, [8021]); (8031, [8023]);
   (8040, [8032]); (8041, [8033]); (8042, [8034]); (8043, [8035]); (8044, [8036]);
   (8045, [8037]); (8046, [8038]); (8047, [8039]); (8072, [8064]); (8073, [8065]);
   (8074, [8066]); (8075, [8067]); (8076, [8068]); (8077, [8069]); (8078, [8070]);
   (8079, [8071]); (8088, [8080]); (8089, [8081]); (8090, [8082]); (8091, [8083]);
   (8092, [8084]); (8093, [8085]); (8094, [8086]); (8095, [8087]); (8104, [8096]);
   (8105, [8097]); (8106, [8098]); (8107, [8099]); (8108, [8100]); (8109, [8101]);
   (8110, [8102]); (8111, [8103]); (8120, [8112]); (8121, [8113]); (8122, [8048]);
   (8123, [8049]); (8124, [8115]); (8136, [8050]); (8137, [8051]); (8138, [8052]);
   (8139, [8053]); (8140, [8131]); (8152, [8144]); (8153, [8145]); (8154, [8054]);
   (8155, [8055]); (8168, [8160]); (8169, [8161]); (8170, [8058]); (8171, [8059]);
   (8172, [8165]); (8184, [8056]); (8185, [8057]); (8186, [8060]); (8187, [8061]);
   (8188, [8179]); (8486, [969]); (8490, [107]); (8491, [229]); (8498, [8526]);
   (8544, [8560]); (8545, [8561]); (8546, [8562]); (8547, [8563]); (8548, [8564]);
   (8549, [8565]); (8550, [8566]); (8551, [8567]); (8552, [8568]); (8553, [8569]);
   (8554, [8570]); (8555, [8571]); (8556, [8572]); (8557, [8573]); (8558, [8574]);
   (8559, [8575]); (8579, [8580]); (9398, [9424]); (9399, [9425]); (9400, [9426]);
   (9401, [9427]); (9402, [9428]); (9403, [9429]); (9404, [9430]); (9405, [9431]);
   (9406, [9432]); (9407, [9433]); (9408, [9434]); (9409, [9435]); (9410, [9436]);
   (9411, [9437]); (9412, [9438]); (9413, [9439]); (9414, [9440]); (9415, [9441]);
   (9416, [9442]); (9417, [9443]); (9418, [9444]); (9419, [9445]); (9420, [9446]);
   (9421, [9447]); (9422, [9448]); (9423, [9449]); (11264, [11312]); (11265, [11313]);
   (11266, [11314]); (11267, [11315]); (11268, [11316]); (11269, [11317]); (11270, [11318]);
   (11271, [11319]); (11272, [11320]); (11273, [11321]); (11274, [11322]); (11275, [11323]);
   (11276, [11324]); (11277, [11325]); (11278, [11326]); (11279, [11327]); (11280, [11328]);
   (11281, [11329]); (11282, [11330]); (11283, [11331]); (11284, [11332]); (11285, [11333]);
   (11286, [11334]); (11287, [11335]); (11288, [11336]); (11289, [11337]); (11290, [11338]);
   (11291, [11339]); (11292, [11340]); (11293, [11341]); (11294, [11342]); (11295, [11343]);
   (11296, [11344]); (11297, [11345]); (11298, [11346]); (11299, [11347]); (11300, [11348]);
   (11301, [11349]); (11302, [11350]); (11303, [11351]); (11304, [11352]); (11305, [11353]);
   (11306, [11354]); (11307, [11355]); (11308, [11356]); (11309, [11357]); (11310, [11358]);
   (11311, [11359]); (11360, [11361]); (11362, [619]); (11363, [7549]); (11364, [637]);
   (11367, [11368]); (11369, [11370]); (11371, [11372]); (11373, [593]); (11374, [625]);
   (11375, [592]); (11376, [594]); (11378, [11379]); (11381, [11382]); (11390, [575]);
   (11391, [576]); (11392, [11393]); (11394, [11395]); (11396, [11397]); (11398, [11399]);
   (11400, [11401]); (11402, [11403]); (11404, [11405]); (11406, [11407]); (11408, [11409]);
   (11410, [11411]); (11412, [11413]); (11414, [11415]); (11416, [11417]); (11418, [11419]);
   (11420, [11421]); (11422, [11423]); (11424, [11425]); (11426, [11427]); (11428, [11429]);
   (11430, [11431]); (11432, [11433]); (11434, [11435]); (11436, [11437]); (11438, [11439]);
   (11440, [11441]); (11442, [11443]); (11444, [11445]); (11446, [11447]); (11448, [11449]);
   (11450, [11451]); (11452, [11453]); (11454, [11455]); (11456, [11457]); (11458, [11459]);
   (11460, [11461]); (11462, [11463]); (11464, [11465]); (11466, [11467]); (11468, [11469]);
   (11470, [11471]); (11472, [11473]); (11474, [11475]); (11476, [11477]); (11478, [11479]);
   (11480, [11481]); (11482, [11483]); (11484, [11485]); (11486, [11487]); (11488, [11489]);
   (11490, [11491]); (11499, [11500]); (11501, [11502]); (11506, [11507]); (42560, [42561]);
   (42562, [42563]); (42564, [42565]); (42566, [42567]); (42568, [42569]); (42570, [42571]);
   (42572, [42573]); (42574, [42575]); (42576, [42577]); (42578, [42579]); (42580, [42581]);
   (42582, [42583]); (42584, [42585]); (42586, [42587]); (42588, [42589]); (42590, [42591]);
   (42592, [42593]); (42594, [42595]); (42596, [42597]); (42598, [42599]); (42600, [42601]);
   (42602, [42603]); (42604, [42605]); (42624, [42625]); (42626, [42627]); (42628, [42629]);
   (42630, [42631]); (42632, [42633]); (42634, [42635]); (42636, [42637]); (42638, [42639]);
   (42640, [42641]); (42642, [42643]); (42644, [42645]); (42646, [42647]); (42648, [42649]);
   (42650, [42651]); (42786, [42787]); (42788, [42789]); (42790, [42791]); (42792, [42793]);
   (42794, [42795]); (42796, [42797]); (42798, [42799]); (42802, [42803]); (42804, [42805]);
   (42806, [42807]); (42808, [42809]); (42810, [42811]); (42812, [42813]); (42814, [42815]);
   (42816, [42817]); (42818, [42819]); (42820, [42821]); (42822, [42823]); (42824, [42825]);
   (42826, [42827]); (42828, [42829]); (42830, [42831]); (42832, [42833]); (42834, [42835]);
   (42836, [42837]); (42838, [42839]); (42840, [42841]); (42842, [42843]); (42844, [42845]);
   (42846, [42847]); (42848, [42849]); (42850, [42851]); (42852, [42853]); (42854, [42855]);
   (42856, [42857]); (42858, [42859]); (42860, [42861]); (42862, [42863]); (42873, [42874]);
   (42875, [42876]); (42877, [7545]); (42878, [42879]); (42880, [42881]); (42882, [42883]);
   (42884, [42885]); (42886, [42887]); (42891, [42892]); (42893, [613]); (42896, [42897]);
   (42898, [42899]); (42902, [42903]); (42904, [42905]); (42906, [42907]); (42908, [42909]);
   (42910, [42911]); (42912, [42913]); (42914, [42915]); (42916, [42917]); (42918, [42919]);
   (42920, [42921]); (42922, [614]); (42923, [604]); (42924, [609]); (42925, [620]);
   (42926, [618]); (42928, [670]); (42929, [647]); (42930, [669]); (42931, [43859]);
   (42932, [42933]); (42934, [42935]); (42936, [42937]); (42938, [42939]); (42940, [42941]);
   (42942, [42943]); (42944, [42945]); (42946, [42947]); (42948, [42900]); (42949, [642]);
   (42950, [7566]); (42951, [42952]); (42953, [42954]); (42960, [42961]); (42966, [42967]);
   (42968, [42969]); (42997, [42998]); (65313, [65345]); (65314, [65346]); (65315, [65347]);
   (65316, [65348]); (65317, [65349]); (65318, [65350]); (65319, [65351]); (65320, [65352]);
   (65321, [65353]); (65322, [65354]); (65323, [65355]); (65324, [65356]); (65325, [65357]);
   (65326, [65358]); (65327, [65359]); (65328, [65360]); (65329, [65361]); (65330, [65362]);
   (65331, [65363]); (65332, [65364]); (65333, [65365]); (65334, [65366]); (65335, [65367]);
   (65336, [65368]); (65337, [65369]); (65338, [65370]); (66560, [66600]); (66561, [66601]);
   (66562, [66602]); (66563, [66603]); (66564, [66604]); (66565, [66605]); (66566, [66606]);
   (66567, [66607]); (66568, [66608]); (66569, [66609]); (66570, [66610]); (66571, [66611]);
   (66572, [66612]); (66573, [66613]); (66574, [66614]); (66575, [66615]); (66576, [66616]);
   (66577, [66617]); (66578, [66618]); (66579, [66619]); (66580, [66620]); (66581, [66621]);
   (66582, [66622]); (66583, [66623]); (66584, [66624]); (66585, [66625]); (66586, [66626]);
   (66587, [66627]); (66588, [66628]); (66589, [66629]); (66590, [66630]); (66591, [66631]);
   (66592, [66632]); (66593, [66633]); (66594, [66634]); (66595, [66635]); (66596, [66636]);
   (66597, [66637]); (66598, [66638]); (66599, [66639]); (66736, [66776]); (66737, [66777]);
   (66738, [66778]); (66739, [66779]); (66740, [66780]); (66741, [66781]); (66742, [66782]);
   (66743, [66783]); (66744, [66784]); (66745, [66785]); (66746, [66786]); (66747, [66787]);
   (66748, [66788]); (66749, [66789]); (66750, [66790]); (66751, [66791]); (66752, [66792]);
   (66753, [66793]); (66754, [66794]); (66755, [66795]); (66756, [66796]); (66757, [66797]);
   (66758, [66798]); (66759, [66799]); (66760, [66800]); (66761, [66801]); (66762, [66802]);
   (66763, [66803]); (66764, [66804]); (66765, [66805]); (66766, [66806]); (66767, [66807]);
   (66768, [66808]); (66769, [66809]); (66770, [66810]); (66771, [66811]); (66928, [66967]);
   (66929, [66968]); (66930, [66969]); (66931, [66970]); (66932, [66971]); (66933, [66972]);
   (66934, [66973]); (66935, [66974]); (66936, [66975]); (66937, [66976]); (66938, [66977]);
   (66940, [66979]); (66941, [66980]); (66942, [66981]); (66943, [66982]); (66944, [66983]);
   (66945, [66984]); (66946, [66985]); (66947, [66986]); (66948, [66987]); (66949, [66988]);
   (66950, [66989]); (66951, [66990]); (66952, [66991]); (66953, [66992]); (66954, [66993]);
   (66956, [66995]); (66957, [66996]); (66958, [66997]); (66959, [66998]); (66960, [66999]);
   (66961, [67000]); (66962, [67001]); (66964, [67003]); (66965, [67004]); (68736, [68800]);
   (68737, [68801]); (68738, [68802]); (68739, [68803]); (68740, [68804]); (68741, [68805]);
   (68742, [68806]); (68743, [68807]); (68744, [68808]); (68745, [68809]); (68746, [68810]);
   (68747, [68811]); (68748, [68812]); (68749, [68813]); (68750, [68814]); (68751, [68815]);
   (68752, [68816]); (68753, [68817]); (68754, [68818]); (68755, [68819]); (68756, [68820]);
   (68757, [68821]); (68758, [68822]); (68759, [68823]); (68760, [68824]); (68761, [68825]);
   (68762, [68826]); (68763, [68827]); (68764, [68828]); (68765, [68829]); (68766, [68830]);
   (68767, [68831]); (68768, [68832]); (68769, [68833]); (68770, [68834]); (68771, [68835]);
   (68772, [68836]); (68773, [68837]); (68774, [68838]); (68775, [68839]); (68776, [68840]);
   (68777, [68841]); (68778, [68842]); (68779, [68843]); (68780, [68844]); (68781, [68845]);
   (68782, [68846]); (68783, [68847]); (68784, [68848]); (68785, [68849]); (68786, [68850]);
   (71840, [71872]); (71841, [71873]); (71842, [71874]); (71843, [71875]); (71844, [71876]);
   (71845, [71877]); (71846, [71878]); (71847, [71879]); (71848, [71880]); (71849, [71881]);
   (71850, [71882]); (71851, [71883]); (71852, [71884]); (71853, [71885]); (71854, [71886]);
   (71855, [71887]); (71856, [71888]); (71857, [71889]); (71858, [71890]); (71859, [71891]);
   (71860, [71892]); (71861, [71893]); (71862, [71894]); (71863, [71895]); (71864, [71896]);
   (71865, [71897]); (71866, [71898]); (71867, [71899]); (71868, [71900]); (71869, [71901]);
   (71870, [71902]); (71871, [71903]); (93760, [93792]); (93761, [93793]); (93762, [93794]);
   (93763, [93795]); (93764, [93796]); (93765, [93797]); (93766, [93798]); (93767, [93799]);
   (93768, [93800]); (93769, [93801]); (93770, [93802]); (93771, [93803]); (93772, [93804]);
   (93773, [93805]); (93774, [93806]); (93775, [93807]); (93776, [93808]); (93777, [93809]);
   (93778, [93810]); (93779, [93811]); (93780, [93812]); (93781, [93813]); (93782, [93814]);
   (93783, [93815]); (93784, [93816]); (93785, [93817]); (93786, [93818]); (93787, [93819]);
   (93788, [93820]); (93789, [93821]); (93790, [93822]); (93791, [93823]); (125184, [125218]);
   (125185, [125219]); (125186, [125220]); (125187, [125221]); (125188, [125222]); (125189, [125223]);
   (125190, [125224]); (125191, [125225]); (125192, [125226]); (125193, [125227]); (125194, [125228]);
   (125195, [125229]); (125196, [125230]); (125197, [125231]); (125198, [125232]); (125199, [125233]);
   (125200, [125234]); (125201, [125235]); (125202, [125236]); (125203, [125237]); (125204, [125238]);
   (125205, [125239]); (125206, [125240]); (125207, [125241]); (125208, [125242]); (125209, [125243]);
   (125210, [125244]); (125211, [125245]); (125212, [125246]); (125213, [125247]); (125214, [125248]);
   (125215, [125249]); (125216, [125250]); (125217, [125251])
  ]%N.

(** The characters with [chr(c).isupper()], as inclusive ranges. *)
Definition uppercase_ranges : list (N * N) :=
  [
   (65, 90); (192, 214); (216, 222); (256, 256); (258, 258); (260, 260);
   (262, 262); (264, 264); (266, 266); (268, 268); (270, 270); (272, 272);
   (274, 274); (276, 276); (278, 278); (280, 280); (282, 282); (284, 284);
   (286, 286); (288, 288); (290, 290); (292, 292); (294, 294); (296, 296);
   (298, 298); (300, 300); (302, 302); (304, 304); (306, 306); (308, 308);
   (310, 310); (313, 313); (315, 315); (317, 317); (319, 319); (321, 321);
   (323, 323); (325, 325); (327, 327); (330, 330); (332, 332); (334, 334);
   (336, 336); (338, 338); (340, 340); (342, 342); (344, 344); (346, 346);
   (348, 348); (350, 350); (352, 352); (354, 354); (356, 356); (358, 358);
   (360, 360); (362, 362); (364, 364); (366, 366); (368, 368); (370, 370);
   (372, 372); (374, 374); (376, 377); (379, 379); (381, 381); (385, 386);
   (388, 388); (390, 391); (393, 395); (398, 401); (403, 404); (406, 408);
   (412, 413); (415, 416); (418, 418); (420, 420); (422, 423); (425, 425);
   (428, 428); (430, 431); (433, 435); (437, 437); (439, 440); (444, 444);
   (452, 452); (455, 455); (458, 458); (461, 461); (463, 463); (465, 465);
   (467, 467); (469, 469); (471, 471); (473, 473); (475, 475); (478, 478);
   (480, 480); (482, 482); (484, 484); (486, 486); (488, 488); (490, 490);
   (492, 492); (494, 494); (497, 497); (500, 500); (502, 504); (506, 506);
   (508, 508); (510, 510); (512, 512); (514, 514); (516, 516); (518, 518);
   (520, 520); (522, 522); (524, 524); (526, 526); (528, 528); (530, 530);
   (532, 532); (534, 534); (536, 536); (538, 538); (540, 540); (542, 542);
   (544, 544); (546, 546); (548, 548); (550, 550); (552, 552); (554, 554);
   (556, 556); (558, 558); (560, 560); (562, 562); (570, 571); (573, 574);
   (577, 577); (579, 582); (584, 584); (586, 586); (588, 588); (590, 590);
   (880, 880); (882, 882); (886, 886); (895, 895); (902, 902); (904, 906);
   (908, 908); (910, 911); (913, 929); (931, 939); (975, 975); (978, 980);
   (984, 984); (986, 986); (988, 988); (990, 990); (992, 992); (994, 994);
   (996, 996); (998, 998); (1000, 1000); (1002, 1002); (1004, 1004); (1006, 1006);
   (1012, 1012); (1015, 1015); (1017, 1018); (1021, 1071); (1120, 1120); (1122, 1122);
   (1124, 1124); (1126, 1126); (1128, 1128); (1130, 1130); (1132, 1132); (1134, 1134);
   (1136, 1136); (1138, 1138); (1140, 1140); (1142, 1142); (1144, 1144); (1146, 1146);
   (1148, 1148); (1150, 1150); (1152, 1152); (1162, 1162); (1164, 1164); (1166, 1166);
   (1168, 1168); (1170, 1170); (1172, 1172); (1174, 1174); (1176, 1176); (1178, 1178);
   (1180, 1180); (1182, 1182); (1184, 1184); (1186, 1186); (1188, 1188); (1190, 1190);
   (1192, 1192); (1194, 1194); (1196, 1196); (1198, 1198); (1200, 1200); (1202, 1202);
   (1204, 1204); (1206, 1206); (1208, 1208); (1210, 1210); (1212, 1212); (1214, 1214);
   (1216, 1217); (1219, 1219); (1221, 1221); (1223, 1223); (1225, 1225); (1227, 1227);
   (1229, 1229); (1232, 1232); (1234, 1234); (1236, 1236); (1238, 1238); (1240, 1240);
   (1242, 1242); (1244, 1244); (1246, 1246); (1248, 1248); (1250, 1250); (1252, 1252);
   (1254, 1254); (1256, 1256); (1258, 1258); (1260, 1260); (1262, 1262); (1264, 1264);
   (1266, 1266); (1268, 1268); (1270, 1270); (1272, 1272); (1274, 1274); (1276, 1276);
   (1278, 1278); (1280, 1280); (1282, 1282); (1284, 1284); (1286, 1286); (1288, 1288);
   (1290, 1290); (1292, 1292); (1294, 1294); (1296, 1296); (1298, 1298); (1300, 1300);
   (1302, 1302); (1304, 1304); (1306, 1306); (1308, 1308); (1310, 1310); (1312, 1312);
   (1314, 1314); (1316, 1316); (1318, 1318); (1320, 1320); (1322, 1322); (1324, 1324);
   (1326, 1326); (1329, 1366); (4256, 4293); (4295, 4295); (4301, 4301); (5024, 5109);
   (7312, 7354); (7357, 7359); (7680, 7680); (7682, 7682); (7684, 7684); (7686, 7686);
   (7688, 7688); (7690, 7690); (7692, 7692); (7694, 7694); (7696, 7696); (7698, 7698);
   (7700, 7700); (7702, 7702); (7704, 7704); (7706, 7706); (7708, 7708); (7710, 7710);
   (7712, 7712); (7714, 7714); (7716, 7716); (7718, 7718); (7720, 7720); (7722, 7722);
   (7724, 7724); (7726, 7726); (7728, 7728); (7730, 7730); (7732, 7732); (7734, 7734);
   (7736, 7736); (7738, 7738); (7740, 7740); (7742, 7742); (7744, 7744); (7746, 7746);
   (7748, 7748); (7750, 7750); (7752, 7752); (7754, 7754); (7756, 7756); (7758, 7758);
   (7760, 7760); (7762, 7762); (7764, 7764); (7766, 7766); (7768, 7768); (7770, 7770);
   (7772, 7772); (7774, 7774); (7776, 7776); (7778, 7778); (7780, 7780); (7782, 7782);
   (7784, 7784); (7786, 7786); (7788, 7788); (7790, 7790); (7792, 7792); (7794, 7794);
   (7796, 7796); (7798, 7798); (7800, 7800); (7802, 7802); (7804, 7804); (7806, 7806);
   (7808, 7808); (7810, 7810); (7812, 7812); (7814, 7814); (7816, 7816); (7818, 7818);
   (7820, 7820); (7822, 7822); (7824, 7824); (7826, 7826); (7828, 7828); (7838, 7838);
   (7840, 7840); (7842, 7842); (7844, 7844); (7846, 7846); (7848, 7848); (7850, 7850);
   (7852, 7852); (7854, 7854); (7856, 7856); (7858, 7858); (7860, 7860); (7862, 7862);
   (7864, 7864); (7866, 7866); (7868, 7868); (7870, 7870); (7872, 7872); (7874, 7874);
   (7876, 7876); (7878, 7878); (7880, 7880); (7882, 7882); (7884, 7884); (7886, 7886);
   (7888, 7888); (7890, 7890); (7892, 7892); (7894, 7894); (7896, 7896); (7898, 7898);
   (7900, 7900); (7902, 7902); (7904, 7904); (7906, 7906); (7908, 7908); (7910, 7910);
   (7912, 7912); (7914, 7914); (7916, 7916); (7918, 7918); (7920, 7920); (7922, 7922);
   (7924, 7924); (7926, 7926); (7928, 7928); (7930, 7930); (7932, 7932); (7934, 7934);
   (7944, 7951); (7960, 7965); (7976, 7983); (7992, 7999); (8008, 8013); (8025, 8025);
   (8027, 8027); (8029, 8029); (8031, 8031); (8040, 8047); (8120, 8123); (8136, 8139);
   (8152, 8155); (8168, 8172); (8184, 8187); (8450, 8450); (8455, 8455); (8459, 8461);
   (8464, 8466); (8469, 8469); (8473, 8477); (8484, 8484); (8486, 8486); (8488, 8488);
   (8490, 8493); (8496, 8499); (8510, 8511); (8517, 8517); (8544, 8559); (8579, 8579);
   (9398, 9423); (11264, 11311); (11360, 11360); (11362, 11364); (11367, 11367); (11369, 11369);
   (11371, 11371); (11373, 11376); (11378, 11378); (11381, 11381); (11390, 11392); (11394, 11394);
   (11396, 11396); (11398, 11398); (11400, 11400); (11402, 11402); (11404, 11404); (11406, 11406);
   (11408, 11408); (11410, 11410); (11412, 11412); (11414, 11414); (11416, 11416); (11418, 11418);
   (11420, 11420); (11422, 11422); (11424, 11424); (11426, 11426); (11428, 11428); (11430, 11430);
   (11432, 11432); (11434, 11434); (11436, 11436); (11438, 11438); (11440, 11440); (11442, 11442);
   (11444, 11444); (11446, 11446); (11448, 11448); (11450, 11450); (11452, 11452); (11454, 11454);
   (11456, 11456); (11458, 11458); (11460, 11460); (11462, 11462); (11464, 11464); (11466, 11466);
   (11468, 11468); (11470, 11470); (11472, 11472); (11474, 11474); (11476, 11476); (11478, 11478);
   (11480, 11480); (11482, 11482); (11484, 11484); (11486, 11486); (11488, 11488); (11490, 11490);
   (11499, 11499); (11501, 11501); (11506, 11506); (42560, 42560); (42562, 42562); (42564, 42564);
   (42566, 42566); (42568, 42568); (42570, 42570); (42572, 42572); (42574, 42574); (42576, 42576);
   (42578, 42578); (42580, 42580); (42582, 42582); (42584, 42584); (42586, 42586); (42588, 42588);
   (42590, 42590); (42592, 42592); (42594, 42594); (42596, 42596); (42598, 42598); (42600, 42600);
   (42602, 42602); (42604, 42604); (42624, 42624); (42626, 42626); (42628, 42628); (42630, 42630);
   (42632, 42632); (42634, 42634); (42636, 42636); (42638, 42638); (42640, 42640); (42642, 42642);
   (42644, 42644); (42646, 42646); (42648, 42648); (42650, 42650); (42786, 42786); (42788, 42788);
   (42790, 42790); (42792, 42792); (42794, 42794); (42796, 42796); (42798, 42798); (42802, 42802);
   (42804, 42804); (42806, 42806); (42808, 42808); (42810, 42810); (42812, 42812); (42814, 42814);
   (42816, 42816); (42818, 42818); (42820, 42820); (42822, 42822); (42824, 42824); (42826, 42826);
   (42828, 42828); (42830, 42830); (42832, 42832); (42834, 42834); (42836, 42836); (42838, 42838);
   (42840, 42840); (42842, 42842); (42844, 42844); (42846, 42846); (42848, 42848); (42850, 42850);
   (42852, 42852); (42854, 42854); (42856, 42856); (42858, 42858); (42860, 42860); (42862, 42862);
   (42873, 42873); (42875, 42875); (42877, 42878); (42880, 42880); (42882, 42882); (42884, 42884);
   (42886, 42886); (42891, 42891); (42893, 42893); (42896, 42896); (42898, 42898); (42902, 42902);
   (42904, 42904); (42906, 42906); (42908, 42908); (42910, 42910); (42912, 42912); (42914, 42914);
   (42916, 42916); (42918, 42918); (42920, 42920); (42922, 42926); (42928, 42932); (42934, 42934);
   (42936, 42936); (42938, 42938); (42940, 42940); (42942, 42942); (42944, 42944); (42946, 42946);
   (42948, 42951); (42953, 42953); (42960, 42960); (42966, 42966); (42968, 42968); (42997, 42997);
   (65313, 65338); (66560, 66599); (66736, 66771); (66928, 66938); (66940, 66954); (66956, 66962);
   (66964, 66965); (68736, 68786); (71840, 71871); (93760, 93791); (119808, 119833); (119860, 119885);
   (119912, 119937); (119964, 119964); (119966, 119967); (119970, 119970); (119973, 119974); (119977, 119980);
   (119982, 119989); (120016, 120041); (120068, 120069); (120071, 120074); (120077, 120084); (120086, 120092);
   (120120, 120121); (120123, 120126); (120128, 120132); (120134, 120134); (120138, 120144); (120172, 120197);
   (120224, 120249); (120276, 120301); (120328, 120353); (120380, 120405); (120432, 120457); (120488, 120512);
   (120546, 120570); (120604, 120628); (120662, 120686); (120720, 120744); (120778, 120778); (125184, 125217);
   (127280, 127305); (127312, 127337); (127344, 127369)
  ]%N.

(** The case-ignorable characters, as inclusive ranges. *)
Definition case_ignorable_ranges : list (N * N) :=
  [
   (39, 39); (46, 46); (58, 58); (94, 94); (96, 96); (168, 168);
   (173, 173); (175, 175); (180, 180); (183, 184); (688, 879); (884, 885);
   (890, 890); (900, 901); (903, 903); (1155, 1161); (1369, 1369); (1375, 1375);
   (1425, 1469); (1471, 1471); (1473, 1474); (1476, 1477); (1479, 1479); (1524, 1524);
   (1536, 1541); (1552, 1562); (1564, 1564); (1600, 1600); (1611, 1631); (1648, 1648);
   (1750, 1757); (1759, 1768); (1770, 1773); (1807, 1807); (1809, 1809); (1840, 1866);
   (1958, 1968); (2027, 2037); (2042, 2042); (2045, 2045); (2070, 2093); (2137, 2139);
   (2184, 2184); (2192, 2193); (2200, 2207); (2249, 2306); (2362, 2362); (2364, 2364);
   (2369, 2376); (2381, 2381); (2385, 2391); (2402, 2403); (2417, 2417); (2433, 2433);
   (2492, 2492); (2497, 2500); (2509, 2509); (2530, 2531); (2558, 2558); (2561, 2562);
   (2620, 2620); (2625, 2626); (2631, 2632); (2635, 2637); (2641, 2641); (2672, 2673);
   (2677, 2677); (2689, 2690); (2748, 2748); (2753, 2757); (2759, 2760); (2765, 2765);
   (2786, 2787); (2810, 2815); (2817, 2817); (2876, 2876); (2879, 2879); (2881, 2884);
   (2893, 2893); (2901, 2902); (2914, 2915); (2946, 2946); (3008, 3008); (3021, 3021);
   (3072, 3072); (3076, 3076); (3132, 3132); (3134, 3136); (3142, 3144); (3146, 3149);
   (3157, 3158); (3170, 3171); (3201, 3201); (3260, 3260); (3263, 3263); (3270, 3270);
   (3276, 3277); (3298, 3299); (3328, 3329); (3387, 3388); (3393, 3396); (3405, 3405);
   (3426, 3427); (3457, 3457); (3530, 3530); (3538, 3540); (3542, 3542); (3633, 3633);
   (3636, 3642); (3654, 3662); (3761, 3761); (3764, 3772); (3782, 3782); (3784, 3789);
   (3864, 3865); (3893, 3893); (3895, 3895); (3897, 3897); (3953, 3966); (3968, 3972);
   (3974, 3975); (3981, 3991); (3993, 4028); (4038, 4038); (4141, 4144); (4146, 4151);
   (4153, 4154); (4157, 4158); (4184, 4185); (4190, 4192); (4209, 4212); (4226, 4226);
   (4229, 4230); (4237, 4237); (4253, 4253); (4348, 4348); (4957, 4959); (5906, 5908);
   (5938, 5939); (5970, 5971); (6002, 6003); (6068, 6069); (6071, 6077); (6086, 6086);
   (6089, 6099); (6103, 6103); (6109, 6109); (6155, 6159); (6211, 6211); (6277, 6278);
   (6313, 6313); (6432, 6434); (6439, 6440); (6450, 6450); (6457, 6459); (6679, 6680);
   (6683, 6683); (6742, 6742); (6744, 6750); (6752, 6752); (6754, 6754); (6757, 6764);
   (6771, 6780); (6783, 6783); (6823, 6823); (6832, 6862); (6912, 6915); (6964, 6964);
   (6966, 6970); (6972, 6972); (6978, 6978); (7019, 7027); (7040, 7041); (7074, 7077);
   (7080, 7081); (7083, 7085); (7142, 7142); (7144, 7145); (7149, 7149); (7151, 7153);
   (7212, 7219); (7222, 7223); (7288, 7293); (7376, 7378); (7380, 7392); (7394, 7400);
   (7405, 7405); (7412, 7412); (7416, 7417); (7468, 7530); (7544, 7544); (7579, 7679);
   (8125, 8125); (8127, 8129); (8141, 8143); (8157, 8159); (8173, 8175); (8189, 8190);
   (8203, 8207); (8216, 8217); (8228, 8228); (8231, 8231); (8234, 8238); (8288, 8292);
   (8294, 8303); (8305, 8305); (8319, 8319); (8336, 8348); (8400, 8432); (11388, 11389);
   (11503, 11505); (11631, 11631); (11647, 11647); (11744, 11775); (11823, 11823); (12293, 12293);
   (12330, 12333); (12337, 12341); (12347, 12347); (12441, 12446); (12540, 12542); (40981, 40981);
   (42232, 42237); (42508, 42508); (42607, 42610); (42612, 42621); (42623, 42623); (42652, 42655);
   (42736, 42737); (42752, 42785); (42864, 42864); (42888, 42890); (42994, 42996); (43000, 43001);
   (43010, 43010); (43014, 43014); (43019, 43019); (43045, 43046); (43052, 43052); (43204, 43205);
   (43232, 43249); (43263, 43263); (43302, 43309); (43335, 43345); (43392, 43394); (43443, 43443);
   (43446, 43449); (43452, 43453); (43471, 43471); (43493, 43494); (43561, 43566); (43569, 43570);
   (43573, 43574); (43587, 43587); (43596, 43596); (43632, 43632); (43644, 43644); (43696, 43696);
   (43698, 43700); (43703, 43704); (43710, 43711); (43713, 43713); (43741, 43741); (43756, 43757);
   (43763, 43764); (43766, 43766); (43867, 43871); (43881, 43883); (44005, 44005); (44008, 44008);
   (44013, 44013); (64286, 64286); (64434, 64450); (65024, 65039); (65043, 65043); (65056, 65071);
   (65106, 65106); (65109, 65109); (65279, 65279); (65287, 65287); (65294, 65294); (65306, 65306);
   (65342, 65342); (65344, 65344); (65392, 65392); (65438, 65439); (65507, 65507); (65529, 65531);
   (66045, 66045); (66272, 66272); (66422, 66426); (67456, 67461); (67463, 67504); (67506, 67514);
   (68097, 68099); (68101, 68102); (68108, 68111); (68152, 68154); (68159, 68159); (68325, 68326);
   (68900, 68903); (69291, 69292); (69446, 69456); (69506, 69509); (69633, 69633); (69688, 69702);
   (69744, 69744); (69747, 69748); (69759, 69761); (69811, 69814); (69817, 69818); (69821, 69821);
   (69826, 69826); (69837, 69837); (69888, 69890); (69927, 69931); (69933, 69940); (70003, 70003);
   (70016, 70017); (70070, 70078); (70089, 70092); (70095, 70095); (70191, 70193); (70196, 70196);
   (70198, 70199); (70206, 70206); (70367, 70367); (70371, 70378); (70400, 70401); (70459, 70460);
   (70464, 70464); (70502, 70508); (70512, 70516); (70712, 70719); (70722, 70724); (70726, 70726);
   (70750, 70750); (70835, 70840); (70842, 70842); (70847, 70848); (70850, 70851); (71090, 71093);
   (71100, 71101); (71103, 71104); (71132, 71133); (71219, 71226); (71229, 71229); (71231, 71232);
   (71339, 71339); (71341, 71341); (71344, 71349); (71351, 71351); (71453, 71455); (71458, 71461);
   (71463, 71467); (71727, 71735); (71737, 71738); (71995, 71996); (71998, 71998); (72003, 72003);
   (72148, 72151); (72154, 72155); (72160, 72160); (72193, 72202); (72243, 72248); (72251, 72254);
   (72263, 72263); (72273, 72278); (72281, 72283); (72330, 72342); (72344, 72345); (72752, 72758);
   (72760, 72765); (72767, 72767); (72850, 72871); (72874, 72880); (72882, 72883); (72885, 72886);
   (73009, 73014); (73018, 73018); (73020, 73021); (73023, 73029); (73031, 73031); (73104, 73105);
   (73109, 73109); (73111, 73111); (73459, 73460); (78896, 78904); (92912, 92916); (92976, 92982);
   (92992, 92995); (94031, 94031); (94095, 94111); (94176, 94177); (94179, 94180); (110576, 110579);
   (110581, 110587); (110589, 110590); (113821, 113822); (113824, 113827); (118528, 118573); (118576, 118598);
   (119143, 119145); (119155, 119170); (119173, 119179); (119210, 119213); (119362, 119364); (121344, 121398);
   (121403, 121452); (121461, 121461); (121476, 121476); (121499, 121503); (121505, 121519); (122880, 122886);
   (122888, 122904); (122907, 122913); (122915, 122916); (122918, 122922); (123184, 123197); (123566, 123566);
   (123628, 123631); (125136, 125142); (125252, 125259); (127995, 127999); (917505, 917505); (917536, 917631);
   (917760, 917999)
  ]%N.

(** The cased characters that are not case-ignorable, as inclusive
    ranges. *)
Definition cased_ranges : list (N * N) :=
  [
   (65, 90); (97, 122); (170, 170); (181, 181); (186, 186); (192, 214);
   (216, 246); (248, 442); (444, 447); (452, 659); (661, 687); (880, 883);
   (886, 887); (891, 893); (895, 895); (902, 902); (904, 906); (908, 908);
   (910, 929); (931, 1013); (1015, 1153); (1162, 1327); (1329, 1366); (1376, 1416);
   (4256, 4293); (4295, 4295); (4301, 4301); (4304, 4346); (4349, 4351); (5024, 5109);
   (5112, 5117); (7296, 7304); (7312, 7354); (7357, 7359); (7424, 7467); (7531, 7543);
   (7545, 7578); (7680, 7957); (7960, 7965); (7968, 8005); (8008, 8013); (8016, 8023);
   (8025, 8025); (8027, 8027); (8029, 8029); (8031, 8061); (8064, 8116); (8118, 8124);
   (8126, 8126); (8130, 8132); (8134, 8140); (8144, 8147); (8150, 8155); (8160, 8172);
   (8178, 8180); (8182, 8188); (8450, 8450); (8455, 8455); (8458, 8467); (8469, 8469);
   (8473, 8477); (8484, 8484); (8486, 8486); (8488, 8488); (8490, 8493); (8495, 8500);
   (8505, 8505); (8508, 8511); (8517, 8521); (8526, 8526); (8544, 8575); (8579, 8580);
   (9398, 9449); (11264, 11387); (11390, 11492); (11499, 11502); (11506, 11507); (11520, 11557);
   (11559, 11559); (11565, 11565); (42560, 42605); (42624, 42651); (42786, 42863); (42865, 42887);
   (42891, 42894); (42896, 42954); (42960, 42961); (42963, 42963); (42965, 42969); (42997, 42998);
   (43002, 43002); (43824, 43866); (43872, 43880); (43888, 43967); (64256, 64262); (64275, 64279);
   (65313, 65338); (65345, 65370); (66560, 66639); (66736, 66771); (66776, 66811); (66928, 66938);
   (66940, 66954); (66956, 66962); (66964, 66965); (66967, 66977); (66979, 66993); (66995, 67001);
   (67003, 67004); (68736, 68786); (68800, 68850); (71840, 71903); (93760, 93823); (119808, 119892);
   (119894, 119964); (119966, 119967); (119970, 119970); (119973, 119974); (119977, 119980); (119982, 119993);
   (119995, 119995); (119997, 120003); (120005, 120069); (120071, 120074); (120077, 120084); (120086, 120092);
   (120094, 120121); (120123, 120126); (120128, 120132); (120134, 120134); (120138, 120144); (120146, 120485);
   (120488, 120512); (120514, 120538); (120540, 120570); (120572, 120596); (120598, 120628); (120630, 120654);
   (120656, 120686); (120688, 120712); (120714, 120744); (120746, 120770); (120772, 120779); (122624, 122633);
   (122635, 122654); (125184, 125251); (127280, 127305); (127312, 127337); (127344, 127369)
  ]%N.

Definition in_ranges (c : N) (ranges : list (N * N)) : bool :=
  existsb (fun r => (fst r <=? c)%N && (c <=? snd r)%N) ranges.

(** [chr(c).isupper()] *)
Definition char_isupper (c : N) : bool := in_ranges c uppercase_ranges.

Definition is_case_ignorable (c : N) : bool := in_ranges c case_ignorable_ranges.

(** Consulted for characters that are not case-ignorable only. *)
Definition is_cased (c : N) : bool := in_ranges c cased_ranges.

(** The full lowercase mapping of one character. *)
Definition to_lower_full (c : N) : list N :=
  match find (fun entry => (fst entry =? c)%N) lower_table with
  | Some entry => snd entry
  | None => [c]
  end.

Fixpoint skip_ignorable (s : ustr) : ustr :=
  match s with
  | [] => []
  | c :: s' => if is_case_ignorable c then skip_ignorable s' else s
  end.

Definition CAPITAL_SIGMA : N := 931.
Definition SMALL_SIGMA : N := 963.
Definition FINAL_SIGMA : N := 962.

(** The capital sigma becomes the final sigma when a cased character comes
    before it, case-ignorable ones apart, and none comes after it.
    [before] has the characters before the sigma, the nearest first;
    [after] those after it. *)
Definition handle_capital_sigma (before after : ustr) : N :=
  let final_sigma :=
    match skip_ignorable before with
    | c :: _ => is_cased c
    | [] => false
    end
    && match skip_ignorable after with
       | c :: _ => negb (is_cased c)
       | [] => true
       end in
  if final_sigma then FINAL_SIGMA else SMALL_SIGMA.

Fixpoint lower_from (before : ustr) (s : ustr) : ustr :=
  match s with
  | [] => []
  | c :: s' =>
      (if (c =? CAPITAL_SIGMA)%N then [handle_capital_sigma before s']
       else to_lower_full c)
      ++ lower_from (c :: before) s'
  end.

(** [s.lower()] *)
Definition lower (s : ustr) : ustr := lower_from [] s.

(** [chr(c).lower() != chr(c)] *)
Definition lower_changes (c : N) : bool :=
  negb (match to_lower_full c with
        | [d] => (d =? c)%N
        | _ => false
        end).

(** [a == b] *)
Fixpoint eqb (a b : ustr) : bool :=
  match a, b with
  | [], [] => true
  | x :: a', y :: b' => (x =? y)%N && eqb a' b'
  | _, _ => false
  end.

Fixpoint strip_prefix (p s : ustr) : option ustr :=
  match p, s with
  | [], _ => Some s
  | a :: p', b :: s' => if (a =? b)%N then strip_prefix p' s' else None
  | _ :: _, [] => None
  end.

(** [s.startswith(p)] *)
Definition startswith (s p : ustr) : bool :=
  match strip_prefix p s with Some _ => true | None => false end.

(** [s.replace(old, new)] for a non-empty [old], as [PyStr.replace]. *)
Fixpoint replace_steps (fuel : nat) (s old new : ustr) : ustr :=
  match fuel with
  | O => s
  | S fuel' =>
      match s with
      | [] => []
      | c :: s' =>
          match strip_prefix old s with
          | Some rest => new ++ replace_steps fuel' rest old new
          | None => c :: replace_steps fuel' s' old new
          end
      end
  end.

Definition replace (s old new : ustr) : ustr :=
  replace_steps (List.length s) s old new.

(** A dictionary from strings to strings, in insertion order. *)
Definition dict : Type := list (ustr * ustr).

Fixpoint get (d : dict) (k : ustr) : option ustr :=
  match d with
  | [] => None
  | (k', v) :: d' => if eqb k k' then Some v else get d' k
  end.

Fixpoint set (d : dict) (k v : ustr) : dict :=
  match d with
  | [] => [(k, v)]
  | (k', v') :: d' =>
      if eqb k k' then (k', v) :: d' else (k', v') :: set d' k v
  end.

Definition keys (d : dict) : list ustr := map fst d.

(** The 8-bit strings as strings of code points. *)
Fixpoint of_latin1 (s : string) : ustr :=
  match s with
  | EmptyString => []
  | String c s' => N_of_ascii c :: of_latin1 s'
  end.

Definition SECRET_PREFIX : ustr := of_latin1 "REI_AGENT_SECRET_".

(** main.py, lines 49-52 *)
Definition load_step (rei_agents : dict) (item : ustr * ustr) : dict :=
  let '(key, value) := item in
  if startswith key SECRET_PREFIX
     && negb (match value with [] => true | _ :: _ => false end) then
    let unit_name := lower (replace key SECRET_PREFIX []) in
    set rei_agents unit_name value
  else rei_agents.

Definition load_agents (environ : list (ustr * ustr)) : dict :=
  fold_left load_step environ [].

(** main.py, line 73: [unit_id in rei_agents]; the handler raises the
    unit-not-found 404 when it is false. *)
Definition unit_in_registry (unit_id : ustr) (rei_agents : dict) : bool :=
  match get rei_agents unit_id with Some _ => true | None => false end.

Definition of_latin1_item (item : string * string) : ustr * ustr :=
  (of_latin1 (fst item), of_latin1 (snd item)).

(** U+03D2, GREEK UPSILON WITH HOOK SYMBOL: an uppercase letter without a
    lowercase form. *)
Definition UPSILON_HOOK : N := 978.

Definition upsilon_environ : list (ustr * ustr) :=
  [(SECRET_PREFIX ++ [UPSILON_HOOK], of_latin1 "sk-upsilon")].

End Unicode.

(** * Properties *)

(** ** Strings *)

Module PyStrFacts.
Import PyStr.

Lemma char_lower_not_upper (c : ascii) : char_isupper (char_lower c) = false.
Proof.
  destruct c as [b0 b1 b2 b3 b4 b5 b6 b7].
  destruct b0, b1, b2, b3, b4, b5, b6, b7; reflexivity.
Qed.

Lemma char_lower_fixed (c : ascii) :
  char_isupper c = false -> char_lower c = c.
Proof. unfold char_lower. now intros ->. Qed.

Lemma lower_no_upper (s : string) : has_upper (lower s) = false.
Proof.
  induction s as [|c s IH]; simpl; [reflexivity|].
  now rewrite char_lower_not_upper, IH.
Qed.

Lemma lower_fixed (s : string) : has_upper s = false -> lower s = s.
Proof.
  induction s as [|c s IH]; simpl; [reflexivity|].
  intros H. apply orb_false_iff in H as [Hc Hs].
  now rewrite (char_lower_fixed c Hc), (IH Hs).
Qed.

Lemma lower_idempotent (s : string) : lower (lower s) = lower s.
Proof. apply lower_fixed, lower_no_upper. Qed.

Lemma lower_length (s : string) : String.length (lower s) = String.length s.
Proof. induction s; simpl; congruence. Qed.

Lemma strip_prefix_length (p s rest : string) :
  strip_prefix p s = Some rest ->
  String.length s = String.length p + String.length rest.
Proof.
  revert s. induction p as [|a p IH]; intros s H; simpl in *.
  - now inversion H.
  - destruct s as [|b s]; [discriminate|].
    destruct (Ascii.eqb a b); [|discriminate].
    simpl. now rewrite (IH _ H).
Qed.

Lemma strip_prefix_app (p s rest : string) :
  strip_prefix p s = Some rest <-> s = (p ++ rest)%string.
Proof.
  revert s. induction p as [|a p IH]; intros s; simpl.
  - split; [now intros [= ->] | now intros ->].
  - destruct s as [|b s].
    + split; discriminate.
    + destruct (Ascii.eqb_spec a b) as [->|Hab].
      * rewrite IH. split; [now intros -> | now intros [= ->]].
      * split; [discriminate | intros [= E _]; now elim Hab].
Qed.

(** [replace] always has fuel left: more steps than [length s] change
    nothing. *)
Lemma replace_steps_enough (old new : string) :
  old <> EmptyString ->
  forall fuel s, String.length s <= fuel ->
    replace_steps fuel s old new = replace s old new.
Proof.
  intros Hold. unfold replace.
  assert (G : forall f1 f2 s,
             String.length s <= f1 -> String.length s <= f2 ->
             replace_steps f1 s old new = replace_steps f2 s old new).
  { induction f1 as [|f1 IH]; intros f2 s H1 H2.
    - destruct s; [|simpl in H1; lia]. now destruct f2.
    - destruct f2 as [|f2].
      + destruct s; [reflexivity | simpl in H2; lia].
      + simpl. destruct s as [|c s]; [reflexivity|].
        destruct (strip_prefix old (String c s)) as [rest|] eqn:E.
        * apply strip_prefix_length in E.
          assert (0 < String.length old)
            by (destruct old; [congruence | simpl; lia]).
          simpl in *. f_equal. apply IH; lia.
        * simpl in *. f_equal. apply IH; lia. }
  intros fuel s H. apply G; lia.
Qed.

Lemma replace_no_occurrence_step (old new : string) (c : ascii) (s : string) :
  old <> EmptyString ->
  strip_prefix old (String c s) = None ->
  replace (String c s) old new = String c (replace s old new).
Proof.
  intros Hold E. unfold replace at 1. simpl String.length.
  cbn [replace_steps]. rewrite E. reflexivity.
Qed.

Lemma replace_occurrence_step (old new s rest : string) :
  old <> EmptyString ->
  strip_prefix old s = Some rest ->
  replace s old new = (new ++ replace rest old new)%string.
Proof.
  intros Hold E. pose proof (strip_prefix_length _ _ _ E) as L.
  assert (0 < String.length old)
    by (destruct old; [congruence | simpl; lia]).
  unfold replace at 1. destruct s as [|c s]; [simpl in L; lia|].
  simpl String.length. cbn [replace_steps]. rewrite E.
  f_equal. apply replace_steps_enough; [assumption|]. simpl in L. lia.
Qed.

(** *** [repr] loses nothing *)

Lemma unrepr_body_char (quote c : ascii) (tail : string) :
  quote = squote \/ quote = dquote ->
  unrepr_body quote (repr_char quote c ++ tail) =
  match unrepr_body quote tail with
  | Some (r, rest) => Some (String c r, rest)
  | None => None
  end.
Proof.
  intros [-> | ->];
    destruct c as [[] [] [] [] [] [] [] []]; reflexivity.
Qed.

Lemma append_assoc (a b c : string) : ((a ++ b) ++ c = a ++ (b ++ c))%string.
Proof. induction a as [|x a IH]; simpl; [reflexivity | now rewrite IH]. Qed.

Lemma append_cancel (a b c : string) : (a ++ b = a ++ c)%string -> b = c.
Proof. induction a as [|x a IH]; simpl; [auto | intros [= H]; auto]. Qed.

Lemma unrepr_body_repr_body (quote : ascii) (s rest : string) :
  quote = squote \/ quote = dquote ->
  unrepr_body quote (repr_body quote s ++ String quote rest) = Some (s, rest).
Proof.
  intros Hq. induction s as [|c s IH]; simpl.
  - now rewrite Ascii.eqb_refl.
  - now rewrite append_assoc, (unrepr_body_char quote c _ Hq), IH.
Qed.

(** [repr] can be read back, whatever follows the literal. *)
Lemma unrepr_repr (s rest : string) :
  unrepr (repr s ++ rest) = Some (s, rest).
Proof.
  unfold repr.
  destruct (has_char squote s && negb (has_char dquote s))%bool;
    cbn [append unrepr]; rewrite append_assoc; cbn [append];
    [change (Ascii.eqb dquote squote || Ascii.eqb dquote dquote)%bool with true
    |change (Ascii.eqb squote squote || Ascii.eqb squote dquote)%bool with true];
    apply unrepr_body_repr_body; auto.
Qed.

Lemma repr_starts_with_a_quote (s : string) :
  exists q t, repr s = String q t /\ (q = squote \/ q = dquote).
Proof.
  unfold repr.
  destruct (has_char squote s && negb (has_char dquote s))%bool; eauto.
Qed.

(** What follows the first item of a list: the other items and the
    closing bracket. *)
Lemma join_cons (x : string) (l : list string) :
  (join ", " (x :: l) ++ "]")%string =
  (x ++ match l with
        | [] => "]"
        | _ :: _ => ", " ++ join ", " l ++ "]"
        end)%string.
Proof.
  destruct l as [|y l]; [reflexivity|].
  cbn [join]. now rewrite !append_assoc.
Qed.

Lemma join_repr_injective (l1 l2 : list string) :
  (join ", " (map repr l1) ++ "]" = join ", " (map repr l2) ++ "]")%string ->
  l1 = l2.
Proof.
  revert l2. induction l1 as [|x l1 IH]; intros [|y l2] H.
  - reflexivity.
  - exfalso. cbn [map] in H. rewrite join_cons in H.
    destruct (repr_starts_with_a_quote y) as (q & t & E & [-> | ->]);
      rewrite E in H; discriminate.
  - exfalso. cbn [map] in H. rewrite join_cons in H.
    destruct (repr_starts_with_a_quote x) as (q & t & E & [-> | ->]);
      rewrite E in H; discriminate.
  - cbn [map] in H. rewrite !join_cons in H.
    apply (f_equal unrepr) in H. rewrite !unrepr_repr in H.
    injection H as -> H. f_equal.
    destruct l1 as [|x' l1], l2 as [|y' l2]; try discriminate.
    + reflexivity.
    + apply IH. cbn [map append] in H |- *. now injection H.
Qed.

(** The text of a list of strings tells the list. *)
Lemma repr_list_injective (l1 l2 : list string) :
  repr_list l1 = repr_list l2 -> l1 = l2.
Proof.
  unfold repr_list. cbn [append]. intros [= H].
  now apply join_repr_injective.
Qed.

End PyStrFacts.

(** ** Dictionaries *)

Module PyDictFacts.
Import PyDict.
Section Facts.
Context {V : Type}.
Implicit Types (d : PyDict.t V) (k : string) (v : V).

Lemma mem_keys d k : mem k d = true <-> In k (keys d).
Proof.
  unfold mem. induction d as [|[k' v'] d IH]; simpl.
  - split; [discriminate | tauto].
  - destruct (String.eqb_spec k k') as [->|Hk].
    + split; auto.
    + rewrite IH. split; [auto | intros [E|H]; [now elim Hk | exact H]].
Qed.

Lemma get_none_keys d k : get d k = None <-> ~ In k (keys d).
Proof.
  rewrite <- mem_keys. unfold mem. destruct (get d k); split;
    congruence || (intros H; now elim H).
Qed.

Lemma keys_set d k v :
  keys (set d k v) = if mem k d then keys d else keys d ++ [k].
Proof.
  unfold mem. induction d as [|[k' v'] d IH]; simpl; [reflexivity|].
  destruct (String.eqb_spec k k') as [->|Hk]; simpl; [reflexivity|].
  rewrite IH. now destruct (get d k).
Qed.

Lemma In_keys_set d k v k' :
  In k' (keys (set d k v)) <-> k' = k \/ In k' (keys d).
Proof.
  rewrite keys_set. destruct (mem k d) eqn:E.
  - apply mem_keys in E. split; [auto | intros [->|H]; assumption].
  - rewrite in_app_iff. simpl. intuition congruence.
Qed.

Lemma get_set_same d k v : get (set d k v) k = Some v.
Proof.
  induction d as [|[k' v'] d IH]; simpl.
  - now rewrite String.eqb_refl.
  - destruct (String.eqb_spec k k') as [->|Hk]; simpl.
    + now rewrite String.eqb_refl.
    + destruct (String.eqb_spec k k'); [contradiction | exact IH].
Qed.

Lemma NoDup_keys_set d k v : NoDup (keys d) -> NoDup (keys (set d k v)).
Proof.
  intros H. rewrite keys_set. destruct (mem k d) eqn:E; [exact H|].
  assert (~ In k (keys d)) by (rewrite <- mem_keys; congruence).
  clear E. induction (keys d) as [|x l IH]; simpl.
  - constructor; [tauto | constructor].
  - inversion H; subst. constructor.
    + rewrite in_app_iff. simpl in *. intuition congruence.
    + apply IH; simpl in *; tauto.
Qed.

Lemma len_keys d : len d = Z.of_nat (List.length (keys d)).
Proof. unfold len, keys. now rewrite length_map. Qed.
End Facts.
End PyDictFacts.

(** ** The registry *)

Lemma load_step_keys (agents : PyDict.t string) (item : string * string) (k : string) :
  In k (PyDict.keys (load_step agents item)) <->
  In k (PyDict.keys agents) \/ (configures item = true /\ k = unit_name_of (fst item)).
Proof.
  destruct item as [key value]. unfold load_step, configures. simpl.
  destruct (PyStr.startswith key SECRET_PREFIX && negb (value =? ""))%bool.
  - rewrite PyDictFacts.In_keys_set. unfold unit_name_of. tauto.
  - split; [auto | intros [H|[H _]]; [exact H | discriminate]].
Qed.

Lemma fold_load_keys (environ : list (string * string)) :
  forall (agents : PyDict.t string) (k : string),
    In k (PyDict.keys (fold_left load_step environ agents)) <->
    In k (PyDict.keys agents) \/
    exists item, In item environ /\ configures item = true
                 /\ k = unit_name_of (fst item).
Proof.
  induction environ as [|item environ IH]; intros agents k; simpl.
  - split; [auto | intros [H|(? & [] & _)]; exact H].
  - rewrite IH, load_step_keys. split.
    + intros [[H|[H1 H2]]|(i & Hi & H)]; eauto 6.
    + intros [H|(i & [<-|Hi] & H)]; eauto 6.
Qed.

Lemma load_agents_keys (environ : list (string * string)) (k : string) :
  In k (PyDict.keys (load_agents environ)) <->
  exists item, In item environ /\ configures item = true
               /\ k = unit_name_of (fst item).
Proof.
  unfold load_agents. rewrite fold_load_keys. simpl. tauto.
Qed.

Lemma load_agents_NoDup (environ : list (string * string)) :
  NoDup (PyDict.keys (load_agents environ)).
Proof.
  unfold load_agents.
  assert (G : forall agents : PyDict.t string,
             NoDup (PyDict.keys agents) ->
             NoDup (PyDict.keys (fold_left load_step environ agents))).
  { induction environ as [|[key value] environ IH]; intros agents H; simpl.
    - exact H.
    - apply IH.
      destruct (PyStr.startswith key SECRET_PREFIX && negb (value =? ""))%bool.
      + now apply PyDictFacts.NoDup_keys_set.
      + exact H. }
  apply G. constructor.
Qed.

Lemma load_agents_keys_lower (environ : list (string * string)) (k : string) :
  In k (PyDict.keys (load_agents environ)) -> PyStr.has_upper k = false.
Proof.
  rewrite load_agents_keys. intros (item & _ & _ & ->).
  apply PyStrFacts.lower_no_upper.
Qed.

(** ** The chat handler, step by step *)

Section ChatSteps.
Variable upstream : upstream_t.
Variables (unit_id : string) (query : Query).

Lemma lift_bind {A B} (r : pyexn + A) (k : A -> M B) (st : State) :
  (x <- lift r ;; k x) st =
  match r with
  | inl e => (inl (RaiseExn e), st)
  | inr a => k a st
  end.
Proof. now destruct r. Qed.

(** An unknown unit: the [HTTPException] of line 75 passes the first
    [except] clause, and the state is as it was. *)
Lemma chat_unknown_unit (st : State) :
  PyDict.get (rei_agents st) unit_id = None ->
  chat_with_specific_unit upstream unit_id query st =
  (http_error 404
     (Text (unit_not_found_detail unit_id (PyDict.keys (rei_agents st)))),
   st).
Proof.
  intros H.
  unfold chat_with_specific_unit, try_except, chat_body, bind, get_agents,
    PyDict.mem.
  now rewrite H.
Qed.

(** A known unit: one request goes out, and the answer is handled. *)
Lemma chat_known_unit (st : State) (secret : string) :
  PyDict.get (rei_agents st) unit_id = Some secret ->
  chat_with_specific_unit upstream unit_id query st =
  let req := chat_request secret (text query) in
  match upstream req with
  | inl e => chat_handler (RaiseExn e) (after_post st req)
  | inr response =>
      try_except (handle_response unit_id (text query) response)
        chat_handler (after_post st req)
  end.
Proof.
  intros H.
  unfold chat_with_specific_unit, try_except, chat_body, bind, get_agents,
    PyDict.mem, py_getitem_secret, client_post, after_post, chat_request.
  rewrite H. cbn.
  now destruct (upstream _).
Qed.

(** Nothing after the request touches the state. *)
Lemma extract_content_state (data : pyval) (st : State) :
  snd (extract_content data st) = st.
Proof.
  unfold extract_content. rewrite lift_bind.
  destruct (py_contains "choices" data) as [e|[|]]; try reflexivity.
  rewrite lift_bind.
  destruct (py_getitem_str data "choices") as [e|choices]; [reflexivity|].
  rewrite lift_bind.
  destruct (py_len choices) as [e|n]; [reflexivity|].
  destruct (n >? 0)%Z; [|reflexivity].
  rewrite lift_bind.
  destruct (py_getitem_0 choices) as [e|first]; [reflexivity|].
  rewrite lift_bind.
  destruct (py_get first "message" (PDict [])) as [e|message]; [reflexivity|].
  now destruct (py_get message "content" (PStr "")).
Qed.

Lemma handle_response_state (response : Response) (st : State) :
  snd (handle_response unit_id (text query) response st) = st.
Proof.
  unfold handle_response.
  destruct (resp_status_code response =? 401)%Z; [reflexivity|].
  destruct (resp_status_code response =? 404)%Z; [reflexivity|].
  destruct (resp_status_code response =? 200)%Z; [|reflexivity].
  cbn [negb]. rewrite lift_bind. unfold response_json.
  destruct (resp_json response) as [e|data]; [reflexivity|].
  unfold bind. pose proof (extract_content_state data st) as E.
  destruct (extract_content data st) as [[e|c] st']; simpl in *; subst;
    [reflexivity|].
  now destruct (py_len c).
Qed.

Lemma chat_handler_state (e : raised) (st : State) :
  snd (chat_handler e st) = st.
Proof. destruct e as [h|[]]; reflexivity. Qed.

(** Whatever happens, at most one request goes out, and the registry is
    the same afterwards. *)
Lemma chat_state (st : State) :
  snd (chat_with_specific_unit upstream unit_id query st) =
  match PyDict.get (rei_agents st) unit_id with
  | None => st
  | Some secret => after_post st (chat_request secret (text query))
  end.
Proof.
  destruct (PyDict.get (rei_agents st) unit_id) as [secret|] eqn:E.
  - rewrite (chat_known_unit st secret E). cbv zeta.
    destruct (upstream _) as [e|response].
    + apply chat_handler_state.
    + unfold try_except.
      pose proof (handle_response_state response
                    (after_post st (chat_request secret (text query)))) as S.
      destruct (handle_response _ _ _ _) as [[e|v] st']; simpl in *; subst.
      * apply chat_handler_state.
      * reflexivity.
  - now rewrite (chat_unknown_unit st E).
Qed.
End ChatSteps.

(** ** Reading the content out of the upstream body *)

Ltac run_extract :=
  unfold extract_content, bind, lift, raise_exn, raise, ret,
    py_contains, py_getitem_str, py_len, py_getitem_0, py_get, PyDict.mem.

Lemma extract_content_shape (data c : pyval) (st : State) :
  content_shape data = Some c -> extract_content data st = (inr c, st).
Proof.
  intros H. destruct data as [| | | | |l|d]; try discriminate. simpl in H.
  run_extract.
  destruct (PyDict.get d "choices") as [[| | | | |[|[| | | | | |first] l]|]|]; try discriminate.
  cbn. destruct (PyDict.get first "message") as [[| | | | | |m]|]; try discriminate.
  now rewrite H.
Qed.

Lemma extract_content_default (data : pyval) (st : State) :
  content_shape data = None -> defaults_to_empty data = true ->
  extract_content data st = (inr (PStr ""), st).
Proof.
  intros H D. destruct data as [| | | |s|l|d]; try discriminate; simpl in *; run_extract.
  - apply negb_true_iff in D. now rewrite D.
  - apply negb_true_iff in D. now rewrite D.
  - destruct (PyDict.get d "choices") as [[| | | |[|]|[|[| | | | | |first] l]|[|]]|]; try discriminate; try reflexivity.
  cbn. destruct (PyDict.get first "message") as [[| | | | | |m]|]; try discriminate; try reflexivity.
  destruct (PyDict.get m "content"); try discriminate; reflexivity.
Qed.

Lemma extract_content_error (data : pyval) (st : State) :
  content_shape data = None -> defaults_to_empty data = false ->
  exists e, extract_content data st = (inl (RaiseExn e), st)
            /\ forall d, e <> ReadTimeout d.
Proof.
  intros H D. destruct data as [| | | |s|l|d]; simpl in *; run_extract;
  try (eexists; split; [reflexivity | discriminate]).
  - apply negb_false_iff in D. rewrite D. eexists; split; [reflexivity | discriminate].
  - apply negb_false_iff in D. rewrite D. eexists; split; [reflexivity | discriminate].
  - destruct (PyDict.get d "choices") as [[| | | |[|]|[|[| | | | |?|first] l]|[|]]|]; try discriminate;
    cbn; try (eexists; split; [reflexivity | discriminate]).
    destruct (PyDict.get first "message") as [[| | | | | |m]|]; try discriminate;
    cbn; try (eexists; split; [reflexivity | discriminate]).
    destruct (PyDict.get m "content"); discriminate.
Qed.

(** ** What the handler makes of the upstream's answer *)

Section ChatResults.
Variable upstream : upstream_t.
Variables (unit_id : string) (query : Query).

Lemma extract_content_pure (data : pyval) (st : State) :
  extract_content data st = (fst (extract_content data (mkState [] [])), st).
Proof.
  unfold extract_content. rewrite !lift_bind.
  destruct (py_contains "choices" data) as [e|[|]]; try reflexivity.
  rewrite !lift_bind.
  destruct (py_getitem_str data "choices") as [e|choices]; [reflexivity|].
  rewrite !lift_bind.
  destruct (py_len choices) as [e|n]; [reflexivity|].
  destruct (n >? 0)%Z; [|reflexivity].
  rewrite !lift_bind.
  destruct (py_getitem_0 choices) as [e|first]; [reflexivity|].
  rewrite !lift_bind.
  destruct (py_get first "message" (PDict [])) as [e|message]; [reflexivity|].
  now destruct (py_get message "content" (PStr "")).
Qed.

Lemma handle_response_pure (response : Response) (st : State) :
  handle_response unit_id (text query) response st =
  (fst (handle_response unit_id (text query) response (mkState [] [])), st).
Proof.
  unfold handle_response.
  destruct (resp_status_code response =? 401)%Z; [reflexivity|].
  destruct (resp_status_code response =? 404)%Z; [reflexivity|].
  destruct (resp_status_code response =? 200)%Z; [|reflexivity].
  cbn [negb]. rewrite !lift_bind. unfold response_json.
  destruct (resp_json response) as [e|data]; [reflexivity|].
  unfold bind. rewrite (extract_content_pure data st).
  destruct (extract_content data (mkState [] [])) as [[e|c] st'];
    [reflexivity|].
  cbn [fst]. now destruct (py_len c).
Qed.

Lemma chat_handler_pure (e : raised) (st : State) :
  chat_handler e st = (fst (chat_handler e (mkState [] [])), st).
Proof. destruct e as [h|[]]; reflexivity. Qed.

(** The answer of the upstream decides the result. *)
Lemma answer_decides (response : Response) (st1 st2 : State) :
  fst (try_except (handle_response unit_id (text query) response)
         chat_handler st1) =
  fst (try_except (handle_response unit_id (text query) response)
         chat_handler st2).
Proof.
  unfold try_except.
  rewrite (handle_response_pure response st1),
    (handle_response_pure response st2).
  destruct (fst (handle_response _ _ _ _)) as [e|v]; [|reflexivity].
  now rewrite (chat_handler_pure e st1), (chat_handler_pure e st2).
Qed.

(** A response with status 200 and a JSON body. *)
Lemma chat_status_200 (st : State) (secret : string) (response : Response)
    (data : pyval) :
  PyDict.get (rei_agents st) unit_id = Some secret ->
  upstream (chat_request secret (text query)) = inr response ->
  resp_status_code response = 200%Z ->
  resp_json response = inr data ->
  let st' := after_post st (chat_request secret (text query)) in
  chat_with_specific_unit upstream unit_id query st =
  match extract_content data st' with
  | (inr content, _) =>
      match py_len content with
      | inr _ => (inr (chat_response content unit_id (text query) data), st')
      | inl e => chat_handler (RaiseExn e) st'
      end
  | (inl e, _) => chat_handler e st'
  end.
Proof.
  intros Hget Hup Hst Hjson st'.
  rewrite (chat_known_unit upstream unit_id query st secret Hget).
  cbv zeta. rewrite Hup. unfold try_except, handle_response, response_json.
  rewrite Hst, Hjson. cbn. unfold bind. fold st'.
  pose proof (extract_content_state data st') as E.
  destruct (extract_content data st') as [[e|c] st'']; simpl in E; subst;
    [reflexivity|].
  now destruct (py_len c).
Qed.

(** A response with another status. *)
Lemma chat_status_other (st : State) (secret : string) (response : Response) :
  PyDict.get (rei_agents st) unit_id = Some secret ->
  upstream (chat_request secret (text query)) = inr response ->
  resp_status_code response <> 200%Z ->
  chat_with_specific_unit upstream unit_id query st =
  (if (resp_status_code response =? 401)%Z then
     http_error 401 (Text "Unauthorized")
   else if (resp_status_code response =? 404)%Z then
     http_error 404 (Text "Agent not found")
   else
     http_error (resp_status_code response)
       (Text ("API error: " ++ resp_text response)),
   after_post st (chat_request secret (text query))).
Proof.
  intros Hget Hup Hst.
  rewrite (chat_known_unit upstream unit_id query st secret Hget).
  cbv zeta. rewrite Hup. unfold try_except, handle_response.
  destruct (resp_status_code response =? 401)%Z; [reflexivity|].
  destruct (resp_status_code response =? 404)%Z; [reflexivity|].
  destruct (Z.eqb_spec (resp_status_code response) 200); [contradiction|].
  reflexivity.
Qed.

(** An exception raised inside [client.post]. *)
Lemma chat_post_raises (st : State) (secret : string) (e : pyexn) :
  PyDict.get (rei_agents st) unit_id = Some secret ->
  upstream (chat_request secret (text query)) = inl e ->
  chat_with_specific_unit upstream unit_id query st =
  chat_handler (RaiseExn e) (after_post st (chat_request secret (text query))).
Proof.
  intros Hget Hup.
  rewrite (chat_known_unit upstream unit_id query st secret Hget).
  cbv zeta. now rewrite Hup.
Qed.
End ChatResults.

(** ** A response with status 200 *)

Lemma py_len_error (v : pyval) (e : pyexn) :
  py_len v = inl e -> from_the_body e.
Proof. destruct v; simpl; intros [= <-]; exact I. Qed.

Lemma py_get_error (v : pyval) (k : string) (default : pyval) (e : pyexn) :
  py_get v k default = inl e -> from_the_body e.
Proof.
  destruct v; simpl; try (intros [= <-]; reflexivity).
  destruct (PyDict.get d k); discriminate.
Qed.

Lemma extract_content_cases (data : pyval) (st : State) :
  match fst (extract_content data st) with
  | inr _ => True
  | inl (RaiseExn e) => from_the_body e
  | inl (RaiseHTTP _) => False
  end.
Proof.
  unfold extract_content. rewrite lift_bind.
  destruct (py_contains "choices" data) as [e|has] eqn:Hc.
  { destruct data; simpl in Hc; try discriminate; injection Hc as <-; exact I. }
  destruct has; [|exact I]. rewrite lift_bind.
  destruct (py_getitem_str data "choices") as [e|choices] eqn:Hg.
  { destruct data; simpl in Hg; try (injection Hg as <-; exact I).
    simpl in Hc. unfold PyDict.mem in Hc.
    destruct (PyDict.get d "choices"); discriminate. }
  rewrite lift_bind.
  destruct (py_len choices) as [e|n] eqn:Hl.
  { simpl. now apply (py_len_error choices). }
  destruct (n >? 0)%Z eqn:Hn; [|exact I]. rewrite lift_bind.
  destruct (py_getitem_0 choices) as [e|first] eqn:H0.
  { destruct choices as [| | | |s|l|d]; simpl in Hl, H0; try discriminate.
    - destruct s; [|discriminate]. injection Hl as <-. discriminate.
    - destruct l; [|discriminate]. injection Hl as <-. discriminate.
    - injection H0 as <-. reflexivity. }
  rewrite lift_bind.
  destruct (py_get first "message" (PDict [])) as [e|message] eqn:Hm.
  { simpl. now apply (py_get_error first "message" (PDict [])). }
  destruct (py_get message "content" (PStr "")) as [e|c] eqn:Hk.
  - simpl. now apply (py_get_error message "content" (PStr "")).
  - exact I.
Qed.

Lemma from_the_body_is_a_500 (e : pyexn) (st : State) :
  from_the_body e ->
  chat_handler (RaiseExn e) st = (http_error 500 (StrOf e), st).
Proof. destruct e; simpl; try contradiction; reflexivity. Qed.

Section Chat200.
Variable upstream : upstream_t.
Variables (unit_id : string) (query : Query).

(** A 200 response whose body is JSON: the content is extracted, then its
    length is taken; whatever is raised on the way becomes a 500. *)
Lemma chat_200_json (st : State) (secret : string) (response : Response)
    (data : pyval) :
  PyDict.get (rei_agents st) unit_id = Some secret ->
  upstream (chat_request secret (text query)) = inr response ->
  resp_status_code response = 200%Z ->
  resp_json response = inr data ->
  let st' := after_post st (chat_request secret (text query)) in
  chat_with_specific_unit upstream unit_id query st =
  (match fst (extract_content data st') with
   | inr content =>
       match py_len content with
       | inr _ => inr (chat_response content unit_id (text query) data)
       | inl e => http_error 500 (StrOf e)
       end
   | inl (RaiseExn e) => http_error 500 (StrOf e)
   | inl (RaiseHTTP h) => inl (RaiseHTTP h)
   end, st').
Proof.
  intros Hget Hup Hst Hjson st'.
  rewrite (chat_status_200 upstream unit_id query st secret response data
             Hget Hup Hst Hjson).
  cbv zeta. fold st'.
  pose proof (extract_content_cases data st') as C.
  destruct (extract_content data st') as [[[h|e]|c] st'']; cbn [fst] in *.
  - contradiction.
  - now apply from_the_body_is_a_500.
  - destruct (py_len c) as [e|n] eqn:L; [|reflexivity].
    apply from_the_body_is_a_500. now apply (py_len_error c).
Qed.

End Chat200.

(** ** Errors and credentials *)

Lemma keys_decide_get (agents1 agents2 : PyDict.t string) (k : string) :
  PyDict.keys agents1 = PyDict.keys agents2 ->
  (PyDict.get agents1 k = None <-> PyDict.get agents2 k = None).
Proof. intros E. now rewrite !PyDictFacts.get_none_keys, E. Qed.

(** Every outcome of the chat handler is a reply or one of the six errors. *)
Lemma chat_outcome (upstream : upstream_t) (unit_id : string) (query : Query)
    (st : State) :
  match result_of (chat_with_specific_unit upstream unit_id query st) with
  | inr _ => True
  | inl (RaiseHTTP h) =>
      error_payload unit_id (PyDict.keys (rei_agents st)) h
  | inl (RaiseExn _) => False
  end.
Proof.
  unfold result_of.
  destruct (PyDict.get (rei_agents st) unit_id) as [secret|] eqn:Hunit.
  - rewrite (chat_known_unit upstream unit_id query st secret Hunit). cbv zeta.
    destruct (upstream _) as [e|response].
    + destruct e; simpl; constructor.
    + unfold try_except. rewrite handle_response_pure.
      unfold handle_response.
      destruct (resp_status_code response =? 401)%Z; [constructor|].
      destruct (resp_status_code response =? 404)%Z; [constructor|].
      destruct (resp_status_code response =? 200)%Z; [|constructor].
      cbn [negb]. rewrite lift_bind. unfold response_json.
      destruct (resp_json response) as [d|data]; [constructor|].
      unfold bind. rewrite extract_content_pure.
      destruct (fst (extract_content data _)) as [[h|e]|c] eqn:E; simpl.
      * exfalso. revert E. clear. 
        unfold extract_content. rewrite !lift_bind.
        destruct (py_contains "choices" data) as [e|[|]]; try discriminate.
        rewrite !lift_bind.
        destruct (py_getitem_str data "choices") as [e|choices]; [discriminate|].
        rewrite !lift_bind.
        destruct (py_len choices) as [e|n]; [discriminate|].
        destruct (n >? 0)%Z; [|discriminate].
        rewrite !lift_bind.
        destruct (py_getitem_0 choices) as [e|first]; [discriminate|].
        rewrite !lift_bind.
        destruct (py_get first "message" (PDict [])) as [e|message]; [discriminate|].
        now destruct (py_get message "content" (PStr "")).
      * destruct e; simpl; constructor.
      * destruct (py_len c) as [e|n]; simpl; [|exact I].
        destruct e; simpl; constructor.
  - rewrite (chat_unknown_unit upstream unit_id query st Hunit). constructor.
Qed.

(** Every outcome of the chat handler is a reply or an error whose detail
    comes from the unit names, a fixed text or the upstream's answer. *)
Lemma chat_error_source (upstream : upstream_t) (unit_id : string)
    (query : Query) (st : State) :
  match result_of (chat_with_specific_unit upstream unit_id query st) with
  | inr _ => True
  | inl (RaiseHTTP h) =>
      error_source unit_id (PyDict.keys (rei_agents st))
        (answer_to upstream (rei_agents st) unit_id query) h
  | inl (RaiseExn _) => False
  end.
Proof.
  unfold result_of, answer_to.
  destruct (PyDict.get (rei_agents st) unit_id) as [secret|] eqn:Hunit.
  - destruct (upstream (chat_request secret (text query))) as [e|response] eqn:Hup.
    + rewrite (chat_post_raises upstream unit_id query st secret e Hunit Hup).
      destruct e; simpl;
        solve [ now apply FromReadTimeout with (description := description)
              | apply FromPostError; [reflexivity | discriminate] ].
    + destruct (Z.eq_dec (resp_status_code response) 200) as [E200|N200].
      * destruct (resp_json response) as [d|data] eqn:J.
        -- rewrite (chat_known_unit upstream unit_id query st secret Hunit).
           cbv zeta. rewrite Hup.
           unfold try_except, handle_response, response_json.
           rewrite E200, J. cbn.
           now apply FromDecodeError with (response := response).
        -- rewrite (chat_200_json upstream unit_id query st secret response
                      data Hunit Hup E200 J).
           cbv zeta. cbn [fst].
           pose proof (extract_content_cases data
                         (after_post st (chat_request secret (text query))))
             as C.
           destruct (fst (extract_content data _)) as [[h|e]|c].
           ++ contradiction.
           ++ now apply FromBodyError with (response := response).
           ++ destruct (py_len c) as [e|n] eqn:L; [|exact I].
              apply FromBodyError with (response := response);
                [reflexivity | now apply (py_len_error c)].
      * rewrite (chat_status_other upstream unit_id query st secret response
                   Hunit Hup N200).
        cbn [fst].
        destruct (Z.eqb_spec (resp_status_code response) 401).
        { now apply FromUnauthorized with (response := response). }
        destruct (Z.eqb_spec (resp_status_code response) 404).
        { now apply FromAgentNotFound with (response := response). }
        now apply FromUpstreamError.
  - rewrite (chat_unknown_unit upstream unit_id query st Hunit).
    now apply FromUnitNotFound.
Qed.

(** ** The names of the units *)

Lemma replace_without_occurrence (s old new : string) :
  old <> EmptyString -> PyStr.contains s old = false ->
  PyStr.replace s old new = s.
Proof.
  intros Hold. induction s as [|c s IH]; intros H.
  - reflexivity.
  - simpl in H. apply orb_false_iff in H as [H1 H2].
    unfold PyStr.startswith in H1.
    destruct (PyStr.strip_prefix old (String c s)) eqn:E; [discriminate|].
    rewrite (PyStrFacts.replace_no_occurrence_step old new c s Hold E).
    now rewrite (IH H2).
Qed.

(** The name of the unit of a variable: the prefix goes, and with it any
    later occurrence of the same text; without one, the name is the rest of
    the variable's name in lowercase. *)
Lemma prefixed_unit_name (rest : string) :
  PyStr.lower (PyStr.replace (SECRET_PREFIX ++ rest) SECRET_PREFIX "")
  = PyStr.lower (PyStr.replace rest SECRET_PREFIX "")
  /\ (PyStr.contains rest SECRET_PREFIX = false ->
      PyStr.lower (PyStr.replace (SECRET_PREFIX ++ rest) SECRET_PREFIX "")
      = PyStr.lower rest).
Proof.
  assert (Hp : SECRET_PREFIX <> EmptyString) by discriminate.
  assert (E : PyStr.replace (SECRET_PREFIX ++ rest) SECRET_PREFIX ""
              = PyStr.replace rest SECRET_PREFIX "").
  { rewrite (PyStrFacts.replace_occurrence_step SECRET_PREFIX ""
               (SECRET_PREFIX ++ rest)%string rest Hp).
    - reflexivity.
    - now apply PyStrFacts.strip_prefix_app. }
  rewrite E. split; [reflexivity|].
  intros H. now rewrite replace_without_occurrence.
Qed.

(** ** Unit names over all of Unicode *)

Module UnicodeFacts.
Import Unicode.

Lemma eqb_eq (a b : ustr) : eqb a b = true <-> a = b.
Proof.
  revert b. induction a as [|x a IH]; intros [|y b]; simpl;
    try (split; [discriminate | discriminate]); [tauto|].
  rewrite andb_true_iff, N.eqb_eq, IH. split.
  - now intros [-> ->].
  - now intros [= -> ->].
Qed.

Lemma eqb_refl (a : ustr) : eqb a a = true.
Proof. now apply eqb_eq. Qed.

(** *** [replace] *)

Lemma ustr_strip_prefix_length (p s rest : ustr) :
  strip_prefix p s = Some rest ->
  List.length s = List.length p + List.length rest.
Proof.
  revert s. induction p as [|a p IH]; intros s H; simpl in *.
  - now inversion H.
  - destruct s as [|b s]; [discriminate|].
    destruct (a =? b)%N; [|discriminate].
    simpl. now rewrite (IH _ H).
Qed.

(** [replace] always has fuel left. *)
Lemma ustr_replace_steps_enough (old new : ustr) :
  old <> [] ->
  forall fuel s, List.length s <= fuel ->
    replace_steps fuel s old new = replace s old new.
Proof.
  intros Hold. unfold replace.
  assert (G : forall f1 f2 s,
             List.length s <= f1 -> List.length s <= f2 ->
             replace_steps f1 s old new = replace_steps f2 s old new).
  { induction f1 as [|f1 IH]; intros f2 s H1 H2.
    - destruct s; [|simpl in H1; lia]. now destruct f2.
    - destruct f2 as [|f2].
      + destruct s; [reflexivity | simpl in H2; lia].
      + simpl. destruct s as [|c s]; [reflexivity|].
        destruct (strip_prefix old (c :: s)) as [rest|] eqn:E.
        * apply ustr_strip_prefix_length in E.
          assert (0 < List.length old)
            by (destruct old; [congruence | simpl; lia]).
          simpl in *. f_equal. apply IH; lia.
        * simpl in *. f_equal. apply IH; lia. }
  intros fuel s H. apply G; lia.
Qed.
(** *** What [lower] leaves *)

(** The lowercase forms of the table are themselves unchanged by [lower]. *)
Lemma lower_table_stable :
  forallb (fun entry => forallb (fun d => negb (lower_changes d)) (snd entry))
    lower_table = true.
Proof. vm_compute. reflexivity. Qed.

Lemma to_lower_full_unchanged (c d : N) :
  In d (to_lower_full c) -> lower_changes d = false.
Proof.
  unfold to_lower_full.
  destruct (find (fun entry => (fst entry =? c)%N) lower_table) as [entry|] eqn:F.
  - apply find_some in F as [Hin _].
    pose proof (proj1 (forallb_forall _ _) lower_table_stable entry Hin) as S.
    intros Hd. apply (proj1 (forallb_forall _ _) S) in Hd.
    now apply negb_true_iff in Hd.
  - intros [<-|[]]. unfold lower_changes, to_lower_full. rewrite F.
    now rewrite N.eqb_refl.
Qed.

Lemma sigma_unchanged (before after : ustr) :
  lower_changes (handle_capital_sigma before after) = false.
Proof.
  unfold handle_capital_sigma.
  destruct (_ && _)%bool; vm_compute; reflexivity.
Qed.

Lemma lower_from_unchanged (s before : ustr) (d : N) :
  In d (lower_from before s) -> lower_changes d = false.
Proof.
  revert before. induction s as [|c s IH]; intros before; simpl; [tauto|].
  rewrite in_app_iff. intros [H|H]; [|now apply (IH (c :: before))].
  destruct (c =? CAPITAL_SIGMA)%N.
  - destruct H as [<-|[]]. apply sigma_unchanged.
  - now apply (to_lower_full_unchanged c).
Qed.

(** No character of [s.lower()] is one that [lower] changes. *)
Lemma lower_unchanged (s : ustr) :
  existsb lower_changes (lower s) = false.
Proof.
  destruct (existsb lower_changes (lower s)) eqn:E; [|reflexivity].
  apply existsb_exists in E as (d & Hin & Hd).
  apply lower_from_unchanged in Hin. congruence.
Qed.

(** Below U+0100 the uppercase characters are changed by [lower], all of
    them. *)
Lemma latin1_upper_changes (a : ascii) :
  char_isupper (N_of_ascii a) = true -> lower_changes (N_of_ascii a) = true.
Proof.
  destruct a as [[] [] [] [] [] [] [] []]; vm_compute;
    solve [reflexivity | discriminate].
Qed.

Lemma upper_below_256_changes (c : N) :
  (c < 256)%N -> char_isupper c = true -> lower_changes c = true.
Proof.
  intros H. rewrite <- (N_ascii_embedding c H). apply latin1_upper_changes.
Qed.

(** *** The registry *)

Lemma keys_set_incl (d : dict) (k v k' : ustr) :
  In k' (keys (set d k v)) -> k' = k \/ In k' (keys d).
Proof.
  induction d as [|[k0 v0] d IH]; simpl.
  - intros [<-|[]]. now left.
  - destruct (eqb k k0); simpl; [tauto|].
    intros [<-|H]; [tauto|]. destruct (IH H); tauto.
Qed.

Lemma get_some_key (d : dict) (k v : ustr) :
  get d k = Some v -> In k (keys d).
Proof.
  induction d as [|[k0 v0] d IH]; simpl; [discriminate|].
  destruct (eqb k k0) eqn:E.
  - apply eqb_eq in E. subst. now left.
  - intros H. right. now apply IH.
Qed.

Lemma load_agents_keys_lowered (environ : list (ustr * ustr)) (k : ustr) :
  In k (keys (load_agents environ)) ->
  exists key value,
    In (key, value) environ
    /\ startswith key SECRET_PREFIX = true
    /\ value <> []
    /\ k = lower (replace key SECRET_PREFIX []).
Proof.
  unfold load_agents.
  assert (G : forall l agents,
             In k (keys (fold_left load_step l agents)) ->
             In k (keys agents) \/
             exists key value,
               In (key, value) l
               /\ startswith key SECRET_PREFIX = true
               /\ value <> []
               /\ k = lower (replace key SECRET_PREFIX [])).
  { induction l as [|[key value] l IH]; intros agents; cbn [fold_left].
    - now left.
    - intros H. destruct (IH _ H) as [Hk|(key' & value' & Hin & Hrest)].
      + unfold load_step in Hk.
        destruct (startswith key SECRET_PREFIX) eqn:Hs; cbn [andb] in Hk;
          [|now left].
        destruct value as [|v0 value]; cbn [negb] in Hk; [now left|].
        apply keys_set_incl in Hk as [->|Hk]; [|now left].
        right. exists key, (v0 :: value).
        split; [now left|]. split; [exact Hs|]. split; [discriminate|].
        reflexivity.
      + right. exists key', value'. split; [now right | exact Hrest]. }
  intros H. destruct (G environ [] H) as [[]|Hex]. exact Hex.
Qed.

(** A unit identifier with a character that [lower] changes is not in the
    registry, whatever the environment is. *)
Lemma changed_identifier_unknown (environ : list (ustr * ustr)) (unit_id : ustr) :
  existsb lower_changes unit_id = true ->
  unit_in_registry unit_id (load_agents environ) = false.
Proof.
  intros H. unfold unit_in_registry.
  destruct (get (load_agents environ) unit_id) as [v|] eqn:G; [|reflexivity].
  apply get_some_key, load_agents_keys_lowered in G
    as (key & value & _ & _ & _ & ->).
  rewrite lower_unchanged in H. discriminate.
Qed.

End UnicodeFacts.

(** ** The 8-bit strings inside Unicode *)

Module Latin1Facts.
#[local] Abbreviation load_step_8 := load_step.
#[local] Abbreviation load_agents_8 := load_agents.
Import Unicode UnicodeFacts.

Lemma code_inj (a b : ascii) : N_of_ascii a = N_of_ascii b -> a = b.
Proof.
  intros H. rewrite <- (ascii_N_embedding a), <- (ascii_N_embedding b).
  now rewrite H.
Qed.

Lemma of_latin1_inj (a b : string) : of_latin1 a = of_latin1 b -> a = b.
Proof.
  revert b. induction a as [|x a IH]; intros [|y b]; simpl;
    try discriminate; [reflexivity|].
  intros [= Hc Hs]. f_equal; [now apply code_inj | now apply IH].
Qed.

Lemma of_latin1_app (a b : string) :
  of_latin1 (a ++ b) = of_latin1 a ++ of_latin1 b.
Proof. induction a as [|x a IH]; simpl; [reflexivity | now rewrite IH]. Qed.

Lemma of_latin1_length (a : string) :
  List.length (of_latin1 a) = String.length a.
Proof. induction a as [|x a IH]; simpl; [reflexivity | now rewrite IH]. Qed.

Lemma code_eqb (a b : ascii) :
  (N_of_ascii a =? N_of_ascii b)%N = Ascii.eqb a b.
Proof.
  destruct (Ascii.eqb_spec a b) as [->|H].
  - apply N.eqb_refl.
  - apply N.eqb_neq. intros E. now apply H, code_inj.
Qed.

Lemma of_latin1_eqb (a b : string) :
  eqb (of_latin1 a) (of_latin1 b) = String.eqb a b.
Proof.
  revert b. induction a as [|x a IH]; intros [|y b]; simpl; try reflexivity.
  rewrite code_eqb, IH. now destruct (Ascii.eqb x y).
Qed.

(** Character by character, the model of [lower] and of [isupper] on 8-bit
    strings is Python's. *)
Lemma latin1_to_lower_full (a : ascii) :
  (N_of_ascii a =? CAPITAL_SIGMA)%N = false
  /\ to_lower_full (N_of_ascii a) = [N_of_ascii (PyStr.char_lower a)]
  /\ char_isupper (N_of_ascii a) = PyStr.char_isupper a.
Proof.
  destruct a as [[] [] [] [] [] [] [] []]; vm_compute; repeat split.
Qed.

Lemma of_latin1_lower_from (s : string) (before : ustr) :
  lower_from before (of_latin1 s) = of_latin1 (PyStr.lower s).
Proof.
  revert before. induction s as [|c s IH]; intros before; simpl; [reflexivity|].
  destruct (latin1_to_lower_full c) as (-> & -> & _).
  now rewrite IH.
Qed.

Lemma of_latin1_lower (s : string) :
  lower (of_latin1 s) = of_latin1 (PyStr.lower s).
Proof. apply of_latin1_lower_from. Qed.

Lemma of_latin1_has_upper (s : string) :
  existsb char_isupper (of_latin1 s) = PyStr.has_upper s.
Proof.
  induction s as [|c s IH]; simpl; [reflexivity|].
  destruct (latin1_to_lower_full c) as (_ & _ & ->). now rewrite IH.
Qed.

Lemma of_latin1_strip_prefix (p s : string) :
  strip_prefix (of_latin1 p) (of_latin1 s) =
  option_map of_latin1 (PyStr.strip_prefix p s).
Proof.
  revert s. induction p as [|a p IH]; intros s; simpl; [reflexivity|].
  destruct s as [|b s]; simpl; [reflexivity|].
  rewrite code_eqb. destruct (Ascii.eqb a b); [apply IH | reflexivity].
Qed.

Lemma of_latin1_startswith (s p : string) :
  startswith (of_latin1 s) (of_latin1 p) = PyStr.startswith s p.
Proof.
  unfold startswith, PyStr.startswith. rewrite of_latin1_strip_prefix.
  now destruct (PyStr.strip_prefix p s).
Qed.

Lemma of_latin1_replace_steps (fuel : nat) (s old new : string) :
  replace_steps fuel (of_latin1 s) (of_latin1 old) (of_latin1 new) =
  of_latin1 (PyStr.replace_steps fuel s old new).
Proof.
  revert s. induction fuel as [|fuel IH]; intros s; simpl; [reflexivity|].
  destruct s as [|c s]; [reflexivity|].
  change (N_of_ascii c :: of_latin1 s) with (of_latin1 (String c s)).
  rewrite of_latin1_strip_prefix.
  destruct (PyStr.strip_prefix old (String c s)) as [rest|]; simpl.
  - now rewrite of_latin1_app, IH.
  - now rewrite IH.
Qed.

Lemma of_latin1_replace (s old new : string) :
  replace (of_latin1 s) (of_latin1 old) (of_latin1 new) =
  of_latin1 (PyStr.replace s old new).
Proof.
  unfold replace, PyStr.replace.
  now rewrite of_latin1_length, of_latin1_replace_steps.
Qed.

Lemma of_latin1_set (d : PyDict.t string) (k v : string) :
  set (map of_latin1_item d) (of_latin1 k) (of_latin1 v) =
  map of_latin1_item (PyDict.set d k v).
Proof.
  induction d as [|[k0 v0] d IH]; simpl; [reflexivity|].
  unfold of_latin1_item at 1. cbn [fst snd].
  rewrite of_latin1_eqb. destruct (String.eqb k k0); simpl; [reflexivity|].
  now rewrite IH.
Qed.

Lemma of_latin1_get (d : PyDict.t string) (k : string) :
  get (map of_latin1_item d) (of_latin1 k) =
  option_map of_latin1 (PyDict.get d k).
Proof.
  induction d as [|[k0 v0] d IH]; simpl; [reflexivity|].
  rewrite of_latin1_eqb. destruct (String.eqb k k0); [reflexivity | exact IH].
Qed.

Lemma of_latin1_load_step (agents : PyDict.t string) (item : string * string) :
  load_step (map of_latin1_item agents) (of_latin1_item item) =
  map of_latin1_item (load_step_8 agents item).
Proof.
  destruct item as [key value].
  change (of_latin1_item (key, value)) with (of_latin1 key, of_latin1 value).
  unfold load_step, load_step_8. cbv beta iota.
  change SECRET_PREFIX with (of_latin1 "REI_AGENT_SECRET_").
  assert (Hv : forall v, match of_latin1 v with
                         | [] => true
                         | _ :: _ => false
                         end = String.eqb v "")
    by (intros [|? ?]; reflexivity).
  rewrite of_latin1_startswith, Hv.
  destruct (PyStr.startswith key "REI_AGENT_SECRET_" && negb (value =? ""))%bool;
    [|reflexivity].
  pose proof (of_latin1_replace key "REI_AGENT_SECRET_" "") as R.
  cbn [of_latin1] in R. cbn [of_latin1]. rewrite R, of_latin1_lower.
  apply of_latin1_set.
Qed.

(** On an environment of 8-bit strings the registry is the one of
    [load_agents] above, and the test of line 73 is [PyDict.mem]. *)
Lemma of_latin1_load_agents (environ : list (string * string)) :
  load_agents (map of_latin1_item environ) =
  map of_latin1_item (load_agents_8 environ).
Proof.
  unfold load_agents, load_agents_8.
  change (@nil (ustr * ustr)) with (map of_latin1_item []).
  generalize (@nil (string * string)) as agents.
  induction environ as [|item environ IH]; intros agents; cbn [map fold_left].
  - reflexivity.
  - rewrite of_latin1_load_step. apply IH.
Qed.

Lemma of_latin1_unit_in_registry (agents : PyDict.t string) (unit_id : string) :
  unit_in_registry (of_latin1 unit_id) (map of_latin1_item agents) =
  PyDict.mem unit_id agents.
Proof.
  unfold unit_in_registry, PyDict.mem. rewrite of_latin1_get.
  now destruct (PyDict.get agents unit_id).
Qed.

End Latin1Facts.

(** * The claims *)

(** C1. For a configured unit and any text, the empty one included, the
    chat handler sends exactly one request: a POST to the fixed endpoint
    whose JSON body is the single user message with the text as it came,
    and whose Authorization header is "Bearer " followed by the whole
    credential of the unit.  The registry is left as it was. *)
Theorem chat_sends_one_request (upstream : upstream_t) (unit_id : string)
    (query : Query) (st : State) (secret : string)
    (Hunit : PyDict.get (rei_agents st) unit_id = Some secret) :
  let st' := snd (chat_with_specific_unit upstream unit_id query st) in
  sent st' =
    (sent st ++
     [mkRequest "POST" "https://api.reisearch.box/rei/agents/chat-completion"
        (PDict [("messages",
                 PList [PDict [("role", PStr "user");
                               ("content", PStr (text query))]])])
        [("Authorization", ("Bearer " ++ secret)%string);
         ("Content-Type", "application/json")]
        3000])%list
  /\ rei_agents st' = rei_agents st.
Proof.
  cbv zeta. rewrite chat_state, Hunit. split; reflexivity.
Qed.

Lemma chat_sends_one_request_witness :
  let st' := snd (chat_with_specific_unit (answers hello_response) "alpha"
                    (mkQuery "" None) sample_state) in
  sent st' =
    (sent sample_state ++
     [mkRequest "POST" "https://api.reisearch.box/rei/agents/chat-completion"
        (PDict [("messages",
                 PList [PDict [("role", PStr "user");
                               ("content", PStr "")]])])
        [("Authorization", "Bearer sk-alpha-0123456789");
         ("Content-Type", "application/json")]
        3000])%list
  /\ rei_agents st' = rei_agents sample_state.
Proof.
  exact (chat_sends_one_request (answers hello_response) "alpha"
           (mkQuery "" None) sample_state "sk-alpha-0123456789" eq_refl).
Defined.

(** C2, as stated, fails: the body [{"choices": [{"message": null}]}] has
    not the shape [choices[0].message.content], and the handler answers it
    with a 500, not with an empty content. *)
Lemma chat_null_message_is_an_error :
  content_shape (PDict [("choices", PList [PDict [("message", PNone)]])]) = None
  /\ resp_status_code null_message_response = 200%Z
  /\ resp_json null_message_response
     = inr (PDict [("choices", PList [PDict [("message", PNone)]])])
  /\ result_of (chat_with_specific_unit (answers null_message_response) "alpha"
                  (mkQuery "hi" None) sample_state)
     = http_error 500 (StrOf (AttributeError NoneType "get"))
  /\ forall reply,
       result_of (chat_with_specific_unit (answers null_message_response)
                    "alpha" (mkQuery "hi" None) sample_state)
       <> inr reply.
Proof. repeat split. discriminate. Qed.

(** C2, amended.  For a 200 response whose JSON body has not the shape
    [choices[0].message.content]: when the body is an object without
    [choices], or with an empty [choices], or whose first choice is an
    object without [message] or with an object [message] without [content]
    (or a list or string body in which "choices" does not occur), the
    handler returns a reply whose content is the empty string; for every
    other such body it raises a 500 whose detail describes the exception.
    In particular an object without the key [choices] gives the empty
    content. *)
Theorem chat_defaults_content (upstream : upstream_t) (unit_id : string)
    (query : Query) (st : State) (secret : string) (response : Response)
    (data : pyval)
    (Hunit : PyDict.get (rei_agents st) unit_id = Some secret)
    (Hup : upstream (chat_request secret (text query)) = inr response)
    (Hstatus : resp_status_code response = 200%Z)
    (Hjson : resp_json response = inr data)
    (Hshape : content_shape data = None) :
  let result := result_of (chat_with_specific_unit upstream unit_id query st) in
  (if defaults_to_empty data then
     result = inr (PDict [("content", PStr "");
                          ("unit", PStr unit_id);
                          ("raw_input_length",
                           PInt (Z.of_nat (String.length (text query))));
                          ("raw_response", data)])
   else exists e, result = http_error 500 (StrOf e))
  /\ (forall d, data = PDict d -> PyDict.get d "choices" = None ->
      result = inr (PDict [("content", PStr "");
                           ("unit", PStr unit_id);
                           ("raw_input_length",
                            PInt (Z.of_nat (String.length (text query))));
                           ("raw_response", data)])).
Proof.
  cbv zeta. unfold result_of.
  rewrite (chat_status_200 upstream unit_id query st secret response data
             Hunit Hup Hstatus Hjson).
  cbv zeta.
  assert (Hdefault : defaults_to_empty data = true ->
            extract_content data
              (after_post st (chat_request secret (text query)))
            = (inr (PStr ""),
               after_post st (chat_request secret (text query))))
    by apply (extract_content_default data _ Hshape).
  split.
  - destruct (defaults_to_empty data) eqn:D.
    + now rewrite Hdefault.
    + destruct (extract_content_error data
                  (after_post st (chat_request secret (text query))) Hshape D)
        as (e & -> & Hne).
      exists e. destruct e; try reflexivity. now elim (Hne description).
  - intros d -> Hd. rewrite Hdefault; [reflexivity|]. simpl. now rewrite Hd.
Qed.

Lemma chat_defaults_content_witness :
  let result := result_of (chat_with_specific_unit (answers no_choices_response)
                             "alpha" (mkQuery "hi" None) sample_state) in
  (if defaults_to_empty (PDict [("id", PStr "r1")]) then
     result = inr (PDict [("content", PStr "");
                          ("unit", PStr "alpha");
                          ("raw_input_length",
                           PInt (Z.of_nat (String.length "hi")));
                          ("raw_response", PDict [("id", PStr "r1")])])
   else exists e, result = http_error 500 (StrOf e))
  /\ (forall d, PDict [("id", PStr "r1")] = PDict d ->
      PyDict.get d "choices" = None ->
      result = inr (PDict [("content", PStr "");
                           ("unit", PStr "alpha");
                           ("raw_input_length",
                            PInt (Z.of_nat (String.length "hi")));
                           ("raw_response", PDict [("id", PStr "r1")])])).
Proof.
  exact (chat_defaults_content (answers no_choices_response) "alpha"
           (mkQuery "hi" None) sample_state "sk-alpha-0123456789"
           no_choices_response (PDict [("id", PStr "r1")])
           eq_refl eq_refl eq_refl eq_refl eq_refl).
Defined.

(** C3, as stated, fails: an upstream that repeats the Authorization
    header in the body of its 403 gets the credential into the detail, which
    line 119 builds from that body. *)
Lemma upstream_text_can_carry_the_credential :
  PyDict.get (rei_agents sample_state) "alpha" = Some "sk-alpha-0123456789"
  /\ result_of (chat_with_specific_unit echo_authorization "alpha"
                  (mkQuery "hi" None) sample_state)
     = http_error 403 (Text "API error: Bearer sk-alpha-0123456789")
  /\ PyStr.contains "API error: Bearer sk-alpha-0123456789"
       "sk-alpha-0123456789" = true.
Proof. repeat split. Qed.

(** C3, amended.  The chat handler itself puts no credential into an error:
    the detail is the unit-not-found text, built from the unit asked for
    and the unit names; or one of the fixed texts; or "API error: "
    followed by the text of the upstream's response; or the description of
    an exception raised by [client.post], by the decoding of the body or by
    the reading of the decoded body.  So the error depends on the
    credentials through the upstream's answer only: two registries with the
    same unit names and any credentials, on which the upstream gives the
    same answer, end in the same result. *)
Theorem chat_errors_depend_on_the_answer
    (agents1 agents2 : PyDict.t string) (sent1 sent2 : list Request)
    (upstream1 upstream2 : upstream_t) (unit_id : string) (query : Query)
    (Hunits : PyDict.keys agents1 = PyDict.keys agents2)
    (Hanswer : forall secret1 secret2,
        PyDict.get agents1 unit_id = Some secret1 ->
        PyDict.get agents2 unit_id = Some secret2 ->
        upstream1 (chat_request secret1 (text query)) =
        upstream2 (chat_request secret2 (text query))) :
  let run1 :=
    chat_with_specific_unit upstream1 unit_id query (mkState agents1 sent1) in
  let run2 :=
    chat_with_specific_unit upstream2 unit_id query (mkState agents2 sent2) in
  result_of run1 = result_of run2
  /\ http_error_of run1 = http_error_of run2
  /\ (forall h, http_error_of run1 = Some h ->
      error_source unit_id (PyDict.keys agents1)
        (answer_to upstream1 agents1 unit_id query) h)
  /\ (forall e, result_of run1 <> inl (RaiseExn e)).
Proof.
  cbv zeta.
  assert (Hresult :
    result_of (chat_with_specific_unit upstream1 unit_id query
                 (mkState agents1 sent1)) =
    result_of (chat_with_specific_unit upstream2 unit_id query
                 (mkState agents2 sent2))).
  { unfold result_of.
    destruct (PyDict.get agents1 unit_id) as [secret1|] eqn:H1;
      destruct (PyDict.get agents2 unit_id) as [secret2|] eqn:H2.
    - rewrite (chat_known_unit upstream1 unit_id query
                 (mkState agents1 sent1) secret1 H1),
        (chat_known_unit upstream2 unit_id query
           (mkState agents2 sent2) secret2 H2).
      cbv zeta. rewrite (Hanswer secret1 secret2 eq_refl eq_refl).
      destruct (upstream2 _) as [e|response].
      + now rewrite chat_handler_pure,
          (chat_handler_pure (RaiseExn e) (after_post (mkState agents2 _) _)).
      + apply answer_decides.
    - apply (keys_decide_get agents1 agents2 unit_id Hunits) in H2. congruence.
    - apply (keys_decide_get agents1 agents2 unit_id Hunits) in H1. congruence.
    - rewrite (chat_unknown_unit upstream1 unit_id query
                 (mkState agents1 sent1) H1),
        (chat_unknown_unit upstream2 unit_id query
           (mkState agents2 sent2) H2).
      simpl. now rewrite Hunits. }
  split; [exact Hresult|].
  split; [unfold http_error_of; fold (result_of
            (chat_with_specific_unit upstream1 unit_id query
               (mkState agents1 sent1)));
          fold (result_of
            (chat_with_specific_unit upstream2 unit_id query
               (mkState agents2 sent2))); now rewrite Hresult|].
  pose proof (chat_error_source upstream1 unit_id query
                (mkState agents1 sent1)) as O.
  unfold http_error_of, result_of in *. cbn [rei_agents] in O.
  destruct (fst (chat_with_specific_unit upstream1 unit_id query _))
    as [[h|e]|v]; split; try congruence; try contradiction.
Qed.

Lemma chat_errors_depend_on_the_answer_witness :
  let run1 :=
    chat_with_specific_unit (answers boom_response) "alpha" (mkQuery "hi" None)
      (mkState [("alpha", "sk-one")] []) in
  let run2 :=
    chat_with_specific_unit (answers boom_response) "alpha" (mkQuery "hi" None)
      (mkState [("alpha", "sk-two")] []) in
  result_of run1 = result_of run2
  /\ http_error_of run1 = http_error_of run2
  /\ (forall h, http_error_of run1 = Some h ->
      error_source "alpha" (PyDict.keys [("alpha", "sk-one")])
        (answer_to (answers boom_response) [("alpha", "sk-one")] "alpha"
           (mkQuery "hi" None)) h)
  /\ (forall e, result_of run1 <> inl (RaiseExn e)).
Proof.
  exact (chat_errors_depend_on_the_answer
           [("alpha", "sk-one")] [("alpha", "sk-two")] [] []
           (answers boom_response) (answers boom_response)
           "alpha" (mkQuery "hi" None) eq_refl (fun _ _ _ _ => eq_refl)).
Defined.

(** C4. For a unit that is not in the registry, the chat handler raises a
    404 whose detail names the unit asked for and lists the configured unit
    names, all of them and nothing else, so that the list can be read back
    from the detail; the detail is the same whatever the credentials are;
    and the state is unchanged, so no request was sent. *)
Theorem chat_unit_not_found (upstream : upstream_t) (unit_id : string)
    (query : Query) (st : State)
    (Hunit : PyDict.mem unit_id (rei_agents st) = false) :
  chat_with_specific_unit upstream unit_id query st =
    (http_error 404
       (Text ("REI unit '" ++ unit_id ++ "' not found. Available units: "
              ++ PyStr.repr_list (PyDict.keys (rei_agents st)))),
     st)
  /\ sent (snd (chat_with_specific_unit upstream unit_id query st)) = sent st
  /\ (forall k, In k (PyDict.keys (rei_agents st)) <->
                PyDict.mem k (rei_agents st) = true)
  /\ (forall units,
        unit_not_found_detail unit_id units =
        unit_not_found_detail unit_id (PyDict.keys (rei_agents st)) ->
        units = PyDict.keys (rei_agents st))
  /\ (forall agents' sent' upstream',
        PyDict.keys agents' = PyDict.keys (rei_agents st) ->
        result_of (chat_with_specific_unit upstream' unit_id query
                     (mkState agents' sent')) =
        result_of (chat_with_specific_unit upstream unit_id query st)).
Proof.
  assert (Hget : PyDict.get (rei_agents st) unit_id = None).
  { unfold PyDict.mem in Hunit.
    now destruct (PyDict.get (rei_agents st) unit_id). }
  rewrite (chat_unknown_unit upstream unit_id query st Hget).
  split; [reflexivity|]. split; [reflexivity|].
  split; [intros k; symmetry; apply PyDictFacts.mem_keys|].
  split.
  { intros units E. unfold unit_not_found_detail in E.
    do 3 apply PyStrFacts.append_cancel in E.
    now apply PyStrFacts.repr_list_injective. }
  intros agents' sent' upstream' Hk.
  assert (Hget' : PyDict.get agents' unit_id = None)
    by now apply (keys_decide_get agents' (rei_agents st) unit_id Hk).
  rewrite (chat_unknown_unit upstream' unit_id query (mkState agents' sent') Hget').
  unfold result_of. simpl. now rewrite Hk.
Qed.

Lemma chat_unit_not_found_witness :
  chat_with_specific_unit (answers hello_response) "delta" (mkQuery "hi" None)
    sample_state =
    (http_error 404
       (Text "REI unit 'delta' not found. Available units: ['alpha', 'beta']"),
     sample_state)
  /\ sent (snd (chat_with_specific_unit (answers hello_response) "delta"
                  (mkQuery "hi" None) sample_state)) = sent sample_state
  /\ (forall k, In k (PyDict.keys (rei_agents sample_state)) <->
                PyDict.mem k (rei_agents sample_state) = true)
  /\ (forall units,
        unit_not_found_detail "delta" units =
        unit_not_found_detail "delta" (PyDict.keys (rei_agents sample_state)) ->
        units = PyDict.keys (rei_agents sample_state))
  /\ (forall agents' sent' upstream',
        PyDict.keys agents' = PyDict.keys (rei_agents sample_state) ->
        result_of (chat_with_specific_unit upstream' "delta" (mkQuery "hi" None)
                     (mkState agents' sent')) =
        result_of (chat_with_specific_unit (answers hello_response) "delta"
                     (mkQuery "hi" None) sample_state)).
Proof.
  exact (chat_unit_not_found (answers hello_response) "delta"
           (mkQuery "hi" None) sample_state eq_refl).
Defined.

(** C5, as stated, fails: for a 500 of the upstream with body [boom] the
    detail is [API error: boom], not the body as it came. *)
Lemma upstream_error_detail_is_prefixed :
  result_of (chat_with_specific_unit (answers boom_response) "alpha"
               (mkQuery "hi" None) sample_state)
  = http_error 500 (Text "API error: boom")
  /\ resp_text boom_response = "boom"
  /\ result_of (chat_with_specific_unit (answers boom_response) "alpha"
                  (mkQuery "hi" None) sample_state)
     <> http_error (resp_status_code boom_response)
          (Text (resp_text boom_response)).
Proof. repeat split. discriminate. Qed.

(** C5, amended.  The status of the upstream's response is tested in order:
    401 gives a 401 with detail "Unauthorized"; 404 gives a 404 with detail
    "Agent not found", which no unit-not-found detail equals; any other
    status than 200 gives the same status with the detail "API error: "
    followed by the body as it came; and only with status 200 is the body
    parsed, the result being that of lines 121-139 (the decoding, the
    extraction of the content, and the length of the content taken for the
    log at line 136) under the [except] clauses. *)
Theorem chat_status_dispatch (upstream : upstream_t) (unit_id : string)
    (query : Query) (st : State) (secret : string) (response : Response)
    (Hunit : PyDict.get (rei_agents st) unit_id = Some secret)
    (Hup : upstream (chat_request secret (text query)) = inr response) :
  let result := result_of (chat_with_specific_unit upstream unit_id query st) in
  let status := resp_status_code response in
  (status = 401%Z -> result = http_error 401 (Text "Unauthorized"))
  /\ (status = 404%Z ->
      result = http_error 404 (Text "Agent not found")
      /\ forall u units,
           http_error 404 (Text (unit_not_found_detail u units)) <> result)
  /\ (status <> 401%Z -> status <> 404%Z -> status <> 200%Z ->
      result = http_error status (Text ("API error: " ++ resp_text response)))
  /\ (status = 200%Z ->
      result =
      result_of
        (try_except
           (response_data <- lift (response_json response) ;;
            content <- extract_content response_data ;;
            content_length <- lift (py_len content) ;;
            ret (PDict [("content", content);
                        ("unit", PStr unit_id);
                        ("raw_input_length",
                         PInt (Z.of_nat (String.length (text query))));
                        ("raw_response", response_data)]))
           chat_handler st)).
Proof.
  cbv zeta. unfold result_of. repeat split.
  - intros E.
    rewrite (chat_status_other upstream unit_id query st secret response
               Hunit Hup) by lia.
    now rewrite E.
  - rewrite (chat_status_other upstream unit_id query st secret response
               Hunit Hup) by lia.
    now rewrite H.
  - rewrite (chat_status_other upstream unit_id query st secret response
               Hunit Hup) by lia.
    rewrite H. simpl. discriminate.
  - intros H1 H2 H3.
    rewrite (chat_status_other upstream unit_id query st secret response
               Hunit Hup) by lia.
    destruct (Z.eqb_spec (resp_status_code response) 401); [contradiction|].
    destruct (Z.eqb_spec (resp_status_code response) 404); [contradiction|].
    reflexivity.
  - intros E.
    rewrite (chat_known_unit upstream unit_id query st secret Hunit).
    cbv zeta. rewrite Hup.
    transitivity
      (fst (try_except (handle_response unit_id (text query) response)
              chat_handler st)); [apply answer_decides|].
    unfold handle_response. now rewrite E.
Qed.

Lemma chat_status_dispatch_witness :
  let result := result_of (chat_with_specific_unit (answers boom_response)
                             "alpha" (mkQuery "hi" None) sample_state) in
  let status := resp_status_code boom_response in
  (status = 401%Z -> result = http_error 401 (Text "Unauthorized"))
  /\ (status = 404%Z ->
      result = http_error 404 (Text "Agent not found")
      /\ forall u units,
           http_error 404 (Text (unit_not_found_detail u units)) <> result)
  /\ (status <> 401%Z -> status <> 404%Z -> status <> 200%Z ->
      result = http_error status (Text ("API error: " ++ resp_text boom_response)))
  /\ (status = 200%Z ->
      result =
      result_of
        (try_except
           (response_data <- lift (response_json boom_response) ;;
            content <- extract_content response_data ;;
            content_length <- lift (py_len content) ;;
            ret (PDict [("content", content);
                        ("unit", PStr "alpha");
                        ("raw_input_length",
                         PInt (Z.of_nat (String.length "hi")));
                        ("raw_response", response_data)]))
           chat_handler sample_state)).
Proof.
  exact (chat_status_dispatch (answers boom_response) "alpha"
           (mkQuery "hi" None) sample_state "sk-alpha-0123456789"
           boom_response eq_refl eq_refl).
Defined.




(** C7, as stated, fails: the body [{"choices": [{"message": {"content":
    null}}]}] has the shape, with the content [null]; the handler takes the
    length of the content for the log at line 136, inside the [try], and
    answers with a 500 instead of a reply. *)
Lemma chat_null_content_is_an_error :
  content_shape
    (PDict [("choices",
             PList [PDict [("message", PDict [("content", PNone)])]])])
  = Some PNone
  /\ resp_status_code null_content_response = 200%Z
  /\ resp_json null_content_response
     = inr (PDict [("choices",
                    PList [PDict [("message", PDict [("content", PNone)])]])])
  /\ result_of (chat_with_specific_unit (answers null_content_response) "alpha"
                  (mkQuery "hi" None) sample_state)
     = http_error 500 (StrOf (TypeError no_len NoneType))
  /\ forall reply,
       result_of (chat_with_specific_unit (answers null_content_response)
                    "alpha" (mkQuery "hi" None) sample_state)
       <> inr reply.
Proof. repeat split. discriminate. Qed.

(** C7, amended.  For a 200 response whose JSON body has the shape
    [choices: [{message: {content: c}}]]: when [c] has a length, as every
    string has (and every list and object), the chat handler returns the
    reply whose content is [c], whose unit is the unit asked for, whose
    raw_input_length is the integer length of the text, and whose
    raw_response is the body; when [c] has none (null, a number, a boolean)
    it raises a 500 whose detail describes the TypeError. *)
Theorem chat_returns_content (upstream : upstream_t) (unit_id : string)
    (query : Query) (st : State) (secret : string) (response : Response)
    (data c : pyval)
    (Hunit : PyDict.get (rei_agents st) unit_id = Some secret)
    (Hup : upstream (chat_request secret (text query)) = inr response)
    (Hstatus : resp_status_code response = 200%Z)
    (Hjson : resp_json response = inr data)
    (Hshape : content_shape data = Some c) :
  let result := result_of (chat_with_specific_unit upstream unit_id query st) in
  let reply :=
    PDict [("content", c);
           ("unit", PStr unit_id);
           ("raw_input_length", PInt (Z.of_nat (String.length (text query))));
           ("raw_response", data)] in
  result =
    match c with
    | PStr _ | PList _ | PDict _ => inr reply
    | PNone | PBool _ | PInt _ | PFloat _ =>
        http_error 500 (StrOf (TypeError no_len (type_of c)))
    end
  /\ (forall s, c = PStr s -> result = inr reply).
Proof.
  cbv zeta. unfold result_of.
  rewrite (chat_200_json upstream unit_id query st secret response data
             Hunit Hup Hstatus Hjson).
  cbv zeta. rewrite (extract_content_shape data c _ Hshape). cbn [fst].
  split.
  - destruct c; reflexivity.
  - intros s ->. reflexivity.
Qed.

Lemma chat_returns_content_witness :
  let result := result_of (chat_with_specific_unit (answers hello_response)
                             "alpha" (mkQuery "hi" None) sample_state) in
  let reply :=
    PDict [("content", PStr "hello");
           ("unit", PStr "alpha");
           ("raw_input_length", PInt (Z.of_nat (String.length "hi")));
           ("raw_response",
            PDict [("choices",
                    PList [PDict [("message",
                                   PDict [("content", PStr "hello")])]])])] in
  result = inr reply
  /\ (forall s, PStr "hello" = PStr s -> result = inr reply).
Proof.
  exact (chat_returns_content (answers hello_response) "alpha"
           (mkQuery "hi" None) sample_state "sk-alpha-0123456789"
           hello_response
           (PDict [("choices",
                    PList [PDict [("message",
                                   PDict [("content", PStr "hello")])]])])
           (PStr "hello") eq_refl eq_refl eq_refl eq_refl eq_refl).
Defined.

(** C8. [GET /units] returns the unit names of the registry under "units"
    and their number under "count", which is the length of that list; with
    an empty registry the list is empty and the count is 0; the state, and
    so the registry, is left as it was. *)
Theorem units_lists_the_registry (st : State) (sent0 : list Request) :
  let units := map PStr (PyDict.keys (rei_agents st)) in
  list_available_units st =
    (inr (PDict [("units", PList units);
                 ("count", PInt (Z.of_nat (List.length units)))]),
     st)
  /\ list_available_units (mkState [] sent0) =
       (inr (PDict [("units", PList []); ("count", PInt 0)]), mkState [] sent0).
Proof.
  unfold list_available_units, bind, get_agents, ret.
  rewrite PyDictFacts.len_keys, length_map. split; reflexivity.
Qed.

(** C9. [GET /health] returns [{"status": "healthy", "units_configured": n}]
    with [n] the number of units of the registry, in every state, that of
    an empty registry included, and leaves the state as it was. *)
Theorem health_is_always_healthy (st : State) (sent0 : list Request) :
  health_check st =
    (inr (PDict [("status", PStr "healthy");
                 ("units_configured",
                  PInt (Z.of_nat (List.length (PyDict.keys (rei_agents st)))))]),
     st)
  /\ health_check (mkState [] sent0) =
       (inr (PDict [("status", PStr "healthy"); ("units_configured", PInt 0)]),
        mkState [] sent0).
Proof.
  unfold health_check, bind, get_agents, ret.
  rewrite PyDictFacts.len_keys. split; reflexivity.
Qed.

(** On 8-bit strings: the keys are the names of the variables that start
    with REI_AGENT_SECRET_ and have a non-empty value, with that prefix
    removed and the rest put in lowercase; a unit identifier with an
    uppercase character is never found. *)
Lemma latin1_registry_keys (environ : list (string * string))
    (upstream : upstream_t) (unit_id : string) (query : Query)
    (sent0 : list Request)
    (Hupper : PyStr.has_upper unit_id = true) :
  let st := mkState (load_agents environ) sent0 in
  (forall k, In k (PyDict.keys (load_agents environ)) ->
     PyStr.has_upper k = false /\ PyStr.lower k = k)
  /\ (forall k, In k (PyDict.keys (load_agents environ)) <->
      exists key value,
        In (key, value) environ
        /\ PyStr.startswith key "REI_AGENT_SECRET_" = true
        /\ value <> ""
        /\ k = PyStr.lower (PyStr.replace key "REI_AGENT_SECRET_" ""))
  /\ (forall rest value,
        In (("REI_AGENT_SECRET_" ++ rest)%string, value) environ -> value <> "" ->
        PyStr.contains rest "REI_AGENT_SECRET_" = false ->
        In (PyStr.lower rest) (PyDict.keys (load_agents environ)))
  /\ PyDict.mem unit_id (load_agents environ) = false
  /\ chat_with_specific_unit upstream unit_id query st =
       (http_error 404
          (Text (unit_not_found_detail unit_id
                   (PyDict.keys (load_agents environ)))),
        st).
Proof.
  cbv zeta.
  assert (Hkeys : forall k, In k (PyDict.keys (load_agents environ)) <->
      exists key value,
        In (key, value) environ
        /\ PyStr.startswith key "REI_AGENT_SECRET_" = true
        /\ value <> ""
        /\ k = PyStr.lower (PyStr.replace key "REI_AGENT_SECRET_" "")).
  { intros k. rewrite load_agents_keys. unfold configures, unit_name_of. split.
    - intros ([key value] & Hin & Hc & ->). cbn [fst snd] in *.
      apply andb_true_iff in Hc as [Hs Hv]. apply negb_true_iff in Hv.
      exists key, value. repeat split; try assumption.
      intros ->. discriminate.
    - intros (key & value & Hin & Hs & Hv & ->).
      exists (key, value). cbn [fst snd]. repeat split; try assumption.
      rewrite Hs. cbn [andb]. apply negb_true_iff.
      destruct (String.eqb_spec value ""); [contradiction | reflexivity]. }
  assert (Hnot : PyDict.get (load_agents environ) unit_id = None).
  { apply PyDictFacts.get_none_keys. intros Hin.
    apply load_agents_keys_lower in Hin. congruence. }
  split; [|split; [exact Hkeys|split; [|split]]].
  - intros k Hk. pose proof (load_agents_keys_lower environ k Hk) as L.
    split; [exact L | now apply PyStrFacts.lower_fixed].
  - intros rest value Hin Hv Hc. apply Hkeys.
    exists ("REI_AGENT_SECRET_" ++ rest)%string, value.
    split; [exact Hin|]. split; [reflexivity|]. split; [exact Hv|].
    symmetry. exact (proj2 (prefixed_unit_name rest) Hc).
  - unfold PyDict.mem. now rewrite Hnot.
  - now apply chat_unknown_unit.
Qed.

(** C10, as stated, fails: U+03D2 is an uppercase letter that [lower]
    leaves as it is, so the variable REI_AGENT_SECRET_ followed by it gives
    a key with an uppercase character, and the test of line 73 finds a unit
    identifier made of that character: no unit-not-found is raised. *)
Lemma uppercase_key_without_lowercase_form :
  Unicode.load_agents Unicode.upsilon_environ
  = [([Unicode.UPSILON_HOOK], Unicode.of_latin1 "sk-upsilon")]
  /\ Unicode.char_isupper Unicode.UPSILON_HOOK = true
  /\ Unicode.lower [Unicode.UPSILON_HOOK] = [Unicode.UPSILON_HOOK]
  /\ existsb Unicode.char_isupper [Unicode.UPSILON_HOOK] = true
  /\ Unicode.unit_in_registry [Unicode.UPSILON_HOOK]
       (Unicode.load_agents Unicode.upsilon_environ) = true.
Proof. vm_compute. repeat split. Qed.

(** C10, amended.  Every key of the registry is [lower()] of the name of a
    variable that starts with REI_AGENT_SECRET_ and has a non-empty value,
    with that prefix removed; so no key has a character that [lower()]
    changes, and since the lookup of line 73 is an exact comparison, a unit
    identifier with such a character is never in the registry, whatever the
    environment configures.  The uppercase characters below U+0100 are all
    changed by [lower()].  For names and identifiers of characters below
    U+0100 the registry is the one that [load_agents] computes on 8-bit
    strings: none of its keys has an uppercase character, and for a unit
    identifier with one the handler raises the unit-not-found 404 and sends
    nothing. *)
Theorem registry_keys_are_lowered
    (uenviron : list (Unicode.ustr * Unicode.ustr)) (uid : Unicode.ustr)
    (environ : list (string * string)) (upstream : upstream_t)
    (unit_id : string) (query : Query) (sent0 : list Request)
    (Hchanged : existsb Unicode.lower_changes uid = true)
    (Hupper : PyStr.has_upper unit_id = true) :
  let st := mkState (load_agents environ) sent0 in
  (forall k, In k (Unicode.keys (Unicode.load_agents uenviron)) ->
     existsb Unicode.lower_changes k = false
     /\ exists key value,
          In (key, value) uenviron
          /\ Unicode.startswith key (Unicode.of_latin1 "REI_AGENT_SECRET_") = true
          /\ value <> []
          /\ k = Unicode.lower
                   (Unicode.replace key (Unicode.of_latin1 "REI_AGENT_SECRET_") []))
  /\ Unicode.unit_in_registry uid (Unicode.load_agents uenviron) = false
  /\ (forall c, (c < 256)%N -> Unicode.char_isupper c = true ->
                Unicode.lower_changes c = true)
  /\ Unicode.load_agents (map Unicode.of_latin1_item environ)
     = map Unicode.of_latin1_item (load_agents environ)
  /\ (forall s, Unicode.lower (Unicode.of_latin1 s)
                = Unicode.of_latin1 (PyStr.lower s)
                /\ existsb Unicode.char_isupper (Unicode.of_latin1 s)
                   = PyStr.has_upper s)
  /\ Unicode.unit_in_registry (Unicode.of_latin1 unit_id)
       (Unicode.load_agents (map Unicode.of_latin1_item environ)) = false
  /\ (forall k, In k (PyDict.keys (load_agents environ)) ->
       PyStr.has_upper k = false /\ PyStr.lower k = k)
  /\ (forall k, In k (PyDict.keys (load_agents environ)) <->
      exists key value,
        In (key, value) environ
        /\ PyStr.startswith key "REI_AGENT_SECRET_" = true
        /\ value <> ""
        /\ k = PyStr.lower (PyStr.replace key "REI_AGENT_SECRET_" ""))
  /\ (forall rest value,
        In (("REI_AGENT_SECRET_" ++ rest)%string, value) environ -> value <> "" ->
        PyStr.contains rest "REI_AGENT_SECRET_" = false ->
        In (PyStr.lower rest) (PyDict.keys (load_agents environ)))
  /\ PyDict.mem unit_id (load_agents environ) = false
  /\ chat_with_specific_unit upstream unit_id query st =
       (http_error 404
          (Text (unit_not_found_detail unit_id
                   (PyDict.keys (load_agents environ)))),
        st).
Proof.
  cbv zeta.
  destruct (latin1_registry_keys environ upstream unit_id query sent0 Hupper)
    as (L1 & L2 & L3 & L4 & L5).
  split.
  { intros k Hk.
    destruct (UnicodeFacts.load_agents_keys_lowered uenviron k Hk)
      as (key & value & Hin & Hs & Hv & E).
    split; [rewrite E; apply UnicodeFacts.lower_unchanged|].
    now exists key, value. }
  split; [now apply UnicodeFacts.changed_identifier_unknown|].
  split; [exact UnicodeFacts.upper_below_256_changes|].
  split; [apply Latin1Facts.of_latin1_load_agents|].
  split.
  { intros s. split;
      [apply Latin1Facts.of_latin1_lower | apply Latin1Facts.of_latin1_has_upper]. }
  split.
  { rewrite Latin1Facts.of_latin1_load_agents,
      Latin1Facts.of_latin1_unit_in_registry. exact L4. }
  split; [exact L1|]. split; [exact L2|]. split; [exact L3|].
  split; [exact L4 | exact L5].
Qed.

Lemma registry_keys_are_lowered_witness :
  let st := mkState (load_agents sample_environ) [] in
  (forall k, In k (Unicode.keys (Unicode.load_agents Unicode.upsilon_environ)) ->
     existsb Unicode.lower_changes k = false
     /\ exists key value,
          In (key, value) Unicode.upsilon_environ
          /\ Unicode.startswith key (Unicode.of_latin1 "REI_AGENT_SECRET_") = true
          /\ value <> []
          /\ k = Unicode.lower
                   (Unicode.replace key (Unicode.of_latin1 "REI_AGENT_SECRET_") []))
  /\ Unicode.unit_in_registry (Unicode.of_latin1 "ALPHA") (Unicode.load_agents Unicode.upsilon_environ) = false
  /\ (forall c, (c < 256)%N -> Unicode.char_isupper c = true ->
                Unicode.lower_changes c = true)
  /\ Unicode.load_agents (map Unicode.of_latin1_item sample_environ)
     = map Unicode.of_latin1_item (load_agents sample_environ)
  /\ (forall s, Unicode.lower (Unicode.of_latin1 s)
                = Unicode.of_latin1 (PyStr.lower s)
                /\ existsb Unicode.char_isupper (Unicode.of_latin1 s)
                   = PyStr.has_upper s)
  /\ Unicode.unit_in_registry (Unicode.of_latin1 "ALPHA")
       (Unicode.load_agents (map Unicode.of_latin1_item sample_environ)) = false
  /\ (forall k, In k (PyDict.keys (load_agents sample_environ)) ->
       PyStr.has_upper k = false /\ PyStr.lower k = k)
  /\ (forall k, In k (PyDict.keys (load_agents sample_environ)) <->
      exists key value,
        In (key, value) sample_environ
        /\ PyStr.startswith key "REI_AGENT_SECRET_" = true
        /\ value <> ""
        /\ k = PyStr.lower (PyStr.replace key "REI_AGENT_SECRET_" ""))
  /\ (forall rest value,
        In (("REI_AGENT_SECRET_" ++ rest)%string, value) sample_environ -> value <> "" ->
        PyStr.contains rest "REI_AGENT_SECRET_" = false ->
        In (PyStr.lower rest) (PyDict.keys (load_agents sample_environ)))
  /\ PyDict.mem "ALPHA" (load_agents sample_environ) = false
  /\ chat_with_specific_unit (answers hello_response) "ALPHA" (mkQuery "hi" None) st =
       (http_error 404
          (Text (unit_not_found_detail "ALPHA"
                   (PyDict.keys (load_agents sample_environ)))),
        st).
Proof.
  apply (registry_keys_are_lowered Unicode.upsilon_environ
           (Unicode.of_latin1 "ALPHA") sample_environ (answers hello_response)
           "ALPHA" (mkQuery "hi" None) []).
  - vm_compute. reflexivity.
  - reflexivity.
Defined.


(** ** The handlers on sample inputs *)

Example load_sample_environ :
  load_agents sample_environ =
  [("alpha", "sk-alpha-0123456789"); ("beta", "sk-beta-9876543210")].
Proof. reflexivity. Qed.

Example load_same_unit_twice :
  load_agents [("REI_AGENT_SECRET_Alpha", "k1"); ("REI_AGENT_SECRET_BETA", "k2");
               ("REI_AGENT_SECRET_ALPHA", "k3")]
  = [("alpha", "k3"); ("beta", "k2")].
Proof. reflexivity. Qed.

Example load_removes_every_occurrence :
  load_agents [("REI_AGENT_SECRET_REI_AGENT_SECRET_X", "k")] = [("x", "k")].
Proof. reflexivity. Qed.

Example repr_list_quotes :
  PyStr.repr_list ["alpha"; "it's"; String (ascii_of_N 10) "b"]
  = ("['alpha', " ++ quoted "it's" ++ ", '\nb']")%string.
Proof. reflexivity. Qed.

Example units_of_sample_state :
  result_of (list_available_units sample_state) =
  inr (PDict [("units", PList [PStr "alpha"; PStr "beta"]); ("count", PInt 2)]).
Proof. reflexivity. Qed.

Example chat_hello :
  chat_with_specific_unit (answers hello_response) "beta" (mkQuery "hi" None)
    sample_state =
  (inr (chat_response (PStr "hello") "beta" "hi"
          (PDict [("choices",
                   PList [PDict [("message",
                                  PDict [("content", PStr "hello")])]])])),
   after_post sample_state (chat_request "sk-beta-9876543210" "hi")).
Proof. reflexivity. Qed.

Example chat_connection_error :
  result_of (chat_with_specific_unit
               (fails (LibraryError "ConnectError" "All connection attempts failed"))
               "alpha" (mkQuery "hi" None) sample_state) =
  http_error 500
    (StrOf (LibraryError "ConnectError" "All connection attempts failed")).
Proof. reflexivity. Qed.

Example chat_body_not_json :
  result_of (chat_with_specific_unit
               (answers (mkResponse 200 "<html>" (inl "Expecting value")))
               "alpha" (mkQuery "hi" None) sample_state) =
  http_error 500 (StrOf (DecodeError "Expecting value")).
Proof. reflexivity. Qed.

(** * Further properties of the module *)

(** ** The registry, variable by variable *)

Lemma get_set_other {V} (d : PyDict.t V) (k k' : string) (v : V) :
  k <> k' -> PyDict.get (PyDict.set d k' v) k = PyDict.get d k.
Proof.
  intros Hk. induction d as [|[k0 v0] d IH]; simpl.
  - destruct (String.eqb_spec k k'); [contradiction | reflexivity].
  - destruct (String.eqb_spec k' k0) as [->|H0]; simpl.
    + destruct (String.eqb_spec k k0); [contradiction | reflexivity].
    + destruct (String.eqb_spec k k0); [reflexivity | exact IH].
Qed.

Lemma load_step_skip (agents : PyDict.t string) (item : string * string) :
  configures item = false -> load_step agents item = agents.
Proof.
  destruct item as [key value]. unfold configures, load_step. simpl.
  now intros ->.
Qed.

Lemma load_step_set (agents : PyDict.t string) (item : string * string) :
  configures item = true ->
  load_step agents item =
  PyDict.set agents (unit_name_of (fst item)) (snd item).
Proof.
  destruct item as [key value]. unfold configures, load_step. simpl.
  now intros ->.
Qed.

Lemma load_step_get_other (agents : PyDict.t string) (item : string * string)
    (k : string) :
  (configures item = true -> unit_name_of (fst item) <> k) ->
  PyDict.get (load_step agents item) k = PyDict.get agents k.
Proof.
  intros H. destruct (configures item) eqn:C.
  - rewrite (load_step_set agents item C).
    apply get_set_other. intros ->. now apply H.
  - now rewrite (load_step_skip agents item C).
Qed.

Lemma fold_load_get_other (after : list (string * string)) (k : string) :
  (forall item, In item after -> configures item = true ->
                unit_name_of (fst item) <> k) ->
  forall agents,
    PyDict.get (fold_left load_step after agents) k = PyDict.get agents k.
Proof.
  induction after as [|item after IH]; intros H agents; simpl.
  - reflexivity.
  - rewrite IH by (intros i Hi; apply H; now right).
    apply load_step_get_other. apply H. now left.
Qed.

(** X1. When several variables configure the same unit name, the credential
    of the last of them is the one kept. *)
Theorem load_agents_last_wins (before after : list (string * string))
    (key value : string)
    (Hcfg : configures (key, value) = true)
    (Hlast : forall item, In item after -> configures item = true ->
                          unit_name_of (fst item) <> unit_name_of key) :
  PyDict.get (load_agents (before ++ (key, value) :: after))
    (PyStr.lower (PyStr.replace key "REI_AGENT_SECRET_" ""))
  = Some value.
Proof.
  change (PyStr.lower (PyStr.replace key "REI_AGENT_SECRET_" ""))
    with (unit_name_of key).
  unfold load_agents. rewrite fold_left_app. cbn [fold_left].
  rewrite (fold_load_get_other after (unit_name_of key) Hlast).
  rewrite (load_step_set _ (key, value) Hcfg). cbn [fst snd].
  apply PyDictFacts.get_set_same.
Qed.

Lemma load_agents_last_wins_witness :
  PyDict.get
    (load_agents ([("REI_AGENT_SECRET_Alpha", "k1")] ++
                  ("REI_AGENT_SECRET_ALPHA", "k2") ::
                  [("REI_AGENT_SECRET_BETA", "k3"); ("HOME", "/root")]))
    (PyStr.lower (PyStr.replace "REI_AGENT_SECRET_ALPHA" "REI_AGENT_SECRET_" ""))
  = Some "k2".
Proof.
  apply (load_agents_last_wins [("REI_AGENT_SECRET_Alpha", "k1")]
           [("REI_AGENT_SECRET_BETA", "k3"); ("HOME", "/root")]
           "REI_AGENT_SECRET_ALPHA" "k2").
  - reflexivity.
  - intros item [<-|[<-|[]]] _; vm_compute; discriminate.
Defined.

(** X2. A credential of the registry is never empty, and it is the value of
    a variable whose name starts with the prefix and gives the unit's
    name. *)
Theorem load_agents_credentials (environ : list (string * string))
    (k secret : string)
    (Hget : PyDict.get (load_agents environ) k = Some secret) :
  secret <> ""
  /\ exists key,
       In (key, secret) environ
       /\ PyStr.startswith key "REI_AGENT_SECRET_" = true
       /\ k = PyStr.lower (PyStr.replace key "REI_AGENT_SECRET_" "").
Proof.
  set (Q := fun (l : list (string * string)) (k secret : string) =>
              secret <> ""
              /\ exists key,
                   In (key, secret) l
                   /\ PyStr.startswith key "REI_AGENT_SECRET_" = true
                   /\ k = PyStr.lower (PyStr.replace key "REI_AGENT_SECRET_" "")).
  assert (G : forall l agents,
             (forall k v, PyDict.get agents k = Some v -> Q environ k v) ->
             incl l environ ->
             forall k v, PyDict.get (fold_left load_step l agents) k = Some v ->
                         Q environ k v).
  { induction l as [|[key value] l IH]; intros agents Hag Hincl k0 v0;
      cbn [fold_left].
    - apply Hag.
    - apply IH; [|intros x Hx; apply Hincl; now right].
      intros k1 v1. destruct (configures (key, value)) eqn:C.
      + rewrite (load_step_set agents _ C). cbn [fst snd].
        destruct (String.eqb_spec k1 (unit_name_of key)) as [->|Hne].
        * rewrite PyDictFacts.get_set_same. intros [= <-].
          unfold configures in C. cbn [fst snd] in C.
          apply andb_true_iff in C as [Hs Hv]. apply negb_true_iff in Hv.
          split; [intros ->; discriminate|].
          exists key. split; [apply Hincl; now left|]. split; [exact Hs|].
          reflexivity.
        * rewrite (get_set_other agents k1 (unit_name_of key) value Hne).
          apply Hag.
      + rewrite (load_step_skip agents _ C). apply Hag. }
  apply (G environ []); [discriminate | apply incl_refl | exact Hget].
Qed.

Lemma load_agents_credentials_witness :
  "sk-beta-9876543210" <> ""
  /\ exists key,
       In (key, "sk-beta-9876543210") sample_environ
       /\ PyStr.startswith key "REI_AGENT_SECRET_" = true
       /\ "beta" = PyStr.lower (PyStr.replace key "REI_AGENT_SECRET_" "").
Proof.
  exact (load_agents_credentials sample_environ "beta" "sk-beta-9876543210"
           eq_refl).
Defined.

(** X5. Variables that do not configure a unit, for want of the prefix or
    of a value, leave no trace in the registry. *)
Theorem load_agents_ignores_the_rest (environ : list (string * string)) :
  load_agents (filter configures environ) = load_agents environ.
Proof.
  unfold load_agents. generalize (@nil (string * string)) as agents.
  induction environ as [|item environ IH]; intros agents; cbn [filter].
  - reflexivity.
  - destruct (configures item) eqn:C; cbn [fold_left].
    + apply IH.
    + rewrite (load_step_skip agents item C). apply IH.
Qed.

(** ** The order of the units *)

Lemma filter_filter {A} (f g : A -> bool) (l : list A) :
  filter f (filter g l) = filter (fun x => f x && g x) l.
Proof.
  induction l as [|x l IH]; simpl; [reflexivity|].
  destruct (g x); simpl; rewrite ?andb_true_r, ?andb_false_r;
    [destruct (f x)|]; now rewrite IH.
Qed.

Lemma existsb_eqb_In (y : string) (seen : list string) :
  existsb (String.eqb y) seen = true <-> In y seen.
Proof.
  rewrite existsb_exists. split.
  - intros (x & Hx & E). apply String.eqb_eq in E. now subst.
  - intros H. exists y. split; [exact H | apply String.eqb_refl].
Qed.

Lemma mem_existsb {V} (d : PyDict.t V) (k : string) :
  PyDict.mem k d = existsb (String.eqb k) (PyDict.keys d).
Proof.
  unfold PyDict.mem. induction d as [|[k' v] d IH]; simpl; [reflexivity|].
  destruct (String.eqb k k'); [reflexivity | exact IH].
Qed.

Lemma fold_load_order (environ : list (string * string)) :
  forall agents : PyDict.t string,
    PyDict.keys (fold_left load_step environ agents) =
    PyDict.keys agents ++
    filter (fun y => negb (existsb (String.eqb y) (PyDict.keys agents)))
      (first_occurrences (configured_names environ)).
Proof.
  unfold configured_names.
  induction environ as [|item environ IH]; intros agents;
    cbn [fold_left filter map first_occurrences].
  - now rewrite app_nil_r.
  - destruct (configures item) eqn:C.
    + rewrite IH, (load_step_set agents item C), PyDictFacts.keys_set.
      cbn [map first_occurrences filter]. rewrite filter_filter.
      set (k := unit_name_of (fst item)).
      rewrite (mem_existsb agents k).
      destruct (existsb (String.eqb k) (PyDict.keys agents)) eqn:E.
      * cbn [negb]. f_equal. apply filter_ext_in. intros y _.
        destruct (String.eqb_spec y k) as [->|Hy].
        -- now rewrite E.
        -- now rewrite andb_true_r.
      * cbn [negb]. rewrite <- app_assoc. cbn [app]. do 2 f_equal.
        apply filter_ext. intros y. rewrite existsb_app. cbn [existsb].
        rewrite orb_false_r, negb_orb. reflexivity.
    + rewrite (load_step_skip agents item C). apply IH.
Qed.

Lemma first_occurrences_In (l : list string) (x : string) :
  In x (first_occurrences l) <-> In x l.
Proof.
  induction l as [|y l IH]; simpl; [tauto|].
  rewrite filter_In, IH, negb_true_iff.
  destruct (String.eqb_spec x y) as [->|H]; intuition congruence.
Qed.

Lemma first_occurrences_NoDup (l : list string) : NoDup (first_occurrences l).
Proof.
  induction l as [|y l IH]; simpl; constructor.
  - rewrite filter_In, String.eqb_refl. intros [_ H]. discriminate.
  - now apply NoDup_filter.
Qed.

Lemma first_occurrences_length (l : list string) :
  List.length (first_occurrences l) <= List.length l.
Proof.
  induction l as [|y l IH]; simpl; [lia|].
  pose proof (filter_length_le (fun z => negb (String.eqb z y))
                (first_occurrences l)). lia.
Qed.

(** X4. The keys of the registry are the unit names that the environment
    configures, each once, in the order in which they first occur; so
    [GET /units] never lists a unit twice, and its count is at most the
    number of configuring variables. *)
Theorem units_in_order_of_first_occurrence (environ : list (string * string)) :
  PyDict.keys (load_agents environ) =
    first_occurrences
      (map (fun item => PyStr.lower (PyStr.replace (fst item) "REI_AGENT_SECRET_" ""))
         (filter configures environ))
  /\ NoDup (PyDict.keys (load_agents environ))
  /\ result_of (list_available_units (startup environ)) =
       inr (PDict [("units",
                    PList (map PStr (first_occurrences (configured_names environ))));
                   ("count",
                    PInt (Z.of_nat
                            (List.length
                               (first_occurrences (configured_names environ)))))])
  /\ List.length (first_occurrences (configured_names environ))
     <= List.length (filter configures environ).
Proof.
  assert (E : PyDict.keys (load_agents environ)
              = first_occurrences (configured_names environ)).
  { unfold load_agents. rewrite fold_load_order. cbn [PyDict.keys map app existsb negb].
    clear. induction (first_occurrences _) as [|x l IH]; simpl; congruence. }
  split; [exact E|]. split; [rewrite E; apply first_occurrences_NoDup|].
  split.
  - unfold result_of, list_available_units, bind, get_agents, ret, startup.
    cbn [fst rei_agents]. rewrite PyDictFacts.len_keys, E. reflexivity.
  - pose proof (first_occurrences_length (configured_names environ)) as L.
    unfold configured_names in L at 2. now rewrite length_map in L.
Qed.

(** X3. The registry is empty exactly when no variable of the environment
    configures a unit, and then the startup message is the error
    "No REI agent secrets found!"; otherwise the message is an INFO that
    gives the number of units and their names. *)
Theorem startup_without_units (environ : list (string * string)) :
  (load_agents environ = [] <-> filter configures environ = [])
  /\ startup_log (load_agents environ) =
     match filter configures environ with
     | [] => (ERROR, "No REI agent secrets found!")
     | _ :: _ =>
         (INFO,
          ("Loaded "
           ++ str_of_len
                (Z.of_nat (List.length (PyDict.keys (load_agents environ))))
           ++ " REI agents: "
           ++ PyStr.repr_list (PyDict.keys (load_agents environ)))%string)
     end.
Proof.
  assert (E : load_agents environ = [] <-> filter configures environ = []).
  { rewrite <- (load_agents_ignores_the_rest environ).
    destruct (filter configures environ) as [|item l] eqn:F.
    - split; reflexivity.
    - split; [|discriminate]. intros H. exfalso.
      assert (C : configures item = true).
      { apply (proj1 (filter_In configures item environ)).
        rewrite F. now left. }
      assert (Hin : In (unit_name_of (fst item))
                      (PyDict.keys (load_agents (item :: l)))).
      { apply load_agents_keys. exists item. split; [now left|]. now split. }
      rewrite H in Hin. exact Hin. }
  split; [exact E|].
  unfold startup_log. rewrite <- PyDictFacts.len_keys.
  destruct (filter configures environ) as [|item l].
  - now rewrite (proj2 E eq_refl).
  - assert (Hne : load_agents environ <> [])
      by (intros L; apply E in L; discriminate).
    destruct (load_agents environ) as [|a d]; [contradiction | reflexivity].
Qed.

(** ** The chat handler: failures, and what it does not read *)

(** X6. The units that [GET /units] lists are those that [POST /chat]
    serves: for a listed unit the chat handler sends its request, for any
    other it raises the unit-not-found 404 and leaves the state alone. *)
Theorem listed_units_are_served (upstream : upstream_t) (unit_id : string)
    (query : Query) (st : State) :
  let listed := PyDict.keys (rei_agents st) in
  let run := chat_with_specific_unit upstream unit_id query st in
  result_of (list_available_units st) =
    inr (PDict [("units", PList (map PStr listed));
                ("count", PInt (Z.of_nat (List.length listed)))])
  /\ (In unit_id listed <->
      exists secret,
        PyDict.get (rei_agents st) unit_id = Some secret
        /\ sent (snd run) = sent st ++ [chat_request secret (text query)])
  /\ (~ In unit_id listed <->
      run = (http_error 404 (Text (unit_not_found_detail unit_id listed)), st)).
Proof.
  cbv zeta. split.
  { unfold result_of, list_available_units, bind, get_agents, ret.
    cbn [fst]. now rewrite PyDictFacts.len_keys. }
  pose proof (chat_state upstream unit_id query st) as S.
  destruct (PyDict.get (rei_agents st) unit_id) as [secret|] eqn:G.
  - assert (Hin : In unit_id (PyDict.keys (rei_agents st))).
    { apply PyDictFacts.mem_keys. unfold PyDict.mem. now rewrite G. }
    split.
    + split; [|intros _; exact Hin].
      intros _. exists secret. split; [reflexivity|]. now rewrite S.
    + split; [intros H; now elim H|].
      intros E. exfalso. rewrite E in S. cbn [snd] in S.
      apply (f_equal (fun s => List.length (sent s))) in S.
      unfold after_post in S. cbn [sent] in S.
      rewrite length_app in S. simpl in S. lia.
  - assert (Hnin : ~ In unit_id (PyDict.keys (rei_agents st)))
      by now apply PyDictFacts.get_none_keys.
    split.
    + split; [intros H; now elim Hnin|]. intros (secret & E & _). discriminate.
    + split; [|intros _; exact Hnin].
      intros _. now apply chat_unknown_unit.
Qed.

(** X7. Only a read timeout becomes a 504: when [client.post] raises any
    other exception, a connect timeout or a refused connection for
    instance, the chat handler raises a 500 whose detail is the description
    of that exception; the request was sent once. *)
Theorem chat_post_failure_is_a_500 (upstream : upstream_t) (unit_id : string)
    (query : Query) (st : State) (secret : string) (e : pyexn)
    (Hunit : PyDict.get (rei_agents st) unit_id = Some secret)
    (Hup : upstream (chat_request secret (text query)) = inl e)
    (Hother : forall description, e <> ReadTimeout description) :
  chat_with_specific_unit upstream unit_id query st =
  (http_error 500 (StrOf e),
   mkState (rei_agents st) (sent st ++ [chat_request secret (text query)])).
Proof.
  rewrite (chat_post_raises upstream unit_id query st secret e Hunit Hup).
  destruct e; try reflexivity. now elim (Hother description).
Qed.

Lemma chat_post_failure_is_a_500_witness :
  chat_with_specific_unit (fails (LibraryError "ConnectTimeout" "")) "alpha"
    (mkQuery "hi" None) sample_state =
  (http_error 500 (StrOf (LibraryError "ConnectTimeout" "")),
   mkState (rei_agents sample_state)
     (sent sample_state ++ [chat_request "sk-alpha-0123456789" "hi"])).
Proof.
  apply (chat_post_failure_is_a_500 (fails (LibraryError "ConnectTimeout" ""))
           "alpha" (mkQuery "hi" None) sample_state "sk-alpha-0123456789"
           (LibraryError "ConnectTimeout" "")).
  - reflexivity.
  - reflexivity.
  - discriminate.
Defined.

(** X8. A 200 response whose body cannot be decoded as JSON ends in a 500
    whose detail is the description of the decoding error, whatever the
    body is. *)
Theorem chat_undecodable_body (upstream : upstream_t) (unit_id : string)
    (query : Query) (st : State) (secret : string) (response : Response)
    (description : string)
    (Hunit : PyDict.get (rei_agents st) unit_id = Some secret)
    (Hup : upstream (chat_request secret (text query)) = inr response)
    (Hstatus : resp_status_code response = 200%Z)
    (Hjson : resp_json response = inl description) :
  chat_with_specific_unit upstream unit_id query st =
  (http_error 500 (StrOf (DecodeError description)),
   mkState (rei_agents st) (sent st ++ [chat_request secret (text query)])).
Proof.
  rewrite (chat_known_unit upstream unit_id query st secret Hunit).
  cbv zeta. rewrite Hup.
  unfold try_except, handle_response, response_json.
  now rewrite Hstatus, Hjson.
Qed.

Lemma chat_undecodable_body_witness :
  chat_with_specific_unit
    (answers (mkResponse 200 "<html>" (inl "Expecting value")))
    "alpha" (mkQuery "hi" None) sample_state =
  (http_error 500 (StrOf (DecodeError "Expecting value")),
   mkState (rei_agents sample_state)
     (sent sample_state ++ [chat_request "sk-alpha-0123456789" "hi"])).
Proof.
  exact (chat_undecodable_body
           (answers (mkResponse 200 "<html>" (inl "Expecting value")))
           "alpha" (mkQuery "hi" None) sample_state "sk-alpha-0123456789"
           (mkResponse 200 "<html>" (inl "Expecting value")) "Expecting value"
           eq_refl eq_refl eq_refl eq_refl).
Defined.

(** X9. The content is read from the first choice alone: two bodies whose
    [choices] are lists with the same first element give the same content,
    or the same exception, whatever the other choices and the other keys of
    the bodies are. *)
Theorem content_comes_from_the_first_choice
    (d1 d2 : list (string * pyval)) (first : pyval) (rest1 rest2 : list pyval)
    (st : State)
    (H1 : PyDict.get d1 "choices" = Some (PList (first :: rest1)))
    (H2 : PyDict.get d2 "choices" = Some (PList (first :: rest2))) :
  extract_content (PDict d1) st = extract_content (PDict d2) st.
Proof.
  unfold extract_content, bind, lift, raise_exn, raise, ret, py_contains,
    py_getitem_str, py_len, py_getitem_0, PyDict.mem.
  rewrite H1, H2. reflexivity.
Qed.

Lemma content_comes_from_the_first_choice_witness :
  extract_content
    (PDict [("choices", PList [PDict [("message", PDict [("content", PStr "a")])];
                               PDict [("message", PDict [("content", PStr "b")])]])])
    sample_state =
  extract_content
    (PDict [("id", PStr "r1");
            ("choices", PList [PDict [("message", PDict [("content", PStr "a")])]])])
    sample_state.
Proof.
  exact (content_comes_from_the_first_choice
           [("choices",
             PList [PDict [("message", PDict [("content", PStr "a")])];
                    PDict [("message", PDict [("content", PStr "b")])]])]
           [("id", PStr "r1");
            ("choices",
             PList [PDict [("message", PDict [("content", PStr "a")])]])]
           (PDict [("message", PDict [("content", PStr "a")])])
           [PDict [("message", PDict [("content", PStr "b")])]] []
           sample_state eq_refl eq_refl).
Defined.


(** ** A run of requests *)

Lemma route_state (upstream : upstream_t) (r : inbound) (st : State) :
  snd (route upstream r st) =
  match r with
  | POST_chat unit_id query =>
      match PyDict.get (rei_agents st) unit_id with
      | Some secret => after_post st (chat_request secret (text query))
      | None => st
      end
  | _ => st
  end.
Proof.
  destruct r as [unit_id query| |]; cbn [route].
  - apply chat_state.
  - reflexivity.
  - reflexivity.
Qed.

(** X11. Whatever requests are served and whatever the upstream answers,
    the registry stays as it was loaded; each chat request for a unit of the
    registry adds one request to those sent, built from a credential of the
    registry, and no other request adds any; and [GET /units] and
    [GET /health] answer after the run as they did before. *)
Theorem serving_keeps_the_registry (world : list Request -> upstream_t)
    (rs : list inbound) (st : State) :
  let run := serve_all world rs st in
  rei_agents (snd run) = rei_agents st
  /\ List.length (fst run) = List.length rs
  /\ (exists new,
        sent (snd run) = sent st ++ new
        /\ List.length new = List.length (chats_to_known (rei_agents st) rs)
        /\ forall req, In req new ->
             exists unit_id secret content_text,
               PyDict.get (rei_agents st) unit_id = Some secret
               /\ req = chat_request secret content_text)
  /\ result_of (list_available_units (snd run))
     = result_of (list_available_units st)
  /\ result_of (health_check (snd run)) = result_of (health_check st).
Proof.
  cbv zeta.
  assert (G : rei_agents (snd (serve_all world rs st)) = rei_agents st
    /\ List.length (fst (serve_all world rs st)) = List.length rs
    /\ exists new,
        sent (snd (serve_all world rs st)) = sent st ++ new
        /\ List.length new = List.length (chats_to_known (rei_agents st) rs)
        /\ forall req, In req new ->
             exists unit_id secret content_text,
               PyDict.get (rei_agents st) unit_id = Some secret
               /\ req = chat_request secret content_text).
  { revert st. induction rs as [|r rs IH]; intros st; cbn [serve_all].
    - repeat split. exists []. rewrite app_nil_r. repeat split.
      intros req [].
    - pose proof (route_state (world (sent st)) r st) as S.
      destruct (route (world (sent st)) r st) as [res st1]. cbn [snd] in S.
      specialize (IH st1).
      destruct (serve_all world rs st1) as [out st2]. cbn [fst snd] in *.
      destruct IH as (Hreg & Hlen & new & Hsent & Hnew & Hfrom).
      assert (Hreg1 : rei_agents st1 = rei_agents st).
      { subst st1. destruct r as [u q| |]; try reflexivity.
        now destruct (PyDict.get (rei_agents st) u). }
      rewrite Hreg1 in *.
      split; [exact Hreg|]. split; [simpl; now rewrite Hlen|].
      destruct r as [u q| |]; cbn [chats_to_known filter];
        fold (chats_to_known (rei_agents st) rs).
      + unfold PyDict.mem.
        destruct (PyDict.get (rei_agents st) u) as [secret|] eqn:Gu.
        * exists (chat_request secret (text q) :: new).
          subst st1. unfold after_post in Hsent. cbn [sent] in Hsent.
          rewrite <- app_assoc in Hsent. cbn [app] in Hsent.
          split; [exact Hsent|]. split; [simpl; now rewrite Hnew|].
          intros req [<-|Hin]; [now exists u, secret, (text q) | now apply Hfrom].
        * subst st1. exists new. repeat split; assumption.
      + subst st1. exists new. repeat split; assumption.
      + subst st1. exists new. repeat split; assumption. }
  destruct G as (Hreg & Hlen & Hnew).
  split; [exact Hreg|]. split; [exact Hlen|]. split; [exact Hnew|].
  unfold result_of, list_available_units, health_check, bind, get_agents, ret.
  cbn [fst]. now rewrite Hreg.
Qed.

(** ** The masked header *)

Lemma length_app_str (a b : string) :
  String.length (a ++ b) = String.length a + String.length b.
Proof. induction a as [|c a IH]; simpl; [reflexivity | now rewrite IH]. Qed.

Lemma slice_to_from (n : nat) (s : string) :
  (slice_to n s ++ slice_from n s)%string = s.
Proof.
  revert s. induction n as [|n IH]; intros [|c s]; simpl; try reflexivity.
  now rewrite IH.
Qed.

Lemma length_slice_to (n : nat) (s : string) :
  String.length (slice_to n s) = Nat.min n (String.length s).
Proof.
  revert s. induction n as [|n IH]; intros [|c s]; simpl; try reflexivity.
  now rewrite IH.
Qed.

Lemma length_slice_from (n : nat) (s : string) :
  String.length (slice_from n s) = String.length s - n.
Proof.
  revert s. induction n as [|n IH]; intros [|c s]; simpl; try reflexivity.
  apply IH.
Qed.

Lemma slice_to_all (n : nat) (s : string) :
  String.length s <= n -> slice_to n s = s.
Proof.
  revert s. induction n as [|n IH]; intros [|c s] H; simpl in *;
    try reflexivity; try lia.
  rewrite IH; [reflexivity | lia].
Qed.

Lemma slice_from_add (a b : nat) (s : string) :
  slice_from (a + b) s = slice_from b (slice_from a s).
Proof.
  revert s. induction a as [|a IH]; intros s; simpl; [reflexivity|].
  destruct s as [|c s]; [now destruct b | apply IH].
Qed.

Lemma slice_to_app (a x : string) :
  slice_to (String.length a) (a ++ x) = a.
Proof. induction a as [|c a IH]; simpl; [now destruct x | now rewrite IH]. Qed.

Lemma slice_from_app (a x : string) :
  slice_from (String.length a) (a ++ x) = x.
Proof. induction a as [|c a IH]; simpl; [now destruct x | exact IH]. Qed.

Lemma app_inj_length (a1 a2 x y : string) :
  String.length a1 = String.length a2 ->
  (a1 ++ x)%string = (a2 ++ y)%string -> a1 = a2 /\ x = y.
Proof.
  revert a2. induction a1 as [|c a1 IH]; intros [|c2 a2] L E; simpl in *;
    try discriminate.
  - now split.
  - injection E as -> E. injection L as L.
    destruct (IH a2 L E) as [-> ->]. now split.
Qed.

(** X12. A credential of at most 10 characters is not masked at all: the
    header built for the log has it whole after "Bearer ", followed by
    "..." and its last 4 characters again. *)
Theorem short_secret_is_logged_whole (secret : string)
    (Hshort : String.length secret <= 10) :
  masked_authorization secret =
  ("Bearer " ++ secret ++ "..." ++ slice_last 4 secret)%string
  /\ (String.length secret <= 4 ->
      masked_authorization secret = ("Bearer " ++ secret ++ "..." ++ secret)%string).
Proof.
  unfold masked_authorization. rewrite (slice_to_all 10 secret Hshort).
  split; [reflexivity|]. intros H4. unfold slice_last.
  replace (String.length secret - 4) with 0 by lia. reflexivity.
Qed.

Lemma short_secret_is_logged_whole_witness :
  masked_authorization "hunter2" =
  ("Bearer " ++ "hunter2" ++ "..." ++ slice_last 4 "hunter2")%string
  /\ (String.length "hunter2" <= 4 ->
      masked_authorization "hunter2" =
      ("Bearer " ++ "hunter2" ++ "..." ++ "hunter2")%string).
Proof.
  apply (short_secret_is_logged_whole "hunter2"). simpl. lia.
Defined.

(** X13. For credentials of a given length of at most 14 characters the
    mask hides nothing: two of them with the same masked header are the
    same credential. *)
Theorem mask_hides_nothing_up_to_14 (secret1 secret2 : string)
    (Hlen : String.length secret1 = String.length secret2)
    (Hshort : String.length secret1 <= 14)
    (Hmask : masked_authorization secret1 = masked_authorization secret2) :
  secret1 = secret2.
Proof.
  unfold masked_authorization in Hmask.
  apply PyStrFacts.append_cancel in Hmask.
  apply app_inj_length in Hmask as [Hto Hrest];
    [|rewrite !length_slice_to; now rewrite Hlen].
  apply PyStrFacts.append_cancel in Hrest. unfold slice_last in Hrest.
  rewrite <- Hlen in Hrest.
  rewrite <- (slice_to_from 10 secret1), <- (slice_to_from 10 secret2).
  rewrite Hto. f_equal.
  replace 10 with ((String.length secret1 - 4) + (10 - (String.length secret1 - 4)))
    by lia.
  now rewrite !slice_from_add, Hrest.
Qed.

Lemma mask_hides_nothing_up_to_14_witness : "sk-0123456789" = "sk-0123456789".
Proof.
  apply (mask_hides_nothing_up_to_14 "sk-0123456789" "sk-0123456789").
  - reflexivity.
  - simpl. lia.
  - reflexivity.
Defined.

(** X14. From 15 characters on the mask does hide something: the masked
    header has 24 characters whatever the credential is, and changing the
    character at index 10 gives another credential of the same length with
    the same masked header. *)
Theorem mask_hides_the_middle_from_15 (secret : string)
    (Hlong : 15 <= String.length secret) :
  String.length (masked_authorization secret) = 24
  /\ change_at_10 secret <> secret
  /\ String.length (change_at_10 secret) = String.length secret
  /\ masked_authorization (change_at_10 secret) = masked_authorization secret.
Proof.
  pose proof (slice_to_from 10 secret) as Hsplit.
  pose proof (length_slice_to 10 secret) as Lto.
  pose proof (length_slice_from 10 secret) as Lfrom.
  rewrite Nat.min_l in Lto by lia.
  unfold change_at_10.
  destruct (slice_from 10 secret) as [|c rest] eqn:Efrom;
    [simpl in Lfrom; lia|].
  simpl in Lfrom.
  assert (Hlen : String.length (slice_to 10 secret ++ String (other_char c) rest)
                 = String.length secret).
  { rewrite length_app_str. cbn [String.length]. lia. }
  split; [|split; [|split; [exact Hlen|]]].
  - unfold masked_authorization, slice_last.
    rewrite !length_app_str, Lto, length_slice_from.
    change (String.length "Bearer ") with 7.
    change (String.length "...") with 3. lia.
  - intros E.
    assert (E' : (slice_to 10 secret ++ String (other_char c) rest)%string
                 = (slice_to 10 secret ++ String c rest)%string)
      by (rewrite Hsplit; exact E).
    apply PyStrFacts.append_cancel in E'.
    assert (Hc : other_char c = c) by congruence.
    unfold other_char in Hc.
    destruct (Ascii.eqb_spec c "a"); subst; discriminate.
  - unfold masked_authorization, slice_last. rewrite Hlen.
    assert (Hlast : forall x,
              slice_from (String.length secret - 4)
                (slice_to 10 secret ++ String x rest)
              = slice_from (String.length secret - 15) rest).
    { intros x.
      replace (String.length secret - 4)
        with (String.length (slice_to 10 secret)
              + S (String.length secret - 15)) by lia.
      rewrite slice_from_add, slice_from_app. reflexivity. }
    rewrite (Hlast (other_char c)).
    assert (Hsame : slice_from (String.length secret - 4) secret
                    = slice_from (String.length secret - 15) rest)
      by (rewrite <- Hsplit at 2; apply Hlast).
    rewrite Hsame. do 2 f_equal.
    rewrite <- Lto at 1. apply slice_to_app.
Qed.

Lemma mask_hides_the_middle_from_15_witness :
  String.length (masked_authorization "sk-alpha-0123456789") = 24
  /\ change_at_10 "sk-alpha-0123456789" <> "sk-alpha-0123456789"
  /\ String.length (change_at_10 "sk-alpha-0123456789")
     = String.length "sk-alpha-0123456789"
  /\ masked_authorization (change_at_10 "sk-alpha-0123456789")
     = masked_authorization "sk-alpha-0123456789".
Proof.
  apply (mask_hides_the_middle_from_15 "sk-alpha-0123456789"). simpl. lia.
Defined.
